(** * SENSE: the device automation rules and the status store

    A shallow embedding of [control.py] (class [DeviceController]), of the
    status and alert functions of [db.py] and of the bulk buttons of the
    room page of [app.py], with the properties of the automation engine
    stated over it.

    SQL tables are lists of rows (or finite maps where the schema in [db.py]
    declares the primary key); a [SELECT ... WHERE] is a [filter], an
    [UPDATE ... WHERE] rewrites every matching row in place, an [INSERT]
    appends.  The wall clock is an oracle: the n-th reading of
    [datetime.now()] / [CURRENT_TIMESTAMP] is [clock n], and the state counts
    the readings taken so far.

    The store keeps integers in 64 bits: [sqlite3] raises [OverflowError]
    when it is asked to bind a Python [int] outside that range.  The
    functions of [db.py] catch the exception and answer [False] or an empty
    result, those of [control.py] let it propagate. *)

From stdpp Require Import gmap strings list fin_maps pretty sorting.
From Stdlib Require Import ZArith.

Local Open Scope string_scope.
Local Open Scope Z_scope.

(** ** Values that cross the Python / SQLite boundary *)

(** A Python argument as the automation code receives it. *)
Inductive pyval :=
  | PyNone
  | PyInt (z : Z)
  | PyStr (s : string).

(** Python truthiness: [if building_id:] *)
Definition truthy (v : pyval) : bool :=
  match v with
  | PyNone => false
  | PyInt z => negb (z =? 0)
  | PyStr s => negb (String.eqb s "")
  end.

(** [f"{v}"] *)
Definition py_format (v : pyval) : string :=
  match v with
  | PyNone => "None"
  | PyInt z => pretty z
  | PyStr s => s
  end.

(** A value as Python hands it to the store and as a dynamically typed
    column holds it: [None] / NULL, an [int] / INTEGER, a [float] / REAL
    (by the bit pattern of the double), a [str] / TEXT. *)
Inductive value :=
  | VNull
  | VInt (z : Z)
  | VReal (bits : Z)
  | VText (s : string).

Global Instance value_eq_dec : EqDecision value.
Proof. solve_decision. Defined.

(** The integers the store can hold. *)
Definition sqlite_int (z : Z) : Prop := - 2 ^ 63 ≤ z < 2 ^ 63.

Global Instance sqlite_int_dec z : Decision (sqlite_int z).
Proof. unfold sqlite_int. apply _. Defined.

(** Whether [cursor.execute] can bind a value to a [?]: an [int] outside
    the 64-bit range raises [OverflowError], before the statement runs. *)
Definition bindable (v : value) : bool :=
  match v with
  | VInt z => bool_decide (sqlite_int z)
  | _ => true
  end.

Definition bindable_arg (v : pyval) : bool :=
  match v with
  | PyInt z => bool_decide (sqlite_int z)
  | _ => true
  end.

(** The exceptions the modelled code can raise, and the outcome of a call
    that has no [try] around them. *)
Inductive exn :=
  | OverflowError
  | TypeError.

Inductive outcome (A : Type) :=
  | Returns (a : A)
  | Raises (e : exn).

Arguments Returns {A} a.
Arguments Raises {A} e.

(** The declared type of a column, which decides its affinity. *)
Inductive coltype :=
  | INTEGER
  | REAL
  | TEXT.

(** The conversions of the store that are left open here: what an INTEGER
    column makes of a text or a float, what a REAL column makes of any
    value but NULL, and what a TEXT column makes of a float. *)
Class Conversions := {
  converted : coltype -> value -> value
}.

(** Column affinity: what a column of declared type [ty] keeps of a value
    written to it.  NULL is kept; an INTEGER column keeps an integer; a
    TEXT column keeps a text and turns an integer into its decimal text. *)
Definition affinity `{!Conversions} (ty : coltype) (v : value) : value :=
  match v with
  | VNull => VNull
  | VInt z =>
      match ty with
      | INTEGER => VInt z
      | TEXT => VText (pretty z)
      | REAL => converted REAL v
      end
  | VReal _ => converted ty v
  | VText _ =>
      match ty with
      | TEXT => v
      | _ => converted ty v
      end
  end.

(** ** db.py: device status and alerts *)

Module Store.

(** Row of [device_status]; [device_id TEXT PRIMARY KEY] is the map key. *)
Record status_row := mk_status {
  is_on : bool;
  last_switched_on : option Z;
  last_switched_off : option Z;
  runtime_minutes : value;
  switch_count : value;
  temperature_setting : value;
  speed_setting : value;
  updated_at : option Z
}.

(** Row of [devices] (the NOT NULL columns and the room). *)
Record device_row := mk_device_row {
  device_name : string;
  device_type : string;
  room_id : value;
  power_rating : Z
}.

(** Row of [device_logs]. *)
Record log_row := mk_log {
  log_device_id : string;
  log_action : string;
  log_details : string
}.

(** Row of [system_alerts]. *)
Record alert_row := mk_alert {
  alert_type : string;
  title : string;
  message : string;
  alert_room_id : value;
  alert_device_id : value;
  is_read : bool;
  created_at : Z
}.

Record db := mk_db {
  devices : gmap string device_row;
  device_status : gmap string status_row;
  device_logs : list log_row;
  system_alerts : list alert_row;
  ticks : nat
}.

Definition set_device_status (m : gmap string status_row) (s : db) : db :=
  mk_db (devices s) m (device_logs s) (system_alerts s) (ticks s).

Definition set_system_alerts (l : list alert_row) (s : db) : db :=
  mk_db (devices s) (device_status s) (device_logs s) l (ticks s).

Definition tick (s : db) : db :=
  mk_db (devices s) (device_status s) (device_logs s) (system_alerts s)
        (S (ticks s)).

Section WithClock.

(** [CURRENT_TIMESTAMP], one reading per SQL statement. *)
Variable clock : nat -> Z.

Context `{!Conversions}.

(** The keyword arguments recognised by [update_device_status]:
    [for field, value in kwargs.items(): if field in [...]]. *)
Definition recognised : list string :=
  ["runtime_minutes"; "switch_count"; "temperature_setting";
   "speed_setting"].

(** Whether the values appended to [values] can be bound: [is_on] and
    [device_id] always can, the value of a recognised keyword unless it is
    an integer outside the 64-bit range. *)
Definition kwargs_bind (kwargs : gmap string value) : bool :=
  forallb (λ field, from_option bindable true (kwargs !! field)) recognised.

(** [field = ?] for a recognised keyword: the column keeps the bound value
    as its declared type converts it.  The keys of a dict are distinct, so
    each recognised column is assigned at most once. *)
Definition kwarg (kwargs : gmap string value) (field : string)
           (ty : coltype) (old : value) : value :=
  match kwargs !! field with
  | Some v => affinity ty v
  | None => old
  end.

(** The [UPDATE device_status SET ... WHERE device_id = ?] applied to the
    matching row. *)
Definition updated_row (now : Z) (on : bool) (kwargs : gmap string value)
           (r : status_row) : status_row :=
  {| is_on := on;
     last_switched_on := if on then Some now else last_switched_on r;
     last_switched_off := if on then last_switched_off r else Some now;
     runtime_minutes :=
       kwarg kwargs "runtime_minutes" INTEGER (runtime_minutes r);
     switch_count := kwarg kwargs "switch_count" INTEGER (switch_count r);
     temperature_setting :=
       kwarg kwargs "temperature_setting" REAL (temperature_setting r);
     speed_setting := kwarg kwargs "speed_setting" INTEGER (speed_setting r);
     updated_at := Some now |}.

(** [INSERT INTO device_status (device_id, is_on) VALUES (?, ?)]: every
    other column takes the default of the schema. *)
Definition inserted_row (now : Z) (on : bool) : status_row :=
  {| is_on := on;
     last_switched_on := None;
     last_switched_off := None;
     runtime_minutes := VInt 0;
     switch_count := VInt 0;
     temperature_setting := VNull;
     speed_setting := VNull;
     updated_at := Some now |}.

(** [update_device_status(device_id, is_on, **kwargs)].  When a keyword
    value cannot be bound, [cursor.execute] raises on the UPDATE, before
    anything is written, and the [except] branch returns [False].  Foreign
    keys are not enforced by the connection, so the INSERT never fails. *)
Definition update_device_status (device_id : string) (on : bool)
           (kwargs : gmap string value) (s : db) : bool * db :=
  if kwargs_bind kwargs then
    let now := clock (ticks s) in
    let s := tick s in
    match device_status s !! device_id with
    | Some r =>
        (true,
         set_device_status
           (<[device_id := updated_row now on kwargs r]> (device_status s)) s)
    | None =>
        (* cursor.rowcount == 0 *)
        let now' := clock (ticks s) in
        let s := tick s in
        (true,
         set_device_status
           (<[device_id := inserted_row now' on]> (device_status s)) s)
    end
  else
    (* except Exception: return False *)
    (false, s).


End WithClock.

(** *** get_device_status *)

(** [get_device_status(device_id)]: the row as a dict that also carries the
    identifier, or [None]. *)
Definition get_device_status (device_id : string) (s : db)
  : option (string * status_row) :=
  (λ r, (device_id, r)) <$> device_status s !! device_id.

(** *** Alerts: mark_alert_read, get_system_alerts *)

(** [alert_id INTEGER PRIMARY KEY AUTOINCREMENT]: [db.py] only ever inserts
    into [system_alerts] and a rejected insert takes no identifier, so the
    n-th row of the table, in insertion order, has [alert_id = n]. *)
Definition alert_id_at (i : nat) : Z := Z.of_nat (S i).

Definition with_alert_id (l : list alert_row) : list (Z * alert_row) :=
  imap (λ i a, (alert_id_at i, a)) l.

(** [SET is_read = TRUE] on one row. *)
Definition read (a : alert_row) : alert_row :=
  mk_alert (alert_type a) (title a) (message a) (alert_room_id a)
           (alert_device_id a) true (created_at a).

(** [mark_alert_read(alert_id)]: for an identifier the store can bind the
    result is [True] whether or not a row matched.  For one outside the
    64-bit range the bind raises and the result is [False]; nothing is
    written then, and the update below indeed leaves every table the store
    can hold as it is, as the identifiers it assigns lie within the
    range. *)
Definition mark_alert_read (alert_id : Z) (s : db) : bool * db :=
  (bool_decide (sqlite_int alert_id),
   set_system_alerts
     (imap (λ i a, if decide (alert_id_at i = alert_id) then read a else a)
           (system_alerts s)) s).

(** The WHERE clause [get_system_alerts] builds: [alert_type = ?] when the
    argument is truthy (a non-empty string), [is_read = FALSE] when
    [unread_only] is. *)
Definition alert_selected (ty : option string) (unread_only : bool)
           (p : Z * alert_row) : bool :=
  match ty with
  | Some t => if String.eqb t "" then true
              else bool_decide (alert_type (snd p) = t)
  | None => true
  end
  && (if unread_only then negb (is_read (snd p)) else true).

(** [ORDER BY created_at DESC]; rows with the same [created_at] come in an
    order the store does not specify. *)
Definition newer (x y : Z * alert_row) : Prop :=
  created_at (snd y) ≤ created_at (snd x).

Global Instance newer_dec x y : Decision (newer x y).
Proof. unfold newer. apply _. Defined.

(** [get_system_alerts(alert_type, unread_only)]: each row with its
    [alert_id]. *)
Definition get_system_alerts (ty : option string) (unread_only : bool)
           (s : db) : list (Z * alert_row) :=
  merge_sort newer
    (filter (λ p, alert_selected ty unread_only p = true)
            (with_alert_id (system_alerts s))).

(** *** get_devices_by_room *)

(** [ORDER BY device_type, device_name], in the bytewise order of the
    store; rows equal in both come in an order the store does not
    specify. *)
Definition by_type_then_name (x y : string * device_row) : Prop :=
  match String.compare (device_type (snd x)) (device_type (snd y)) with
  | Lt => True
  | Eq => String.leb (device_name (snd x)) (device_name (snd y)) = true
  | Gt => False
  end.

Global Instance by_type_then_name_dec x y : Decision (by_type_then_name x y).
Proof. unfold by_type_then_name. destruct (String.compare _ _); apply _. Defined.

(** [get_devices_by_room(room_number)]: the devices whose [room_id] is the
    given number, each with its identifier (of the columns, the ones the
    callers read); the empty list of the [except] branch when the number
    cannot be bound. *)
Definition get_devices_by_room (room_number : Z) (s : db)
  : list (string * device_row) :=
  if decide (sqlite_int room_number) then
    merge_sort by_type_then_name
      (filter (λ p, room_id (snd p) = VInt room_number)
              (map_to_list (devices s)))
  else [].

End Store.

(** ** control.py: the automation rules *)

Module Control.

(** Row of [rooms], with the columns the controller reads ([room[6]] is
    [is_vip] and [room[7]] is [is_critical] in [toggle_device]). *)
Record room := mk_room {
  r_id : Z;
  r_room_number : Z;
  r_occupancy : Z;
  r_is_vip : bool;
  r_is_critical : bool;
  r_building_id : Z;
  r_floor : Z
}.

(** Row of [devices]; [last_switched] is NULL until the first switch. *)
Record device := mk_device {
  d_id : Z;
  d_room_id : Z;
  d_device_name : string;
  d_device_type : string;
  d_is_on : bool;
  d_last_switched : option Z;
  d_status : string
}.

Global Instance room_eq_dec : EqDecision room.
Proof. solve_decision. Defined.

Global Instance device_eq_dec : EqDecision device.
Proof. solve_decision. Defined.

(** The [details] text of an activity-log row: the f-string template that
    produced it and the values in its holes. *)
Inductive details :=
  | EmptyRoomAutoControl (device_id : Z)
  | RoomAcSwap (room_id ac_id replacement_id : Z)
  | VipRoomDeviceControl (device_id : Z)
  | ShutdownScope (building_id floor : pyval).

Definition render (d : details) : string :=
  match d with
  | EmptyRoomAutoControl i => "Empty room auto-control: Device " +:+ pretty i
  | RoomAcSwap r a b =>
      "Room " +:+ pretty r +:+ ": AC " +:+ pretty a +:+ " -> AC " +:+ pretty b
  | VipRoomDeviceControl i => "VIP room device control: Device " +:+ pretty i
  | ShutdownScope b f =>
      "Building: " +:+ py_format b +:+ ", Floor: " +:+ py_format f
  end.

(** Row of [activity_logs]. *)
Record log_row := mk_log {
  user_id : Z;
  action : string;
  log_details : details
}.

(** The tables the controller works on, the alert sink of [db.py] (no
    statement of [control.py] writes it) and the number of clock readings
    taken so far. *)
Record db := mk_db {
  rooms : list room;
  devices : list device;
  activity_logs : list log_row;
  system_alerts : list Store.alert_row;
  ticks : nat
}.

(** [DeviceController.__init__] sets both flags to [True]. *)
Record controller := mk_controller {
  auto_control_active : bool;
  ac_rotation_active : bool
}.

Definition DeviceController : controller := mk_controller true true.

Definition set_devices (l : list device) (s : db) : db :=
  mk_db (rooms s) l (activity_logs s) (system_alerts s) (ticks s).

Definition insert_log (e : log_row) (s : db) : db :=
  mk_db (rooms s) (devices s) (activity_logs s ++ [e]) (system_alerts s)
        (ticks s).

Definition tick (s : db) : db :=
  mk_db (rooms s) (devices s) (activity_logs s) (system_alerts s)
        (S (ticks s)).

(** [UPDATE devices SET is_on = ?, last_switched = ?] on one row. *)
Definition switch (on : bool) (now : Z) (d : device) : device :=
  mk_device (d_id d) (d_room_id d) (d_device_name d) (d_device_type d)
            on (Some now) (d_status d).

(** [UPDATE devices SET ... WHERE P]: every matching row is rewritten. *)
Definition sql_update (P : device -> Prop) `{!∀ d, Decision (P d)}
           (f : device -> device) (l : list device) : list device :=
  (λ d, if decide (P d) then f d else d) <$> l.

(** [timedelta(...)] in microseconds, the resolution of [datetime]. *)
Definition timedelta_minutes (m : Z) : Z := m * 60 * 1000000.
Definition timedelta_hours (h : Z) : Z := h * 3600 * 1000000.

(** [d.last_switched < ?]: never true of NULL. *)
Definition switched_before (cutoff : Z) (d : device) : Prop :=
  match d_last_switched d with
  | Some t => t < cutoff
  | None => False
  end.

Global Instance switched_before_dec cutoff d :
  Decision (switched_before cutoff d).
Proof. unfold switched_before. destruct (d_last_switched d); apply _. Defined.

(** [ORDER BY last_switched ASC]: NULL sorts first. *)
Definition ts_le (a b : option Z) : bool :=
  match a, b with
  | None, _ => true
  | Some _, None => false
  | Some x, Some y => bool_decide (x ≤ y)
  end.

(** [ORDER BY last_switched ASC LIMIT 1]: the first row, in table order,
    among those with the least [last_switched]. *)
Fixpoint first_by_last_switched (l : list device) : option device :=
  match l with
  | [] => None
  | d :: l' =>
      match first_by_last_switched l' with
      | None => Some d
      | Some m =>
          if ts_le (d_last_switched d) (d_last_switched m)
          then Some d else Some m
      end
  end.

(** What [get_room_by_device] returns. *)
Record room_status := mk_room_status {
  rs_room : room;
  rs_device_name : string;
  rs_device_type : string
}.

Section Rules.

(** [datetime.now()], reading by reading. *)
Variable clock : nat -> Z.

(** How the store compares an integer column with a text parameter; it
    depends on the column affinity declared in the schema of [SenseDB]. *)
Variable text_matches : Z -> string -> bool.

(** [SenseDB.toggle_device(device_id, user_id)]: the new state, or
    [None], unless it raises. *)
Variable db_toggle_device : Z -> Z -> db -> outcome (option bool) * db.

(** [column = ?]: a stored integer never equals a parameter outside the
    64-bit range (which cannot be bound in the first place). *)
Definition sql_eq (column : Z) (param : pyval) : bool :=
  match param with
  | PyNone => false
  | PyInt z => bool_decide (column = z ∧ sqlite_int z)
  | PyStr s => text_matches column s
  end.

(** *** get_room_by_device *)

(** [SELECT r.*, d.device_name, d.device_type FROM rooms r
     JOIN devices d ON r.id = d.room_id WHERE d.id = ?], [fetchone()].
    Binding a [device_id] outside the 64-bit range raises. *)
Definition get_room_by_device (device_id : Z) (s : db)
  : outcome (option room_status) :=
  if decide (sqlite_int device_id) then
    Returns
      (head (r ← rooms s;
             d ← devices s;
             if decide (r_id r = d_room_id d ∧ d_id d = device_id)
             then [mk_room_status r (d_device_name d) (d_device_type d)]
             else []))
  else Raises OverflowError.

(** *** log_vip_access *)

(** The INSERT binds [user_id]; [device_id] only appears in the text of
    [details]. *)
Definition log_vip_access (user device_id : Z) (s : db)
  : outcome unit * db :=
  if decide (sqlite_int user) then
    (Returns (),
     insert_log (mk_log user "VIP Access" (VipRoomDeviceControl device_id)) s)
  else (Raises OverflowError, s).

(** *** toggle_device *)

(** An exception of [get_room_by_device], [log_vip_access] or
    [SenseDB.toggle_device] propagates to the caller; what was committed
    before it stays. *)
Definition toggle_device (device_id user : Z) (force : bool) (s : db)
  : outcome (bool * string) * db :=
  match get_room_by_device device_id s with
  | Raises e => (Raises e, s)
  | Returns None => (Returns (false, "Device not found"), s)
  | Returns (Some room_status) =>
      let room := rs_room room_status in
      if r_is_critical room && negb force then
        (Returns (false, "Critical room - Admin permission required"), s)
      else
        let '(logged, s) :=
          if r_is_vip room then log_vip_access user device_id s
          else (Returns (), s) in
        match logged with
        | Raises e => (Raises e, s)
        | Returns _ =>
            let '(new_state, s) := db_toggle_device device_id user s in
            match new_state with
            | Raises e => (Raises e, s)
            | Returns (Some b) =>
                (Returns (true, "Device " +:+ (if b then "ON" else "OFF")), s)
            | Returns None => (Returns (false, "Failed to toggle device"), s)
            end
        end
  end.

(** *** auto_control_empty_rooms *)

(** Body of [for device in active_devices]. *)
Definition auto_off_device (s : db) (dev : Z * string) : db :=
  let '(device_id, device_type) := dev in
  if decide (device_type ∈ ["light"; "fan"; "projector"]) then
    let now := clock (ticks s) in
    let s := tick s in
    let s :=
      set_devices
        (sql_update (λ d, d_id d = device_id) (switch false now)
                    (devices s)) s in
    insert_log (mk_log 1 "Auto OFF" (EmptyRoomAutoControl device_id)) s
  else s.

(** [SELECT id, device_type FROM devices
     WHERE room_id = ? AND is_on = TRUE] *)
Definition active_devices (room_id : Z) (s : db) : list (Z * string) :=
  (λ d, (d_id d, d_device_type d))
    <$> filter (λ d, d_room_id d = room_id ∧ d_is_on d = true) (devices s).

(** Body of [for room in empty_rooms]. *)
Definition auto_off_room (s : db) (room : room) : db :=
  let room_id := r_id room in
  foldl auto_off_device s (active_devices room_id s).

(** [SELECT ... FROM rooms r
     WHERE r.occupancy = 0 AND r.is_critical = FALSE] *)
Definition empty_rooms (s : db) : list room :=
  filter (λ r, r_occupancy r = 0 ∧ r_is_critical r = false) (rooms s).

Definition auto_control_empty_rooms (self : controller) (s : db) : db :=
  if negb (auto_control_active self) then s
  else
    (* Get rooms that have been empty for > 15 minutes *)
    let empty_threshold := clock (ticks s) - timedelta_minutes 15 in
    let s := tick s in
    foldl auto_off_room s (empty_rooms s).

(** *** ac_rotation_system *)

(** [SELECT d.id, d.room_id, d.device_name, d.last_switched FROM devices d
     WHERE d.device_type = 'ac' AND d.is_on = TRUE
     AND d.last_switched < ?] *)
Definition overdue (cutoff : Z) (d : device) : Prop :=
  d_device_type d = "ac" ∧ d_is_on d = true ∧ switched_before cutoff d.

Definition overdue_acs (cutoff : Z) (s : db)
  : list (Z * Z * string * option Z) :=
  (λ d, (d_id d, d_room_id d, d_device_name d, d_last_switched d))
    <$> filter (overdue cutoff) (devices s).

(** [WHERE room_id = ? AND device_type = 'ac' AND is_on = FALSE
     AND status = 'active'] *)
Definition eligible (room_id : Z) (d : device) : Prop :=
  d_room_id d = room_id ∧ d_device_type d = "ac" ∧ d_is_on d = false
  ∧ d_status d = "active".

(** [SELECT id FROM devices WHERE ... ORDER BY last_switched ASC LIMIT 1],
    [fetchone()]. *)
Definition find_replacement (room_id : Z) (s : db) : option Z :=
  d_id <$> first_by_last_switched (filter (eligible room_id) (devices s)).

(** Body of [for ac in overdue_acs]. *)
Definition rotate_one (s : db) (ac : Z * Z * string * option Z) : db :=
  let '(ac_id, room_id, ac_name, last_switched) := ac in
  match find_replacement room_id s with
  | Some replacement_id =>
      let current_time := clock (ticks s) in
      let s := tick s in
      let s :=
        set_devices
          (sql_update (λ d, d_id d = ac_id) (switch false current_time)
                      (devices s)) s in
      let s :=
        set_devices
          (sql_update (λ d, d_id d = replacement_id)
                      (switch true current_time) (devices s)) s in
      insert_log
        (mk_log 1 "AC Rotation" (RoomAcSwap room_id ac_id replacement_id)) s
  | None => s
  end.

Definition ac_rotation_system (self : controller) (s : db) : db :=
  if negb (ac_rotation_active self) then s
  else
    (* Get ACs that have been running for > 8 hours *)
    let eight_hours_ago := clock (ticks s) - timedelta_hours 8 in
    let s := tick s in
    foldl rotate_one s (overdue_acs eight_hours_ago s).

(** *** emergency_shutdown *)

(** [SELECT id FROM rooms WHERE is_critical = FALSE] with
    [AND building_id = ?] and [AND floor = ?] appended for the arguments
    that are truthy. *)
Definition shutdown_scope (building_id floor : pyval) (r : room) : bool :=
  negb (r_is_critical r)
  && (if truthy building_id then sql_eq (r_building_id r) building_id
      else true)
  && (if truthy floor then sql_eq (r_floor r) floor else true).

Definition shutdown_rooms (building_id floor : pyval) (s : db) : list Z :=
  r_id <$> filter (λ r, shutdown_scope building_id floor r = true) (rooms s).

(** Whether [cursor.execute(query, params)] can bind [params]: the
    timestamp, and the arguments that are truthy. *)
Definition shutdown_params_bind (building_id floor : pyval) : bool :=
  (if truthy building_id then bindable_arg building_id else true)
  && (if truthy floor then bindable_arg floor else true).

(** The store that [emergency_shutdown(building_id, floor)] leaves.  When
    a parameter cannot be bound the UPDATE raises: no device is written
    and the log row is not reached. *)
Definition emergency_shutdown (building_id floor : pyval) (s : db) : db :=
  let now := clock (ticks s) in
  let s := tick s in
  if shutdown_params_bind building_id floor then
    let s :=
      set_devices
        (sql_update (λ d, d_room_id d ∈ shutdown_rooms building_id floor s)
                    (switch false now) (devices s)) s in
    insert_log
      (mk_log 1 "Emergency Shutdown" (ShutdownScope building_id floor)) s
  else s.

(** How that call ends: it returns [None], or the exception of the UPDATE
    reaches the caller. *)
Definition emergency_shutdown_result (building_id floor : pyval)
  : outcome unit :=
  if shutdown_params_bind building_id floor then Returns ()
  else Raises OverflowError.

End Rules.

End Control.

(** ** app.py: the bulk buttons of the room page *)

Module App.
Import Store.

(** What runs before the device controls of [display_room_control] (the
    frame of the dashboard with its refresh, the room lookup, the occupancy
    and energy widgets) reads the session and tables that are not followed
    here ([rooms], [room_occupancy], [energy_summary]): the run restarts,
    returns at "Room not found!" or stops at an exception of a widget
    there.  [header_renders room_id] says that the run for the selected
    room gets past all that. *)
Class Page := {
  header_renders : Z -> bool
}.

Section WithClock.

Variable clock : nat -> Z.

Context `{!Conversions} `{!Page}.

(** [toggle_device(device_id, state)] as [app.py] binds it: [control.py]
    defines no function of that name (and its own import of [SenseDB]
    fails), so the [except ImportError] branch installs the placeholder
    that calls [update_device_status]. *)
Definition toggle_device (device_id : string) (state : bool) (s : db)
  : bool * db :=
  update_device_status clock device_id state ∅ s.

(** [display_device_card(device, room_occupied)] in a run in which none of
    its buttons is the one pressed: it reads the store only, and
    [device_status['is_on']] raises when [get_device_status] returned
    [None]. *)
Definition display_device_card (device : string * device_row) (s : db)
  : outcome unit :=
  match get_device_status (fst device) s with
  | Some device_status => Returns ()
  | None => Raises TypeError
  end.

Definition renders (o : outcome unit) : bool :=
  match o with
  | Returns _ => true
  | Raises _ => false
  end.

(** The run of [display_room_control] down to "Bulk Operations": the
    header, [if not devices: return], then a card for every fan and for
    every AC of [devices].  The bulk buttons exist, and can be the button
    pressed, only in a run that gets there. *)
Definition bulk_operations_reached (room_id : Z) (s : db) : bool :=
  header_renders room_id
  && let devices := get_devices_by_room room_id s in
     negb (bool_decide (devices = []))
     && forallb (λ device, renders (display_device_card device s))
                (filter (λ d, device_type (snd d) = "fan") devices)
     && forallb (λ device, renders (display_device_card device s))
                (filter (λ d, device_type (snd d) = "ac") devices).

(** "Turn All OFF":
    [for device in devices: toggle_device(device['device_id'], False)] *)
Definition turn_all_off (room_id : Z) (s : db) : db :=
  if bulk_operations_reached room_id s then
    foldl (λ s device, snd (toggle_device (fst device) false s)) s
          (get_devices_by_room room_id s)
  else s.

(** "Fans Only": fans on, every other device of the room off. *)
Definition fans_only (room_id : Z) (s : db) : db :=
  if bulk_operations_reached room_id s then
    foldl (λ s device,
             if decide (device_type (snd device) = "fan")
             then snd (toggle_device (fst device) true s)
             else snd (toggle_device (fst device) false s))
          s (get_devices_by_room room_id s)
  else s.

(** "ACs Only": ACs on, every other device of the room off. *)
Definition acs_only (room_id : Z) (s : db) : db :=
  if bulk_operations_reached room_id s then
    foldl (λ s device,
             if decide (device_type (snd device) = "ac")
             then snd (toggle_device (fst device) true s)
             else snd (toggle_device (fst device) false s))
          s (get_devices_by_room room_id s)
  else s.

(** The loop the three buttons share: each device of the list is set to
    the state [want] gives it. *)
Definition set_each (want : string * device_row → bool)
           (devices : list (string * device_row)) (s : db) : db :=
  foldl (λ s device, snd (toggle_device (fst device) (want device) s)) s
        devices.

End WithClock.

End App.

(** ** A small facility used to exercise the rules *)

Module Facility.
Import Control.

Definition lobby : room := mk_room 1 101 0 false false 1 0.
Definition server_room : room := mk_room 2 201 0 false true 1 2.
Definition office : room := mk_room 3 301 4 true false 2 1.

Definition lobby_fan : device := mk_device 1 1 "Fan 1" "fan" true (Some 0) "active".
Definition lobby_ac : device := mk_device 2 1 "AC 1" "ac" true (Some 0) "active".
Definition lobby_light : device := mk_device 3 1 "Light 1" "light" true (Some 0) "active".
Definition lobby_spare : device := mk_device 4 1 "AC 2" "ac" false None "active".
Definition server_ac : device := mk_device 5 2 "AC 1" "ac" true (Some 0) "active".
Definition server_spare : device := mk_device 6 2 "AC 2" "ac" false None "active".
Definition office_ac : device := mk_device 7 3 "AC 1" "ac" true (Some 0) "active".
Definition office_fan : device := mk_device 8 3 "Fan 1" "fan" true (Some 0) "active".

Definition facility : db :=
  mk_db [lobby; server_room; office]
        [lobby_fan; lobby_ac; lobby_light; lobby_spare;
         server_ac; server_spare; office_ac; office_fan]
        [] [] 0.

(** A room with two overdue units and a single spare. *)
Definition hall : room := mk_room 1 101 5 false false 1 0.
Definition hall_ac_a : device := mk_device 10 1 "AC A" "ac" true (Some 0) "active".
Definition hall_ac_b : device := mk_device 11 1 "AC B" "ac" true (Some 0) "active".
Definition hall_ac_c : device := mk_device 12 1 "AC C" "ac" false None "active".

Definition two_overdue : db :=
  mk_db [hall] [hall_ac_a; hall_ac_b; hall_ac_c] [] [] 0.

(** Nine hours after the epoch, one microsecond per reading. *)
Definition nine_hours_on (n : nat) : Z := timedelta_hours 9 + Z.of_nat n.

(** Exactly eight hours after the epoch. *)
Definition eight_hours_sharp (n : nat) : Z := timedelta_hours 8.

Definition no_text_match (column : Z) (s : string) : bool := false.

(** A stand-in for [SenseDB.toggle_device] that fails. *)
Definition toggle_unavailable (device_id user : Z) (s : db)
  : outcome (option bool) * db := (Returns None, s).

(** The examples write integers to INTEGER columns and nothing to the REAL
    column, so the conversions that [affinity] leaves open are not
    consulted by them; this choice, which leaves such a value as it is,
    only closes the examples. *)
Definition kept_as_given : Conversions := {| converted := λ _ v, v |}.

(** A run of the room page whose header renders for every room. *)
Definition header_shown : App.Page := {| App.header_renders := λ _, true |}.

Definition status_table : gmap string Store.status_row :=
  {[ "FAN-001-01" :=
       Store.mk_status true (Some 5) None (VInt 30) (VInt 7) VNull (VInt 3)
                       (Some 5) ]}.

Definition store : Store.db := Store.mk_db ∅ status_table [] [] 0.

Definition store_clock (n : nat) : Z := 9 + Z.of_nat n.

(** A device whose [room_id] names no room. *)
Definition stray_fan : device :=
  mk_device 9 42 "Fan 9" "fan" true (Some 0) "active".

Definition with_stray : db :=
  mk_db [lobby; server_room; office] [lobby_fan; stray_fan] [] [] 0.

(** A stand-in for [SenseDB.toggle_device] that reports the device on. *)
Definition toggle_reports_on (device_id user : Z) (s : db)
  : outcome (option bool) * db := (Returns (Some true), s).

(** A store with two rooms: a fan and an AC in room 1, both with a status
    row, and a fan in room 2 without one. *)
Definition inventory : gmap string Store.device_row :=
  {[ "FAN-001-01" := Store.mk_device_row "Ceiling Fan 1" "fan" (VInt 1) 75;
     "AC-001-01" := Store.mk_device_row "Air Conditioner 1" "ac" (VInt 1) 1500;
     "FAN-002-01" := Store.mk_device_row "Ceiling Fan 1" "fan" (VInt 2) 50 ]}.

Definition stocked_status : gmap string Store.status_row :=
  <[ "AC-001-01" :=
       Store.mk_status false None (Some 3) (VInt 0) (VInt 2) VNull VNull
                       (Some 3) ]> status_table.

Definition stocked_store : Store.db :=
  Store.mk_db inventory stocked_status [] [] 0.

(** The same store before the AC of room 1 got its status row. *)
Definition unstocked_store : Store.db :=
  Store.mk_db inventory status_table [] [] 0.

End Facility.

(** ** Vocabulary of the properties *)

Module ControlSpec.
Import Control.

(** [id] is the primary key of [rooms] and of [devices]. *)
Definition primary_keys (s : db) : Prop :=
  NoDup (r_id <$> rooms s) ∧ NoDup (d_id <$> devices s).

Global Instance primary_keys_dec s : Decision (primary_keys s).
Proof. unfold primary_keys. apply _. Defined.

(** The rows of [devices] that belong to a room. *)
Definition in_room (room_id : Z) (d : device) : Prop := d_room_id d = room_id.

Global Instance in_room_dec room_id d : Decision (in_room room_id d).
Proof. unfold in_room. apply _. Defined.

Definition room_devices (room_id : Z) (s : db) : list device :=
  filter (in_room room_id) (devices s).

(** The columns of a device that no rule writes. *)
Definition key (d : device) : Z * (Z * string) :=
  (d_id d, (d_room_id d, d_device_type d)).

(** An "AC Rotation" log row written for a given room. *)
Definition is_rotation_for (room_id : Z) (e : log_row) : bool :=
  bool_decide (action e = "AC Rotation")
  && match log_details e with
     | RoomAcSwap r _ _ => bool_decide (r = room_id)
     | _ => false
     end.

(** An "Auto OFF" log row that names one of the given devices. *)
Definition is_auto_off_of (ids : list Z) (e : log_row) : bool :=
  bool_decide (action e = "Auto OFF")
  && match log_details e with
     | EmptyRoomAutoControl i => bool_decide (i ∈ ids)
     | _ => false
     end.

(** A warning alert that refers to a device. *)
Definition warns_about (device_id : Z) (a : Store.alert_row) : Prop :=
  Store.alert_type a = "warning"
  ∧ (Store.alert_device_id a = VInt device_id
     ∨ Store.alert_device_id a = VText (pretty device_id)).

Definition auto_off_log (device_id : Z) : log_row :=
  mk_log 1 "Auto OFF" (EmptyRoomAutoControl device_id).

Definition rotation_log (room_id ac_id replacement_id : Z) : log_row :=
  mk_log 1 "AC Rotation" (RoomAcSwap room_id ac_id replacement_id).

(** The rows of a room after a swap at instant [now]: the unit [ac_id] off,
    the unit [replacement_id] on, both stamped [now], the rest as before. *)
Definition swapped (ac_id replacement_id now : Z) (d : device) : device :=
  if decide (d_id d = ac_id) then
    mk_device (d_id d) (d_room_id d) (d_device_name d) (d_device_type d)
              false (Some now) (d_status d)
  else if decide (d_id d = replacement_id) then
    mk_device (d_id d) (d_room_id d) (d_device_name d) (d_device_type d)
              true (Some now) (d_status d)
  else d.

(** The device kinds the empty-room rule switches off. *)
Definition auto_controllable (device_type : string) : Prop :=
  device_type ∈ ["light"; "fan"; "projector"].

Global Instance auto_controllable_dec ty : Decision (auto_controllable ty).
Proof. unfold auto_controllable. apply _. Defined.

(** What the empty-room rule does to one row of a room it selects: a
    device that is on and of an auto-controllable kind is switched off and
    stamped with one of the readings of the clock numbered from [lo] up
    to, not including, [hi]; any other device keeps its row. *)
Definition auto_off_effect (clock : nat → Z) (lo hi : nat) (d d' : device)
  : Prop :=
  if decide (d_is_on d = true ∧ auto_controllable (d_device_type d))
  then ∃ k, (lo ≤ k < hi)%nat
            ∧ d' = mk_device (d_id d) (d_room_id d) (d_device_name d)
                             (d_device_type d) false (Some (clock k))
                             (d_status d)
  else d' = d.

(** The rows with identifier [i] and the AC rows of room [r] all lie
    outside the selection [Q] ([K] lists the keys of the table). *)
Definition outside (Q : device → Prop) (K : list (Z * (Z * string)))
           (i r : Z) : Prop :=
  (∀ d, key d ∈ K → d_id d = i → ¬ Q d)
  ∧ (∀ d, key d ∈ K → d_room_id d = r → d_device_type d = "ac" → ¬ Q d).

(** Whenever the selection [Q] holds the rows [rows], room [r] has no
    replacement to offer. *)
Definition no_spare (Q : device → Prop) `{!∀ d, Decision (Q d)}
           (rows : list device) (r : Z) : Prop :=
  ∀ l, filter Q l = rows → filter (eligible r) l = [].

(** The identifiers that the loop over [active_devices] switches off. *)
Definition targets (L : list (Z * string)) : list Z :=
  (filter (λ p, auto_controllable (snd p)) L).*1.

(** Row [d] after that loop: off and stamped with a reading numbered from
    [lo] up to [hi] when its identifier is one of [ids], as before
    otherwise. *)
Definition switched (clock : nat → Z) (lo hi : nat) (ids : list Z)
           (d d' : device) : Prop :=
  (d_id d ∈ ids
   ∧ ∃ k, (lo ≤ k < hi)%nat
          ∧ d' = mk_device (d_id d) (d_room_id d) (d_device_name d)
                           (d_device_type d) false (Some (clock k))
                           (d_status d))
  ∨ ((d_id d ∉ ids) ∧ d' = d).

(** The outcome of [toggle_device] for the outcome of
    [SenseDB.toggle_device]. *)
Definition toggle_answer (new_state : outcome (option bool))
  : outcome (bool * string) :=
  match new_state with
  | Returns (Some true) => Returns (true, "Device ON")
  | Returns (Some false) => Returns (true, "Device OFF")
  | Returns None => Returns (false, "Failed to toggle device")
  | Raises e => Raises e
  end.

(** A device the empty-room rule switches off when it visits room [r]. *)
Definition auto_off_target (room_id : Z) (d : device) : Prop :=
  d_room_id d = room_id ∧ d_is_on d = true
  ∧ auto_controllable (d_device_type d).

Global Instance auto_off_target_dec room_id d :
  Decision (auto_off_target room_id d).
Proof. unfold auto_off_target. apply _. Defined.

(** How many devices of a room are on. *)
Definition on_count (room_id : Z) (l : list device) : nat :=
  length (filter (λ d, d_room_id d = room_id ∧ d_is_on d = true) l).

(** A row [d] before a rotation pass and the row [d'] in its place after:
    the identifier, room, kind and status are kept, and the row is written
    only if [d] was overdue or was an eligible replacement of its room. *)
Definition rotation_touch (cutoff : Z) (d d' : device) : Prop :=
  key d' = key d ∧ d_status d' = d_status d
  ∧ (d' = d ∨ overdue cutoff d ∨ eligible (d_room_id d) d).

(** Closed decidable facts about the example data, by evaluation. *)
Ltac by_evaluation := apply (bool_decide_unpack _); vm_compute; exact I.

End ControlSpec.

(** * Properties of the status store (db.py) *)

Module StoreProofs.
Import Store.

Section WithClock.
Variable clock : nat -> Z.
Context `{!Conversions}.

Lemma kwargs_bind_empty : kwargs_bind ∅ = true.
Proof. reflexivity. Qed.

(** The keywords bind exactly when no recognised one holds an integer
    outside the 64-bit range. *)
Lemma kwargs_bind_spec kwargs :
  kwargs_bind kwargs = true
  ↔ ∀ field z, field ∈ recognised → kwargs !! field = Some (VInt z) →
               sqlite_int z.
Proof.
  unfold kwargs_bind. rewrite forallb_forall. split.
  - intros Hall field z Hin Hz.
    apply list_elem_of_In, Hall in Hin. rewrite Hz in Hin.
    by apply bool_decide_eq_true_1 in Hin.
  - intros Hall field Hin%list_elem_of_In.
    destruct (kwargs !! field) as [[|z| |]|] eqn:Hf; try done.
    apply bool_decide_eq_true_2. by eapply Hall.
Qed.

Lemma update_device_status_flag device_id on kwargs s :
  (update_device_status clock device_id on kwargs s).1 = kwargs_bind kwargs.
Proof.
  unfold update_device_status. destruct (kwargs_bind kwargs); [|done].
  cbn. by destruct (device_status s !! device_id).
Qed.

(** A keyword that cannot be bound: the call answers [False] and the store
    is as before. *)
Lemma update_device_status_unbound device_id on kwargs s :
  kwargs_bind kwargs = false →
  update_device_status clock device_id on kwargs s = (false, s).
Proof. intros Hb. unfold update_device_status. by rewrite Hb. Qed.

Lemma update_device_status_frame device_id on kwargs s :
  let s' := (update_device_status clock device_id on kwargs s).2 in
  devices s' = devices s
  ∧ device_logs s' = device_logs s
  ∧ system_alerts s' = system_alerts s
  ∧ ∀ other, other ≠ device_id →
             device_status s' !! other = device_status s !! other.
Proof.
  unfold update_device_status.
  destruct (kwargs_bind kwargs); [|by repeat split]. cbn.
  destruct (device_status s !! device_id); cbn;
    repeat split; intros; by rewrite lookup_insert_ne.
Qed.

(** C8, as the code has it: a status update whose keyword values can be
    bound (no integer outside the signed 64-bit range), on a device that
    has a status row, always writes the requested [is_on], stamps
    [last_switched_on] (request ON) or [last_switched_off] (request OFF)
    and [updated_at] with the current time, whether or not [is_on]
    changes; it leaves the other timestamp alone and appends no log row.
    [switch_count] is never incremented: it keeps its value unless the
    caller passes it as a keyword argument, and then the column holds what
    its INTEGER affinity makes of the value passed. *)
Theorem C8_status_update_always_stamps device_id on kwargs s r :
  device_status s !! device_id = Some r →
  kwargs_bind kwargs = true →
  let now := clock (ticks s) in
  let res := update_device_status clock device_id on kwargs s in
  res.1 = true
  ∧ (∃ r', device_status res.2 !! device_id = Some r'
           ∧ is_on r' = on
           ∧ last_switched_on r' =
               (if on then Some now else last_switched_on r)
           ∧ last_switched_off r' =
               (if on then last_switched_off r else Some now)
           ∧ updated_at r' = Some now
           ∧ switch_count r' =
               match kwargs !! "switch_count" with
               | Some v => affinity INTEGER v
               | None => switch_count r
               end
           ∧ (∀ z, kwargs !! "switch_count" = Some (VInt z) →
                   switch_count r' = VInt z))
  ∧ device_logs res.2 = device_logs s.
Proof.
  intros Hr Hb now res. subst res now.
  unfold update_device_status. rewrite Hb; cbn. rewrite Hr; cbn.
  split; [done|]. split; [|done].
  eexists. rewrite lookup_insert_eq. split; [done|]. cbn.
  repeat split. intros z Hz. unfold kwarg. by rewrite Hz.
Qed.

(** C9: for an identifier without a status row, [update_device_status]
    with keyword values that can be bound inserts a row holding the
    requested [is_on] and the schema defaults in every other column and
    returns [True]; the [devices] table is not consulted (and not
    changed), so this also happens for an identifier that names no device.
    No call reports a missing device: whatever the store holds, the result
    is [False] exactly when a keyword value cannot be bound, and nothing
    is written then. *)
Theorem C9_update_inserts_missing_status device_id on kwargs s :
  device_status s !! device_id = None →
  kwargs_bind kwargs = true →
  let res := update_device_status clock device_id on kwargs s in
  res.1 = true
  ∧ device_status res.2 !! device_id =
      Some (mk_status on None None (VInt 0) (VInt 0) VNull VNull
                      (Some (clock (S (ticks s)))))
  ∧ devices res.2 = devices s
  ∧ (∀ id' on' kwargs' s',
        let res' := update_device_status clock id' on' kwargs' s' in
        res'.1 = kwargs_bind kwargs'
        ∧ (res'.1 = false → res'.2 = s')).
Proof.
  intros Hr Hb res. subst res.
  unfold update_device_status at 1 2 3. rewrite Hb; cbn. rewrite Hr; cbn.
  rewrite lookup_insert_eq. repeat split.
  - apply update_device_status_flag.
  - rewrite update_device_status_flag. intros Hb'.
    by rewrite update_device_status_unbound.
Qed.

(** ** Reading back, keyword arguments, alerts *)

(** X1: when the keyword values can be bound, [get_device_status] right
    after [update_device_status] finds a row for that device with the
    requested [is_on] and a fresh [updated_at], whatever the store held;
    the status of every other device reads as before. *)
Theorem status_update_then_get device_id on kwargs s :
  kwargs_bind kwargs = true →
  let s' := (update_device_status clock device_id on kwargs s).2 in
  (∃ r, get_device_status device_id s' = Some (device_id, r)
        ∧ is_on r = on
        ∧ ∃ k, (ticks s ≤ k)%nat ∧ updated_at r = Some (clock k))
  ∧ ∀ other, other ≠ device_id →
             get_device_status other s' = get_device_status other s.
Proof.
  intros Hb. cbv zeta. split.
  - unfold get_device_status, update_device_status. rewrite Hb; cbn.
    destruct (device_status s !! device_id) as [r|]; cbn;
      rewrite lookup_insert_eq; cbn; eexists; (split; [done|]);
      (split; [done|]); eexists; (split; [|done]); lia.
  - intros other Hne. unfold get_device_status.
    destruct (update_device_status_frame device_id on kwargs s)
      as (_ & _ & _ & Hfr).
    by rewrite Hfr.
Qed.

(** X2: only [runtime_minutes], [switch_count], [temperature_setting] and
    [speed_setting] are read from the keyword arguments; two calls that
    agree on these four give the same result, so any other keyword is
    silently ignored. *)
Theorem unrecognised_kwargs_ignored device_id on kwargs kwargs' s :
  (∀ field,
      field ∈ ["runtime_minutes"; "switch_count"; "temperature_setting";
               "speed_setting"] →
      kwargs !! field = kwargs' !! field) →
  update_device_status clock device_id on kwargs s
  = update_device_status clock device_id on kwargs' s.
Proof.
  intros Hsame. unfold update_device_status.
  assert (kwargs_bind kwargs = kwargs_bind kwargs') as ->.
  { unfold kwargs_bind, recognised. cbn [forallb].
    by rewrite !Hsame by (repeat constructor). }
  destruct (kwargs_bind kwargs'); [|done]. cbn.
  destruct (device_status s !! device_id) as [r|]; [|done].
  unfold updated_row, kwarg.
  by rewrite !Hsame by (repeat constructor).
Qed.

(** X3: switching a device that has a status row on and then off records
    both instants: [last_switched_on] holds the reading of the first call,
    [last_switched_off] and [updated_at] the reading of the second, and the
    counters are untouched. *)
Theorem on_then_off_records_both device_id s r :
  device_status s !! device_id = Some r →
  let s1 := (update_device_status clock device_id true ∅ s).2 in
  let s2 := (update_device_status clock device_id false ∅ s1).2 in
  device_status s2 !! device_id
  = Some (mk_status false (Some (clock (ticks s)))
                    (Some (clock (S (ticks s))))
                    (runtime_minutes r) (switch_count r)
                    (temperature_setting r) (speed_setting r)
                    (Some (clock (S (ticks s))))).
Proof.
  intros Hr. cbv zeta. unfold update_device_status.
  rewrite kwargs_bind_empty; cbn. rewrite Hr; cbn.
  rewrite lookup_insert_eq; cbn. by rewrite lookup_insert_eq.
Qed.

(** X4: for a device without a status row the first call only inserts:
    after switching it on (with keyword values that can be bound) and then
    off, [last_switched_on] is still NULL, although the device was on in
    between, and the keyword arguments given to the first call are
    lost. *)
Theorem first_switch_on_is_not_stamped device_id kwargs s :
  device_status s !! device_id = None →
  kwargs_bind kwargs = true →
  let s1 := (update_device_status clock device_id true kwargs s).2 in
  let s2 := (update_device_status clock device_id false ∅ s1).2 in
  (is_on <$> device_status s1 !! device_id) = Some true
  ∧ device_status s2 !! device_id
    = Some (mk_status false None (Some (clock (S (S (ticks s)))))
                      (VInt 0) (VInt 0) VNull VNull
                      (Some (clock (S (S (ticks s)))))).
Proof.
  intros Hr Hb. cbv zeta. unfold update_device_status.
  rewrite Hb, kwargs_bind_empty; cbn. rewrite Hr; cbn.
  rewrite !lookup_insert_eq; cbn. by rewrite lookup_insert_eq.
Qed.

Lemma with_alert_id_elem l p :
  p ∈ with_alert_id l ↔ ∃ i a, l !! i = Some a ∧ p = (alert_id_at i, a).
Proof.
  unfold with_alert_id. split.
  - intros (i & Hi)%list_elem_of_lookup_1.
    rewrite list_lookup_imap in Hi.
    destruct (l !! i) as [a|] eqn:Ha; simplify_eq/=. by exists i, a.
  - intros (i & a & Ha & ->). apply list_elem_of_lookup. exists i.
    by rewrite list_lookup_imap, Ha.
Qed.

Lemma alert_id_at_inj i j : alert_id_at i = alert_id_at j → i = j.
Proof. unfold alert_id_at. lia. Qed.

Lemma mark_alert_read_lookup alert_id s i :
  system_alerts (mark_alert_read alert_id s).2 !! i
  = (λ a, if decide (alert_id_at i = alert_id) then read a else a)
      <$> system_alerts s !! i.
Proof. cbn. apply list_lookup_imap. Qed.

Lemma mark_alert_read_absent alert_id s :
  alert_id ≤ 0 ∨ Z.of_nat (length (system_alerts s)) < alert_id →
  (mark_alert_read alert_id s).2 = s.
Proof.
  intros Hout. destruct s as [dv st lg al tk].
  unfold mark_alert_read, set_system_alerts; cbn. f_equal.
  apply list_eq. intros i. rewrite list_lookup_imap.
  destruct (al !! i) as [a|] eqn:Ha; [cbn|done].
  apply lookup_lt_Some in Ha. cbn in Hout.
  rewrite decide_False; [done|]. unfold alert_id_at. lia.
Qed.

(** X5: [mark_alert_read] answers [True] for an identifier within the
    signed 64-bit range and [False] for any other; it changes no alert but
    the one with that identifier, never turns a read alert back to unread,
    keeps every other column, is idempotent, and for an identifier that
    names no alert it leaves the store as it was; so does the call that
    answers [False], on every table of fewer than 2^63 rows. *)
Theorem mark_alert_read_monotone alert_id s :
  let s' := (mark_alert_read alert_id s).2 in
  (mark_alert_read alert_id s).1 = bool_decide (- 2 ^ 63 ≤ alert_id < 2 ^ 63)
  ∧ length (system_alerts s') = length (system_alerts s)
  ∧ (∀ i a, system_alerts s !! i = Some a →
            ∃ a', system_alerts s' !! i = Some a'
                  ∧ (is_read a = true → is_read a' = true)
                  ∧ (alert_id_at i ≠ alert_id → a' = a)
                  ∧ (alert_id_at i = alert_id → a' = read a))
  ∧ (mark_alert_read alert_id s').2 = s'
  ∧ ((alert_id ≤ 0 ∨ Z.of_nat (length (system_alerts s)) < alert_id) →
     s' = s)
  ∧ ((mark_alert_read alert_id s).1 = false →
     Z.of_nat (length (system_alerts s)) < 2 ^ 63 →
     mark_alert_read alert_id s = (false, s)).
Proof.
  cbv zeta. split; [done|]. split; [apply length_imap|].
  split; [|split; [|split]].
  - intros i a Hi. rewrite mark_alert_read_lookup, Hi. cbn.
    eexists. split; [done|].
    destruct (decide (alert_id_at i = alert_id)); by repeat split.
  - unfold mark_alert_read, set_system_alerts; cbn. f_equal.
    apply list_eq. intros i. rewrite !list_lookup_imap.
    destruct (system_alerts s !! i) as [a|]; [cbn|done].
    by destruct (decide (alert_id_at i = alert_id)).
  - apply mark_alert_read_absent.
  - intros Hflag Hlen.
    rewrite (surjective_pairing (mark_alert_read alert_id s)).
    rewrite Hflag. f_equal. apply mark_alert_read_absent.
    cbn in Hflag. apply bool_decide_eq_false_1 in Hflag.
    unfold sqlite_int in Hflag. lia.
Qed.

Global Instance newer_total : Total newer.
Proof. intros x y. unfold newer. lia. Qed.

Global Instance newer_trans : Transitive newer.
Proof. intros x y z. unfold newer. lia. Qed.

Lemma get_system_alerts_elem ty unread_only s p :
  p ∈ get_system_alerts ty unread_only s
  ↔ alert_selected ty unread_only p = true
    ∧ ∃ i a, system_alerts s !! i = Some a ∧ p = (alert_id_at i, a).
Proof.
  unfold get_system_alerts.
  by rewrite merge_sort_Permutation, list_elem_of_filter, with_alert_id_elem.
Qed.

(** X6: [get_system_alerts] lists the newest alert first, each stored alert
    at most once, and exactly the stored alerts that pass the requested
    filters: an empty or missing [alert_type] filters nothing, and
    [unread_only] keeps the unread ones. *)
Theorem get_system_alerts_newest_first ty unread_only s :
  StronglySorted newer (get_system_alerts ty unread_only s)
  ∧ NoDup (get_system_alerts ty unread_only s).*1
  ∧ (∀ i a,
        system_alerts s !! i = Some a →
        ((alert_id_at i, a) ∈ get_system_alerts ty unread_only s
         ↔ (match ty with
            | Some t => t = "" ∨ alert_type a = t
            | None => True
            end)
           ∧ (unread_only = true → is_read a = false)))
  ∧ (∀ p, p ∈ get_system_alerts ty unread_only s →
          ∃ i, system_alerts s !! i = Some (snd p) ∧ fst p = alert_id_at i).
Proof.
  split; [apply StronglySorted_merge_sort; apply _|]. split; [|split].
  - unfold get_system_alerts. rewrite merge_sort_Permutation.
    assert (Hnd : NoDup (with_alert_id (system_alerts s)).*1).
    { unfold with_alert_id. generalize (system_alerts s). intros l.
      apply NoDup_alt. intros i j x. rewrite !list_lookup_fmap.
      rewrite !list_lookup_imap.
      destruct (l !! i), (l !! j); cbn; intros; simplify_eq.
      by apply alert_id_at_inj. }
    revert Hnd. generalize (with_alert_id (system_alerts s)). intros l.
    induction l as [|x l IH]; [done|]. rewrite fmap_cons, NoDup_cons.
    intros [Hx Hl]. rewrite filter_cons. destruct (decide _); [|by apply IH].
    rewrite fmap_cons, NoDup_cons. split; [|by apply IH].
    intros (y & Hy & [_ Hin]%list_elem_of_filter)%list_elem_of_fmap.
    apply Hx. apply list_elem_of_fmap. by exists y.
  - intros i a Hi. rewrite get_system_alerts_elem. split.
    + intros [Hsel _]. unfold alert_selected in Hsel. cbn in Hsel.
      apply andb_true_iff in Hsel as [Hty Hur]. split.
      * destruct ty as [t|]; [|done].
        destruct (String.eqb_spec t ""); [by left|right].
        by apply bool_decide_eq_true_1 in Hty.
      * intros ->. by apply negb_true_iff in Hur.
    + intros [Hty Hur]. split; [|by exists i, a].
      unfold alert_selected. cbn. apply andb_true_iff. split.
      * destruct ty as [t|]; [|done].
        destruct (String.eqb_spec t ""); [done|].
        apply bool_decide_eq_true_2. by destruct Hty.
      * destruct unread_only; [|done]. apply negb_true_iff. by apply Hur.
  - intros p (_ & i & a & Hi & ->)%get_system_alerts_elem. by exists i.
Qed.

(** X7: once [mark_alert_read] has been called for an identifier, no row
    with that identifier is listed among the unread alerts, while every
    other alert is listed among them exactly when it was before. *)
Theorem marked_alert_leaves_unread_list alert_id ty s :
  let s' := (mark_alert_read alert_id s).2 in
  (∀ p, p ∈ get_system_alerts ty true s' → fst p ≠ alert_id)
  ∧ (∀ p, fst p ≠ alert_id →
          (p ∈ get_system_alerts ty true s'
           ↔ p ∈ get_system_alerts ty true s)).
Proof.
  cbv zeta. split.
  - intros p (Hsel & i & a & Hi & ->)%get_system_alerts_elem Hid.
    rewrite mark_alert_read_lookup in Hi. cbn in Hid.
    destruct (system_alerts s !! i) as [a0|]; simplify_eq/=.
    rewrite decide_True in Hsel by done.
    unfold alert_selected in Hsel. cbn in Hsel.
    by rewrite andb_false_r in Hsel.
  - intros p Hid. rewrite !get_system_alerts_elem.
    split; intros (Hsel & i & a & Hi & ->); (split; [done|]);
      exists i, a; (split; [|done]); cbn in Hid.
    + rewrite mark_alert_read_lookup in Hi.
      destruct (system_alerts s !! i) as [a0|]; simplify_eq/=.
      by rewrite decide_False.
    + rewrite mark_alert_read_lookup, Hi. cbn. by rewrite decide_False.
Qed.


End WithClock.

#[local] Existing Instance Facility.kept_as_given.

(** C8 fails as stated: on a fan that is ON since instant 5 with 7
    switches, asking for ON again at instant 9 moves [last_switched_on]
    to 9, and switching it OFF leaves [switch_count] at 7. *)
Lemma C8_same_state_update_restamps :
  let before := Facility.status_table !! "FAN-001-01" in
  let again :=
    device_status
      (update_device_status Facility.store_clock "FAN-001-01" true ∅
                            Facility.store).2 !! "FAN-001-01" in
  let off :=
    device_status
      (update_device_status Facility.store_clock "FAN-001-01" false ∅
                            Facility.store).2 !! "FAN-001-01" in
  (is_on <$> before) = Some true
  ∧ (last_switched_on <$> before) = Some (Some 5)
  ∧ (last_switched_on <$> again) = Some (Some 9)
  ∧ (switch_count <$> before) = Some (VInt 7)
  ∧ (is_on <$> off) = Some false
  ∧ (switch_count <$> off) = Some (VInt 7).
Proof. vm_compute. done. Qed.

Lemma C8_status_update_always_stamps_witness :
  let res :=
    update_device_status Facility.store_clock "FAN-001-01" true
                         {[ "switch_count" := VInt 8 ]} Facility.store in
  res.1 = true
  ∧ (∃ r', device_status res.2 !! "FAN-001-01" = Some r'
           ∧ is_on r' = true
           ∧ last_switched_on r' = Some 9
           ∧ last_switched_off r' = None
           ∧ updated_at r' = Some 9
           ∧ switch_count r' = VInt 8
           ∧ (∀ z, ({[ "switch_count" := VInt 8 ]} : gmap string value)
                     !! "switch_count" = Some (VInt z) →
                   switch_count r' = VInt z))
  ∧ device_logs res.2 = [].
Proof.
  exact (C8_status_update_always_stamps Facility.store_clock "FAN-001-01"
           true {[ "switch_count" := VInt 8 ]} Facility.store _ eq_refl
           eq_refl).
Defined.

Lemma C9_update_inserts_missing_status_witness :
  let res :=
    update_device_status Facility.store_clock "GHOST-01" true ∅
                         Facility.store in
  res.1 = true
  ∧ device_status res.2 !! "GHOST-01" =
      Some (mk_status true None None (VInt 0) (VInt 0) VNull VNull (Some 10))
  ∧ devices res.2 = ∅
  ∧ (∀ id' on' kwargs' s',
        let res' :=
          update_device_status Facility.store_clock id' on' kwargs' s' in
        res'.1 = kwargs_bind kwargs'
        ∧ (res'.1 = false → res'.2 = s')).
Proof.
  exact (C9_update_inserts_missing_status Facility.store_clock "GHOST-01"
           true ∅ Facility.store eq_refl eq_refl).
Defined.

(** A keyword value outside the 64-bit range: the call answers [False] and
    the fan keeps the row it had, still on. *)
Lemma update_device_status_overflow :
  update_device_status Facility.store_clock "FAN-001-01" false
                       {[ "switch_count" := VInt (2 ^ 63) ]} Facility.store
  = (false, Facility.store).
Proof. by apply update_device_status_unbound. Qed.

Lemma status_update_then_get_witness :
  let s' :=
    (update_device_status Facility.store_clock "FAN-001-01" false
                          {[ "runtime_minutes" := VInt 45 ]}
                          Facility.store).2 in
  (∃ r, get_device_status "FAN-001-01" s' = Some ("FAN-001-01", r)
        ∧ is_on r = false
        ∧ ∃ k, (0 ≤ k)%nat ∧ updated_at r = Some (Facility.store_clock k))
  ∧ ∀ other, other ≠ "FAN-001-01" →
             get_device_status other s'
             = get_device_status other Facility.store.
Proof.
  exact (status_update_then_get Facility.store_clock "FAN-001-01" false
           {[ "runtime_minutes" := VInt 45 ]} Facility.store eq_refl).
Defined.

Lemma unrecognised_kwargs_ignored_witness :
  update_device_status Facility.store_clock "FAN-001-01" false
                       {[ "temperature" := VInt 21 ]} Facility.store
  = update_device_status Facility.store_clock "FAN-001-01" false ∅
                         Facility.store.
Proof.
  apply unrecognised_kwargs_ignored. intros field Hin.
  repeat (apply elem_of_cons in Hin as [->|Hin]; [done|]).
  by apply elem_of_nil in Hin.
Defined.

Lemma on_then_off_records_both_witness :
  let s1 :=
    (update_device_status Facility.store_clock "FAN-001-01" true ∅
                          Facility.store).2 in
  let s2 :=
    (update_device_status Facility.store_clock "FAN-001-01" false ∅ s1).2 in
  device_status s2 !! "FAN-001-01"
  = Some (mk_status false (Some 9) (Some 10) (VInt 30) (VInt 7) VNull
                    (VInt 3) (Some 10)).
Proof.
  exact (on_then_off_records_both Facility.store_clock "FAN-001-01"
           Facility.store _ eq_refl).
Defined.

Lemma first_switch_on_is_not_stamped_witness :
  let s1 :=
    (update_device_status Facility.store_clock "AC-009-01" true
                          {[ "switch_count" := VInt 1 ]} Facility.store).2 in
  let s2 :=
    (update_device_status Facility.store_clock "AC-009-01" false ∅ s1).2 in
  (is_on <$> device_status s1 !! "AC-009-01") = Some true
  ∧ device_status s2 !! "AC-009-01"
    = Some (mk_status false None (Some 11) (VInt 0) (VInt 0) VNull VNull
                      (Some 11)).
Proof.
  exact (first_switch_on_is_not_stamped Facility.store_clock "AC-009-01"
           {[ "switch_count" := VInt 1 ]} Facility.store eq_refl eq_refl).
Defined.

End StoreProofs.

(** * Properties of the automation rules (control.py) *)

Module ControlProofs.
Import Control ControlSpec.

(** ** Tables as lists: updates and frames *)

Lemma keyed_inj {A} (f : A → Z) (l : list A) x y :
  NoDup (f <$> l) → x ∈ l → y ∈ l → f x = f y → x = y.
Proof.
  induction l as [|a l IH]; intros Hnd Hx Hy Hxy; [by inversion Hx|].
  rewrite fmap_cons in Hnd. apply NoDup_cons in Hnd as [Hna Hnd].
  apply elem_of_cons in Hx as [->|Hx]; apply elem_of_cons in Hy as [->|Hy].
  - done.
  - exfalso. apply Hna. rewrite Hxy. by apply list_elem_of_fmap_2.
  - exfalso. apply Hna. rewrite <- Hxy. by apply list_elem_of_fmap_2.
  - by apply IH.
Qed.

Lemma switch_key on now d : key (switch on now d) = key d.
Proof. done. Qed.

Section Update.
Context (P : device → Prop) `{!∀ d, Decision (P d)} (f : device → device).

Lemma sql_update_lookup l i :
  sql_update P f l !! i = (λ d, if decide (P d) then f d else d) <$> l !! i.
Proof. apply list_lookup_fmap. Qed.

Lemma sql_update_length l : length (sql_update P f l) = length l.
Proof. apply length_fmap. Qed.

Lemma sql_update_key l :
  (∀ d, key (f d) = key d) → key <$> sql_update P f l = key <$> l.
Proof.
  intros Hf. unfold sql_update. rewrite <- list_fmap_compose.
  apply list_fmap_ext. intros _ d _. cbn. by destruct (decide (P d)).
Qed.

Lemma sql_update_none l :
  (∀ d, d ∈ l → ¬ P d) → sql_update P f l = l.
Proof.
  intros Hno. unfold sql_update. rewrite <- (list_fmap_id l) at 2.
  apply list_fmap_ext. intros i d Hd. cbn.
  destruct (decide (P d)) as [Hp|]; [|done].
  exfalso. eapply Hno; [|done]. by eapply list_elem_of_lookup_2.
Qed.

(** A selection whose predicate the update preserves commutes with it. *)
Lemma sql_update_filter (Q : device → Prop) `{!∀ d, Decision (Q d)} l :
  (∀ d, Q (f d) ↔ Q d) →
  filter Q (sql_update P f l) = sql_update P f (filter Q l).
Proof.
  intros Hf. unfold sql_update.
  set (g := λ d, if decide (P d) then f d else d).
  assert (Hg : ∀ d, Q (g d) ↔ Q d).
  { intros d. unfold g. destruct (decide (P d)); [apply Hf|done]. }
  induction l as [|d l IH]; [done|].
  rewrite fmap_cons, !filter_cons.
  destruct (decide (Q (g d))) as [Hq|Hq], (decide (Q d)) as [Hq'|Hq'].
  - by rewrite fmap_cons, IH.
  - destruct Hq'. by apply Hg.
  - destruct Hq. by apply Hg.
  - done.
Qed.

Lemma sql_update_frame (Q : device → Prop) `{!∀ d, Decision (Q d)} l :
  (∀ d, Q (f d) ↔ Q d) →
  (∀ d, d ∈ l → P d → ¬ Q d) →
  filter Q (sql_update P f l) = filter Q l.
Proof.
  intros Hf Hdisj. rewrite sql_update_filter by done.
  apply sql_update_none. intros d [Hd Hq]%list_elem_of_filter Hp.
  by eapply Hdisj.
Qed.
End Update.

(** ** The toggle command *)

Section Toggle.
Context (clock : nat → Z) (text_matches : Z → string → bool)
        (db_toggle_device : Z → Z → db → outcome (option bool) * db).

Lemma get_room_by_device_elem device_id s rs :
  get_room_by_device device_id s = Returns (Some rs) →
  ∃ d, d ∈ devices s ∧ rs_room rs ∈ rooms s
       ∧ r_id (rs_room rs) = d_room_id d ∧ d_id d = device_id.
Proof.
  unfold get_room_by_device. destruct (decide (sqlite_int device_id)); [|done].
  intros [= Hh%head_Some_elem_of].
  apply list_elem_of_bind in Hh as (r & Hh & Hr).
  apply list_elem_of_bind in Hh as (d & Hh & Hd).
  destruct (decide _) as [[? ?]|]; [|by inversion Hh].
  apply list_elem_of_singleton in Hh as ->. by exists d.
Qed.

Lemma get_room_by_device_found device_id s d r :
  sqlite_int device_id →
  d ∈ devices s → r ∈ rooms s → r_id r = d_room_id d →
  d_id d = device_id →
  ∃ rs, get_room_by_device device_id s = Returns (Some rs).
Proof.
  intros Hrange Hd Hr Hrd Hid. unfold get_room_by_device.
  rewrite decide_True by done.
  assert (Hin : mk_room_status r (d_device_name d) (d_device_type d)
                ∈ (r ← rooms s;
                   d ← devices s;
                   if decide (r_id r = d_room_id d ∧ d_id d = device_id)
                   then [mk_room_status r (d_device_name d)
                                        (d_device_type d)]
                   else [])).
  { apply list_elem_of_bind. exists r. split; [|done].
    apply list_elem_of_bind. exists d. split; [|done].
    rewrite decide_True by done. by apply list_elem_of_singleton. }
  destruct (mbind _ (rooms s)) as [|rs l]; [by inversion Hin|].
  by exists rs.
Qed.

(** An identifier outside the 64-bit range: the query of
    [get_room_by_device] cannot bind it and [toggle_device] raises, with
    nothing written. *)
Lemma toggle_device_out_of_range device_id user force s :
  ¬ sqlite_int device_id →
  get_room_by_device device_id s = Raises OverflowError
  ∧ toggle_device db_toggle_device device_id user force s
    = (Raises OverflowError, s).
Proof.
  intros Hout. unfold toggle_device, get_room_by_device.
  by rewrite decide_False.
Qed.

(** C4: for a device identifier within the signed 64-bit range of the
    store, a toggle of an identifier that names no device returns
    [(False, "Device not found")] and leaves the whole state as it was;
    a toggle without [force] of a device whose room is critical returns
    [(False, "Critical room - Admin permission required")] and leaves
    the whole state as it was. *)
Theorem C4_toggle_rejections device_id user force s :
  - 2 ^ 63 ≤ device_id < 2 ^ 63 →
  ((∀ d, d ∈ devices s → d_id d ≠ device_id) →
   toggle_device db_toggle_device device_id user force s
   = (Returns (false, "Device not found"), s))
  ∧ (∀ d r,
       primary_keys s →
       d ∈ devices s → d_id d = device_id →
       r ∈ rooms s → r_id r = d_room_id d →
       r_is_critical r = true → force = false →
       toggle_device db_toggle_device device_id user force s
       = (Returns (false, "Critical room - Admin permission required"), s)).
Proof.
  intros Hrange. split.
  - intros Hno. unfold toggle_device.
    destruct (get_room_by_device device_id s) as [[rs|]|e] eqn:Hg.
    + apply get_room_by_device_elem in Hg as (d & Hd & _ & _ & Hid).
      by destruct (Hno d Hd).
    + done.
    + unfold get_room_by_device in Hg. by rewrite decide_True in Hg.
  - intros d r [Hrk Hdk] Hd Hid Hr Hrd Hcrit ->. unfold toggle_device.
    destruct (get_room_by_device_found device_id s d r) as [rs Hg];
      [done..|].
    rewrite Hg.
    apply get_room_by_device_elem in Hg as (d' & Hd' & Hr' & Hrd' & Hid').
    assert (d' = d) as ->.
    { apply (keyed_inj d_id (devices s)); [done..|congruence]. }
    assert (rs_room rs = r) as ->.
    { apply (keyed_inj r_id (rooms s)); [done..|congruence]. }
    by rewrite Hcrit.
Qed.

End Toggle.

(** ** Emergency shutdown *)

Section Shutdown.
Context (clock : nat → Z) (text_matches : Z → string → bool).

Lemma shutdown_rooms_elem b f s room_id :
  room_id ∈ shutdown_rooms text_matches b f s
  ↔ ∃ r, r ∈ rooms s ∧ r_id r = room_id
         ∧ shutdown_scope text_matches b f r = true.
Proof.
  unfold shutdown_rooms. rewrite list_elem_of_fmap. split.
  - intros (r & -> & [Hs Hr]%list_elem_of_filter). by exists r.
  - intros (r & Hr & <- & Hs). exists r. split; [done|].
    by apply list_elem_of_filter.
Qed.

Lemma sql_eq_unbound column b :
  bindable_arg b = false → sql_eq text_matches column b = false.
Proof.
  destruct b as [|z|t]; try done. cbn.
  intros Hb%bool_decide_eq_false_1. apply bool_decide_eq_false_2. tauto.
Qed.

(** [column = ?] for an integer parameter that can be bound. *)
Lemma sql_eq_int column z :
  sqlite_int z → (sql_eq text_matches column (PyInt z) = true ↔ column = z).
Proof.
  intros Hz. cbn. rewrite bool_decide_eq_true. tauto.
Qed.

Lemma shutdown_scope_unbound b f r :
  shutdown_params_bind b f = false →
  shutdown_scope text_matches b f r = false.
Proof.
  unfold shutdown_params_bind, shutdown_scope. intros Hb.
  destruct (truthy b), (truthy f), (bindable_arg b) eqn:Hbb,
    (bindable_arg f) eqn:Hbf; cbn in Hb; try done;
    rewrite ?(sql_eq_unbound _ b Hbb), ?(sql_eq_unbound _ f Hbf),
      ?andb_false_r; done.
Qed.

Lemma shutdown_rooms_unbound b f s :
  shutdown_params_bind b f = false →
  shutdown_rooms text_matches b f s = [].
Proof.
  intros Hb. unfold shutdown_rooms.
  induction (rooms s) as [|r l IH]; [done|].
  rewrite filter_cons_False; [done|].
  by rewrite (shutdown_scope_unbound b f r Hb).
Qed.

(** A shutdown whose parameters cannot be bound raises at the UPDATE: it
    has read the clock and written nothing. *)
Lemma emergency_shutdown_unbound b f s :
  shutdown_params_bind b f = false →
  emergency_shutdown clock text_matches b f s = tick s
  ∧ emergency_shutdown_result b f = Raises OverflowError.
Proof.
  intros Hb. unfold emergency_shutdown, emergency_shutdown_result.
  by rewrite Hb.
Qed.

Lemma emergency_shutdown_bound b f s :
  shutdown_params_bind b f = true →
  emergency_shutdown clock text_matches b f s
  = mk_db (rooms s)
          (sql_update (λ d, d_room_id d ∈ shutdown_rooms text_matches b f s)
                      (switch false (clock (ticks s))) (devices s))
          (activity_logs s
             ++ [mk_log 1 "Emergency Shutdown" (ShutdownScope b f)])
          (system_alerts s) (S (ticks s))
  ∧ emergency_shutdown_result b f = Returns ().
Proof.
  intros Hb. unfold emergency_shutdown, emergency_shutdown_result.
  by rewrite Hb.
Qed.

Lemma emergency_shutdown_devices b f s :
  devices (emergency_shutdown clock text_matches b f s)
  = sql_update (λ d, d_room_id d ∈ shutdown_rooms text_matches b f s)
               (switch false (clock (ticks s))) (devices s).
Proof.
  destruct (shutdown_params_bind b f) eqn:Hb.
  - by rewrite (proj1 (emergency_shutdown_bound b f s Hb)).
  - rewrite (proj1 (emergency_shutdown_unbound b f s Hb)).
    symmetry. apply sql_update_none. intros d _.
    rewrite shutdown_rooms_unbound by done. apply not_elem_of_nil.
Qed.

(** C7: after an emergency shutdown scoped to a building (an identifier
    the store can bind: a text, or an integer within the signed 64-bit
    range), every device of a non-critical room of that building is off
    and stamped with the instant of the shutdown, every device of a
    critical room and every device outside the building keeps its row (the
    command has no force option), the call returns, and exactly one
    "Emergency Shutdown" log row recording the scope is appended. *)
Theorem C7_building_shutdown b s :
  truthy b = true →
  bindable_arg b = true →
  NoDup (r_id <$> rooms s) →
  let s' := emergency_shutdown clock text_matches b PyNone s in
  let now := clock (ticks s) in
  emergency_shutdown_result b PyNone = Returns ()
  ∧ (∀ i d r,
      devices s !! i = Some d → r ∈ rooms s → r_id r = d_room_id d →
      (r_is_critical r = false →
       sql_eq text_matches (r_building_id r) b = true →
       ∃ d', devices s' !! i = Some d' ∧ d_is_on d' = false
             ∧ d_last_switched d' = Some now
             ∧ d' = mk_device (d_id d) (d_room_id d) (d_device_name d)
                              (d_device_type d) false (Some now)
                              (d_status d))
      ∧ (r_is_critical r = true → devices s' !! i = Some d)
      ∧ (sql_eq text_matches (r_building_id r) b = false →
         devices s' !! i = Some d))
  ∧ (∀ i d,
        devices s !! i = Some d →
        (∀ r, r ∈ rooms s → r_id r ≠ d_room_id d) →
        devices s' !! i = Some d)
  ∧ length (devices s') = length (devices s)
  ∧ activity_logs s'
    = (activity_logs s
         ++ [mk_log 1 "Emergency Shutdown" (ShutdownScope b PyNone)])%list
  ∧ rooms s' = rooms s
  ∧ system_alerts s' = system_alerts s.
Proof.
  intros Hb Hbind Hnd s' now. subst s' now.
  assert (Hbound : shutdown_params_bind b PyNone = true).
  { unfold shutdown_params_bind. by rewrite Hb, Hbind. }
  destruct (emergency_shutdown_bound b PyNone s Hbound) as [Hrun Hres].
  split; [done|].
  rewrite Hrun. cbn [devices activity_logs rooms system_alerts].
  split; [|split; [|split; [|done]]].
  - intros i d r Hi Hr Hrd.
    assert (Hscope : d_room_id d ∈ shutdown_rooms text_matches b PyNone s
                     ↔ shutdown_scope text_matches b PyNone r = true).
    { rewrite shutdown_rooms_elem. split.
      - intros (r' & Hr' & Hid & Hs).
        by rewrite <- (keyed_inj r_id (rooms s) r' r) by (done || congruence).
      - intros Hs. by exists r. }
    unfold shutdown_scope in Hscope. rewrite Hb in Hscope. cbn in Hscope.
    rewrite andb_true_r in Hscope.
    rewrite sql_update_lookup, Hi. cbn.
    repeat split.
    + intros Hc Hq. rewrite decide_True; [by eexists|].
      apply Hscope. by rewrite Hc, Hq.
    + intros Hc. rewrite decide_False; [done|].
      rewrite Hscope, Hc. done.
    + intros Hq. rewrite decide_False; [done|].
      rewrite Hscope, Hq, andb_false_r. done.
  - intros i d Hi Hno. rewrite sql_update_lookup, Hi. cbn.
    rewrite decide_False; [done|].
    rewrite shutdown_rooms_elem. intros (r & Hr & Hid & _).
    by eapply Hno.
  - apply sql_update_length.
Qed.

Lemma shutdown_scope_falsy b f r :
  shutdown_scope text_matches b f r
  = shutdown_scope text_matches (if truthy b then b else PyNone)
                   (if truthy f then f else PyNone) r.
Proof.
  unfold shutdown_scope.
  destruct (truthy b) eqn:Hb, (truthy f) eqn:Hf;
    by rewrite ?Hb, ?Hf.
Qed.

(** C10: a building or floor argument that is falsy ([None], [0], the
    empty string) is left out of the scope of the shutdown: with falsy
    arguments every device of every non-critical room of the facility,
    whatever its building and floor, has [is_on] false afterwards and
    [last_switched] at the instant of the shutdown; in particular with
    [floor = 0] and no building. *)
Theorem C10_falsy_scope_is_no_scope :
  (∀ b f s,
      shutdown_rooms text_matches b f s
      = shutdown_rooms text_matches (if truthy b then b else PyNone)
                       (if truthy f then f else PyNone) s)
  ∧ truthy PyNone = false ∧ truthy (PyInt 0) = false
  ∧ truthy (PyStr "") = false
  ∧ (∀ b f s i d r,
        truthy b = false → truthy f = false →
        devices s !! i = Some d → r ∈ rooms s → r_id r = d_room_id d →
        r_is_critical r = false →
        ∃ d', devices (emergency_shutdown clock text_matches b f s) !! i
              = Some d'
              ∧ d_is_on d' = false
              ∧ d_last_switched d' = Some (clock (ticks s)))
  ∧ (∀ s i d r,
        devices s !! i = Some d → r ∈ rooms s → r_id r = d_room_id d →
        r_is_critical r = false →
        devices (emergency_shutdown clock text_matches PyNone (PyInt 0) s)
          !! i
        = Some (mk_device (d_id d) (d_room_id d) (d_device_name d)
                          (d_device_type d) false (Some (clock (ticks s)))
                          (d_status d))).
Proof.
  assert (Hrooms : ∀ b f s,
             shutdown_rooms text_matches b f s
             = shutdown_rooms text_matches (if truthy b then b else PyNone)
                              (if truthy f then f else PyNone) s).
  { intros b f s. unfold shutdown_rooms. f_equal.
    apply list_filter_iff. intros r. by rewrite <- shutdown_scope_falsy. }
  assert (Hoff : ∀ b f s i d r,
             truthy b = false → truthy f = false →
             devices s !! i = Some d → r ∈ rooms s → r_id r = d_room_id d →
             r_is_critical r = false →
             devices (emergency_shutdown clock text_matches b f s) !! i
             = Some (mk_device (d_id d) (d_room_id d) (d_device_name d)
                               (d_device_type d) false
                               (Some (clock (ticks s))) (d_status d))).
  { intros b f s i d r Hb Hf Hi Hr Hrd Hc.
    rewrite emergency_shutdown_devices, sql_update_lookup, Hi. cbn.
    rewrite decide_True; [done|].
    apply shutdown_rooms_elem. exists r. repeat split; [done..|].
    unfold shutdown_scope. by rewrite Hc, Hb, Hf. }
  split; [done|]. do 3 (split; [done|]). split.
  - intros b f s i d r Hb Hf Hi Hr Hrd Hc. eexists.
    split; [by eapply Hoff|done].
  - intros s i d r. by apply Hoff.
Qed.

End Shutdown.

(** ** AC rotation *)

Lemma first_by_last_switched_elem l y :
  first_by_last_switched l = Some y → y ∈ l.
Proof.
  revert y. induction l as [|d l IH]; intros y Hy; [done|]. cbn in Hy.
  destruct (first_by_last_switched l) as [m|].
  - destruct (ts_le _ _); simplify_eq; [left|right; by apply IH].
  - simplify_eq. left.
Qed.

Lemma first_by_last_switched_None l :
  first_by_last_switched l = None ↔ l = [].
Proof.
  split; [|by intros ->].
  destruct l as [|d l]; [done|]. cbn.
  destruct (first_by_last_switched l); [by destruct (ts_le _ _)|done].
Qed.

Lemma ts_le_refl a : ts_le a a = true.
Proof. destruct a; cbn; [|done]. by apply bool_decide_eq_true_2. Qed.

Lemma ts_le_total a b : ts_le a b = false → ts_le b a = true.
Proof.
  destruct a as [x|], b as [y|]; cbn; try done.
  intros H%bool_decide_eq_false_1. apply bool_decide_eq_true_2. lia.
Qed.

Lemma ts_le_trans a b c :
  ts_le a b = true → ts_le b c = true → ts_le a c = true.
Proof.
  destruct a as [x|], b as [y|], c as [z|]; cbn; try done.
  intros H1%bool_decide_eq_true_1 H2%bool_decide_eq_true_1.
  apply bool_decide_eq_true_2. lia.
Qed.

(** [ORDER BY last_switched ASC LIMIT 1] returns a row with the least
    [last_switched] of its input. *)
Lemma first_by_last_switched_least l y :
  first_by_last_switched l = Some y →
  ∀ d, d ∈ l → ts_le (d_last_switched y) (d_last_switched d) = true.
Proof.
  revert y. induction l as [|d0 l IH]; intros y Hy d Hd; [by inversion Hd|].
  cbn in Hy. destruct (first_by_last_switched l) as [m|] eqn:Hm.
  - specialize (IH m eq_refl).
    destruct (ts_le (d_last_switched d0) (d_last_switched m)) eqn:Hle;
      simplify_eq; apply elem_of_cons in Hd as [->|Hd].
    + apply ts_le_refl.
    + eapply ts_le_trans; [done|by apply IH].
    + by apply ts_le_total.
    + by apply IH.
  - simplify_eq. apply first_by_last_switched_None in Hm as ->.
    apply elem_of_cons in Hd as [->|Hd]; [apply ts_le_refl|by inversion Hd].
Qed.

(** The log texts, rendered. *)
Lemma render_examples :
  render (RoomAcSwap 1 2 4) = "Room 1: AC 2 -> AC 4"
  ∧ render (EmptyRoomAutoControl 3) = "Empty room auto-control: Device 3"
  ∧ render (VipRoomDeviceControl 5) = "VIP room device control: Device 5"
  ∧ render (ShutdownScope PyNone (PyInt 0)) = "Building: None, Floor: 0".
Proof. by vm_compute. Qed.

Lemma ids_of_keys (l : list device) : d_id <$> l = (key <$> l).*1.
Proof. rewrite <- list_fmap_compose. done. Qed.

Lemma key_elem (l : list device) d : d ∈ l → key d ∈ key <$> l.
Proof. apply list_elem_of_fmap_2. Qed.

Lemma key_unique (K : list (Z * (Z * string))) k1 k2 :
  NoDup K.*1 → k1 ∈ K → k2 ∈ K → k1.1 = k2.1 → k1 = k2.
Proof. intros. by eapply (keyed_inj fst). Qed.

Section Rotation.
Context (clock : nat → Z).

(** What one iteration of the rotation loop does. *)
Lemma rotate_one_cases s ac_id r nm ls :
  (filter (eligible r) (devices s) = []
   ∧ rotate_one clock s (ac_id, r, nm, ls) = s)
  ∨ (∃ y,
        first_by_last_switched (filter (eligible r) (devices s)) = Some y
        ∧ rotate_one clock s (ac_id, r, nm, ls)
          = mk_db (rooms s)
                  (sql_update (λ d, d_id d = d_id y)
                     (switch true (clock (ticks s)))
                     (sql_update (λ d, d_id d = ac_id)
                        (switch false (clock (ticks s))) (devices s)))
                  (activity_logs s ++ [rotation_log r ac_id (d_id y)])
                  (system_alerts s) (S (ticks s))).
Proof.
  unfold rotate_one, find_replacement.
  destruct (first_by_last_switched (filter (eligible r) (devices s)))
    as [y|] eqn:Hy; cbn.
  - right. by exists y.
  - left. by apply first_by_last_switched_None in Hy.
Qed.

Lemma rotate_fold_ticks L : ∀ s,
  (ticks s ≤ ticks (foldl (rotate_one clock) s L))%nat.
Proof.
  induction L as [|[[[i r] nm] ls] L IH]; intros s; [done|].
  change (foldl (rotate_one clock) s ((i, r, nm, ls) :: L))
    with (foldl (rotate_one clock) (rotate_one clock s (i, r, nm, ls)) L).
  etransitivity; [|apply IH].
  destruct (rotate_one_cases s i r nm ls) as [[_ ->]|(y & _ & ->)];
    cbn; lia.
Qed.

Section Frame.
Context (Q : device → Prop) `{!∀ d, Decision (Q d)}.
Context (Q_switch : ∀ on now d, Q (switch on now d) ↔ Q d).

Lemma rotate_one_frame s ac_id r nm ls :
  NoDup (d_id <$> devices s) →
  outside Q (key <$> devices s) ac_id r
  ∨ no_spare Q (filter Q (devices s)) r →
  let s' := rotate_one clock s (ac_id, r, nm, ls) in
  filter Q (devices s') = filter Q (devices s)
  ∧ key <$> devices s' = key <$> devices s
  ∧ rooms s' = rooms s
  ∧ system_alerts s' = system_alerts s
  ∧ (activity_logs s' = activity_logs s
     ∨ ∃ y, activity_logs s'
            = (activity_logs s ++ [rotation_log r ac_id y])%list).
Proof.
  intros Hnd Hcase s'. subst s'.
  destruct (rotate_one_cases s ac_id r nm ls)
    as [[_ ->]|(y & Hy & ->)]; [repeat split; by left|].
  apply first_by_last_switched_elem in Hy.
  destruct Hcase as [[Hid Hac]|Hno]; cycle 1.
  { specialize (Hno (devices s) eq_refl). rewrite Hno in Hy.
    by inversion Hy. }
  apply list_elem_of_filter in Hy as [Hel Hy]. cbn.
  split; [|split; [|by eauto]].
  - rewrite !sql_update_frame; [done|done| |done|].
    + intros d Hd <-. apply Hid; [by apply key_elem|done].
    + intros d Hd Hdy.
      apply list_elem_of_fmap in Hd as (d0 & -> & Hd0).
      assert (d0 = y) as ->.
      { apply (keyed_inj d_id (devices s)); [done..|].
        rewrite <- Hdy. by destruct (decide _). }
      destruct Hel as (Hr & Hty & _).
      assert (¬ Q y) by (apply Hac; [by apply key_elem|done..]).
      destruct (decide _); [by rewrite Q_switch|done].
  - by rewrite !sql_update_key.
Qed.

Lemma rotate_fold_frame L : ∀ s,
  NoDup (d_id <$> devices s) →
  (∀ i r nm ls, (i, r, nm, ls) ∈ L →
                outside Q (key <$> devices s) i r
                ∨ no_spare Q (filter Q (devices s)) r) →
  let s' := foldl (rotate_one clock) s L in
  filter Q (devices s') = filter Q (devices s)
  ∧ key <$> devices s' = key <$> devices s
  ∧ rooms s' = rooms s
  ∧ system_alerts s' = system_alerts s
  ∧ ∃ new, activity_logs s' = (activity_logs s ++ new)%list
           ∧ Forall (λ e, ∃ i r nm ls y,
                         (i, r, nm, ls) ∈ L ∧ e = rotation_log r i y)
                    new.
Proof.
  induction L as [|[[[i r] nm] ls] L IH]; intros s Hnd HL.
  { cbn. repeat split. exists []. by rewrite app_nil_r. }
  change (foldl (rotate_one clock) s ((i, r, nm, ls) :: L))
    with (foldl (rotate_one clock) (rotate_one clock s (i, r, nm, ls)) L).
  cbv zeta.
  destruct (rotate_one_frame s i r nm ls Hnd) as (HQ & HK & Hr & Ha & Hl).
  { eapply HL. left. }
  set (s1 := rotate_one clock s (i, r, nm, ls)) in *.
  destruct (IH s1) as (HQ' & HK' & Hr' & Ha' & new & Hl' & Hnew).
  { by rewrite ids_of_keys, HK, <- ids_of_keys. }
  { intros i' r' nm' ls' Hin. rewrite HK, HQ. eapply HL. by right. }
  split; [by rewrite HQ', HQ|]. split; [by rewrite HK', HK|].
  split; [by rewrite Hr', Hr|]. split; [by rewrite Ha', Ha|].
  assert (Hnew' : Forall (λ e, ∃ i0 r0 nm0 ls0 y,
                             (i0, r0, nm0, ls0) ∈ (i, r, nm, ls) :: L
                             ∧ e = rotation_log r0 i0 y) new).
  { eapply Forall_impl; [done|]. intros e (?&?&?&?&?&?&?).
    do 5 eexists. split; [by right|done]. }
  destruct Hl as [Hl|[y Hl]].
  - exists new. by rewrite Hl', Hl.
  - exists (rotation_log r i y :: new). split.
    + by rewrite Hl', Hl, <- app_assoc.
    + constructor; [|done]. do 5 eexists. split; [left|done].
Qed.

End Frame.

Lemma ac_rotation_system_active self s :
  ac_rotation_active self = true →
  ac_rotation_system clock self s
  = foldl (rotate_one clock) (tick s)
          (overdue_acs (clock (ticks s) - timedelta_hours 8) (tick s)).
Proof. intros Ha. unfold ac_rotation_system. by rewrite Ha. Qed.

Lemma overdue_acs_elem cutoff s i r nm ls :
  (i, r, nm, ls) ∈ overdue_acs cutoff s →
  ∃ d, d ∈ devices s ∧ overdue cutoff d ∧ i = d_id d ∧ r = d_room_id d.
Proof.
  intros (d & Heq & [Ho Hd]%list_elem_of_filter)%list_elem_of_fmap.
  exists d. by simplify_eq.
Qed.

Lemma outside_other_room R (l : list device) d0 :
  NoDup (d_id <$> l) → d0 ∈ l → d_room_id d0 ≠ R →
  outside (in_room R) (key <$> l) (d_id d0) (d_room_id d0).
Proof.
  intros Hnd Hd0 Hr. split.
  - intros d Hd Hid Hin.
    assert (key d = key d0) as Hk.
    { apply (key_unique (key <$> l)); [|done|by apply key_elem|done].
      by rewrite <- ids_of_keys. }
    unfold in_room in Hin. unfold key in Hk. congruence.
  - intros d _ Hrd _ Hin. unfold in_room in Hin. congruence.
Qed.

Lemma outside_non_ac (l : list device) d0 r :
  NoDup (d_id <$> l) → d0 ∈ l → d_device_type d0 = "ac" →
  outside (λ d, d_device_type d ≠ "ac") (key <$> l) (d_id d0) r.
Proof.
  intros Hnd Hd0 Hty. split.
  - intros d Hd Hid Hq.
    assert (key d = key d0) as Hk.
    { apply (key_unique (key <$> l)); [|done|by apply key_elem|done].
      by rewrite <- ids_of_keys. }
    apply Hq. unfold key in Hk. congruence.
  - intros d _ _ Hac Hq. by apply Hq.
Qed.

Lemma eligible_in_room R (l : list device) :
  filter (eligible R) l = filter (eligible R) (filter (in_room R) l).
Proof.
  rewrite list_filter_filter. apply list_filter_iff.
  intros d. unfold eligible, in_room. tauto.
Qed.

Lemma no_spare_in_room R (rows : list device) :
  filter (eligible R) rows = [] → no_spare (in_room R) rows R.
Proof. intros Hnone l <-. by rewrite eligible_in_room. Qed.

(** The rotation pass never writes a device that is not an AC. *)
Lemma ac_rotation_system_non_ac self s :
  NoDup (d_id <$> devices s) →
  filter (λ d, d_device_type d ≠ "ac")
         (devices (ac_rotation_system clock self s))
  = filter (λ d, d_device_type d ≠ "ac") (devices s).
Proof.
  intros Hnd. destruct (ac_rotation_active self) eqn:Ha; cycle 1.
  { unfold ac_rotation_system. by rewrite Ha. }
  rewrite ac_rotation_system_active by done.
  refine (proj1 (rotate_fold_frame (λ d, d_device_type d ≠ "ac") _ _
                   (tick s) Hnd _)); [done|].
  intros i r nm ls (d & Hd & (Hty & _) & -> & ->)%overdue_acs_elem.
  left. by apply outside_non_ac.
Qed.

(** C3, as the code has it: when an overdue AC that is on has no
    eligible replacement in its room, the rotation pass leaves every
    device of that room as it was, so the AC stays on, and the pass
    writes no alert. *)
Theorem C3_no_spare_keeps_ac_on self s a :
  NoDup (d_id <$> devices s) →
  a ∈ devices s →
  overdue (clock (ticks s) - timedelta_hours 8) a →
  filter (eligible (d_room_id a)) (devices s) = [] →
  let s' := ac_rotation_system clock self s in
  room_devices (d_room_id a) s' = room_devices (d_room_id a) s
  ∧ a ∈ devices s'
  ∧ d_is_on a = true
  ∧ system_alerts s' = system_alerts s.
Proof.
  intros Hnd Ha Hov Hnone s'.
  assert (Hframe : room_devices (d_room_id a) s'
                   = room_devices (d_room_id a) s
                   ∧ system_alerts s' = system_alerts s).
  { subst s'. destruct (ac_rotation_active self) eqn:Hact; cycle 1.
    { unfold ac_rotation_system. by rewrite Hact. }
    rewrite ac_rotation_system_active by done.
    destruct (rotate_fold_frame (in_room (d_room_id a))
                ltac:(done)
                (overdue_acs (clock (ticks s) - timedelta_hours 8) (tick s))
                (tick s) Hnd) as (HQ & _ & _ & Hal & _); [|done].
    intros i r nm ls (d & Hd & _ & -> & ->)%overdue_acs_elem.
    destruct (decide (d_room_id d = d_room_id a)) as [->|Hne].
    - right. apply no_spare_in_room. by rewrite <- eligible_in_room.
    - left. by apply outside_other_room. }
  destruct Hframe as [Hrows Hal]. repeat split; [done| |apply Hov|done].
  assert (a ∈ room_devices (d_room_id a) s') as Hin.
  { rewrite Hrows. by apply list_elem_of_filter. }
  by apply list_elem_of_filter in Hin as [_ ?].
Qed.

Lemma swap_fused (l : list device) ac_id replacement_id now :
  ac_id ≠ replacement_id →
  sql_update (λ d, d_id d = replacement_id) (switch true now)
             (sql_update (λ d, d_id d = ac_id) (switch false now) l)
  = swapped ac_id replacement_id now <$> l.
Proof.
  intros Hne. unfold sql_update. rewrite <- list_fmap_compose.
  apply list_fmap_ext. intros _ d _. cbn. unfold swapped.
  destruct (decide (d_id d = ac_id)) as [Ha|Ha]; cbn.
  - rewrite decide_False; [done|congruence].
  - done.
Qed.

Lemma rotation_log_other_room R (new : list log_row)
      (L : list (Z * Z * string * option Z)) :
  (∀ i r nm ls, (i, r, nm, ls) ∈ L → r ≠ R) →
  Forall (λ e, ∃ i r nm ls y, (i, r, nm, ls) ∈ L ∧ e = rotation_log r i y)
         new →
  filter (λ e, is_rotation_for R e = true) new = [].
Proof.
  intros HL Hnew. induction Hnew as [|e new He _ IH]; [done|].
  destruct He as (i & r & nm & ls & y & Hin & ->).
  rewrite filter_cons_False; [done|].
  unfold is_rotation_for. cbn.
  rewrite (bool_decide_eq_false_2 (r = R)) by (by eapply HL).
  by rewrite andb_false_r.
Qed.

(** C2, as the code has it: when an AC that is on was last switched
    strictly more than eight hours ago, is the only overdue AC of its
    room and the room has an eligible replacement (off, active), then
    after one rotation pass the overdue unit has [is_on] false, the least
    recently switched eligible unit has [is_on] true, [last_switched] of
    both is one and the same clock reading, taken during the pass, every
    other device of the room is as it was, and exactly one "AC Rotation"
    log row for the room has been appended, naming both units. *)
Theorem C2_single_overdue_rotation self s a :
  ac_rotation_active self = true →
  NoDup (d_id <$> devices s) →
  let cutoff := clock (ticks s) - timedelta_hours 8 in
  let R := d_room_id a in
  a ∈ devices s →
  overdue cutoff a →
  (∀ d, d ∈ devices s → overdue cutoff d → d_room_id d = R → d = a) →
  filter (eligible R) (devices s) ≠ [] →
  let s' := ac_rotation_system clock self s in
  ∃ y now,
    first_by_last_switched (filter (eligible R) (devices s)) = Some y
    ∧ y ∈ devices s ∧ eligible R y
    ∧ (∀ d, d ∈ devices s → eligible R d →
            ts_le (d_last_switched y) (d_last_switched d) = true)
    ∧ (∃ k, (ticks s < k < ticks s')%nat ∧ now = clock k)
    ∧ mk_device (d_id a) (d_room_id a) (d_device_name a) (d_device_type a)
                false (Some now) (d_status a) ∈ devices s'
    ∧ mk_device (d_id y) (d_room_id y) (d_device_name y) (d_device_type y)
                true (Some now) (d_status y) ∈ devices s'
    ∧ (∀ d', d' ∈ devices s' →
             (d_id d' = d_id a →
              d_is_on d' = false ∧ d_last_switched d' = Some now)
             ∧ (d_id d' = d_id y →
                d_is_on d' = true ∧ d_last_switched d' = Some now))
    ∧ room_devices R s'
      = swapped (d_id a) (d_id y) now <$> room_devices R s
    ∧ (∀ i d d',
          room_devices R s !! i = Some d →
          room_devices R s' !! i = Some d' →
          d_is_on d = false → d_is_on d' = true → d = y)
    ∧ ∃ new,
        activity_logs s' = (activity_logs s ++ new)%list
        ∧ filter (λ e, is_rotation_for R e = true) new
          = [rotation_log R (d_id a) (d_id y)].
Proof.
  intros Hact Hnd cutoff R Ha Hov Honly Hsome s'.
  destruct (first_by_last_switched (filter (eligible R) (devices s)))
    as [y|] eqn:Hy; [|by apply first_by_last_switched_None in Hy].
  assert (Hyel : y ∈ devices s ∧ eligible R y).
  { apply first_by_last_switched_elem, list_elem_of_filter in Hy. tauto. }
  destruct Hyel as [Hyd Hyel].
  assert (Hay : d_id a ≠ d_id y).
  { intros Hid. assert (a = y) as ->
      by (by apply (keyed_inj d_id (devices s))).
    destruct Hov as (_ & Hon & _), Hyel as (_ & _ & Hoff & _). congruence. }
  (* the overdue list, split at [a] *)
  assert (Hina : a ∈ filter (overdue cutoff) (devices s))
    by (by apply list_elem_of_filter).
  apply list_elem_of_split in Hina as (l1 & l2 & Hsplit).
  assert (Hndf : NoDup (filter (overdue cutoff) (devices s))).
  { apply NoDup_filter. by eapply NoDup_fmap_1. }
  rewrite Hsplit in Hndf.
  apply NoDup_app in Hndf as (_ & Hl1 & [Hl2 _]%NoDup_cons).
  assert (Hother : ∀ d, d ∈ l1 ∨ d ∈ l2 → d ∈ devices s ∧ d_room_id d ≠ R).
  { intros d Hd.
    assert (d ∈ filter (overdue cutoff) (devices s)) as [Hod Hdd]%list_elem_of_filter.
    { rewrite Hsplit. rewrite elem_of_app, elem_of_cons. tauto. }
    split; [done|]. intros Hr. apply Honly in Hr; [|done..]. subst d.
    destruct Hd as [Hd|Hd]; [|done]. eapply Hl1; [done|left]. }
  set (tup := λ d : device,
         (d_id d, d_room_id d, d_device_name d, d_last_switched d)).
  assert (Htup : ∀ (l : list device) i r nm ls,
             (∀ d, d ∈ l → d ∈ l1 ∨ d ∈ l2) →
             (i, r, nm, ls) ∈ tup <$> l →
             ∃ d, d ∈ devices s ∧ d_room_id d ≠ R
                  ∧ i = d_id d ∧ r = d_room_id d).
  { intros l i r nm ls Hl (d & Heq & Hd)%list_elem_of_fmap.
    exists d. destruct (Hother d (Hl d Hd)). unfold tup in Heq.
    by simplify_eq. }
  subst s'. rewrite ac_rotation_system_active by done.
  fold cutoff. unfold overdue_acs. fold tup.
  change (devices (tick s)) with (devices s).
  rewrite Hsplit, fmap_app, fmap_cons, foldl_app.
  change (foldl ?f ?x (?t :: ?l)) with (foldl f (f x t) l).
  (* the iterations before [a] *)
  destruct (rotate_fold_frame (in_room R) ltac:(done) (tup <$> l1)
              (tick s) Hnd) as (HQ1 & HK1 & _ & _ & new1 & Hlog1 & Hnew1).
  { intros i r nm ls (d & Hd & Hr & -> & ->)%Htup; [|tauto].
    left. by apply outside_other_room. }
  pose proof (rotate_fold_ticks (tup <$> l1) (tick s)) as Ht1.
  change (ticks (tick s)) with (S (ticks s)) in Ht1.
  set (s1 := foldl (rotate_one clock) (tick s) (tup <$> l1)) in *.
  change (devices (tick s)) with (devices s) in *.
  change (activity_logs (tick s)) with (activity_logs s) in *.
  (* the iteration for [a] *)
  destruct (rotate_one_cases s1 (d_id a) (d_room_id a) (d_device_name a)
              (d_last_switched a)) as [[Hnil _]|(y' & Hy' & Hstep)].
  { exfalso. apply Hsome. fold R in Hnil.
    rewrite eligible_in_room in Hnil. rewrite HQ1 in Hnil.
    by rewrite eligible_in_room. }
  fold R in Hy'. rewrite eligible_in_room, HQ1, <- eligible_in_room in Hy'.
  assert (y' = y) as -> by congruence.
  change (tup a) with (d_id a, d_room_id a, d_device_name a,
                       d_last_switched a).
  rewrite Hstep. clear Hstep.
  set (now := clock (ticks s1)).
  set (s2 := mk_db _ _ _ _ _).
  assert (Hdev2 : devices s2
                  = swapped (d_id a) (d_id y) now <$> devices s1).
  { unfold s2. cbn. by apply swap_fused. }
  assert (HK2 : key <$> devices s2 = key <$> devices s).
  { rewrite Hdev2, <- HK1, <- list_fmap_compose. apply list_fmap_ext.
    intros _ d _. cbn. unfold swapped. by repeat destruct (decide _). }
  assert (HQ2 : filter (in_room R) (devices s2)
                = swapped (d_id a) (d_id y) now <$> room_devices R s).
  { unfold room_devices. rewrite <- HQ1, Hdev2.
    rewrite <- swap_fused by done.
    rewrite !sql_update_filter by (intros; reflexivity).
    by rewrite swap_fused. }
  (* the iterations after [a] *)
  destruct (rotate_fold_frame (in_room R) ltac:(done) (tup <$> l2) s2)
    as (HQ3 & HK3 & _ & _ & new2 & Hlog3 & Hnew2).
  { by rewrite ids_of_keys, HK2, <- ids_of_keys. }
  { intros i r nm ls (d & Hd & Hr & -> & ->)%Htup; [|tauto].
    left. rewrite HK2. by apply outside_other_room. }
  pose proof (rotate_fold_ticks (tup <$> l2) s2) as Ht3.
  change (ticks s2) with (S (ticks s1)) in Ht3.
  set (s3 := foldl (rotate_one clock) s2 (tup <$> l2)) in *.
  assert (Hrows : room_devices R s3
                  = swapped (d_id a) (d_id y) now <$> room_devices R s).
  { unfold room_devices at 1. by rewrite HQ3, HQ2. }
  assert (Hsub : ∀ d, d ∈ room_devices R s3 → d ∈ devices s3).
  { intros d Hd. by apply list_elem_of_filter in Hd as [_ ?]. }
  exists y, now. split; [done|]. split; [done|]. split; [done|].
  split.
  { intros d Hd Hel. eapply first_by_last_switched_least; [done|].
    by apply list_elem_of_filter. }
  split; [exists (ticks s1); split; [lia|done]|].
  assert (Hoff3 : mk_device (d_id a) (d_room_id a) (d_device_name a)
                            (d_device_type a) false (Some now) (d_status a)
                  ∈ devices s3).
  { apply Hsub. rewrite Hrows.
    replace (mk_device _ _ _ _ _ _ _)
      with (swapped (d_id a) (d_id y) now a)
      by (unfold swapped; by rewrite decide_True).
    apply list_elem_of_fmap_2. by apply list_elem_of_filter. }
  assert (Hon3 : mk_device (d_id y) (d_room_id y) (d_device_name y)
                           (d_device_type y) true (Some now) (d_status y)
                 ∈ devices s3).
  { apply Hsub. rewrite Hrows.
    replace (mk_device _ _ _ _ _ _ _)
      with (swapped (d_id a) (d_id y) now y).
    2:{ unfold swapped. rewrite decide_False by done.
        by rewrite decide_True. }
    apply list_elem_of_fmap_2. apply list_elem_of_filter.
    split; [apply Hyel|done]. }
  assert (Hnd3 : NoDup (d_id <$> devices s3)).
  { by rewrite ids_of_keys, HK3, HK2, <- ids_of_keys. }
  split; [done|]. split; [done|].
  split; [|split; [done|split]].
  - intros d' Hd'. split; intros Hid.
    + by rewrite (keyed_inj d_id (devices s3) _ _ Hnd3 Hd' Hoff3 Hid).
    + by rewrite (keyed_inj d_id (devices s3) _ _ Hnd3 Hd' Hon3 Hid).
  - intros i d d' Hd Hd' Hoff Hon.
    rewrite Hrows, list_lookup_fmap, Hd in Hd'. cbn in Hd'.
    assert (d ∈ devices s) as Hdin.
    { apply list_elem_of_lookup_2 in Hd.
      by apply list_elem_of_filter in Hd as [_ ?]. }
    unfold swapped in Hd'. simplify_eq.
    destruct (decide (d_id d = d_id a)); [done|].
    destruct (decide (d_id d = d_id y)); [|congruence].
    by apply (keyed_inj d_id (devices s)).
  - exists (new1 ++ rotation_log R (d_id a) (d_id y) :: new2)%list.
    split.
    + rewrite Hlog3. unfold s2 at 1. cbn. rewrite Hlog1.
      by rewrite <- !app_assoc.
    + rewrite filter_app, filter_cons_True.
      2:{ unfold is_rotation_for, rotation_log. cbn [action log_details].
          by rewrite !bool_decide_eq_true_2. }
      rewrite (rotation_log_other_room R new1 (tup <$> l1)); [|  |done].
      2:{ intros i r nm ls (d & _ & Hr & _ & ->)%Htup; [done|tauto]. }
      rewrite (rotation_log_other_room R new2 (tup <$> l2)); [done|  |done].
      intros i r nm ls (d & _ & Hr & _ & ->)%Htup; [done|tauto].
Qed.

End Rotation.

(** ** Empty-room auto-off *)

Section AutoOff.
Context (clock : nat → Z).

Lemma auto_off_device_cases s i ty :
  (¬ auto_controllable ty ∧ auto_off_device clock s (i, ty) = s)
  ∨ (auto_controllable ty
     ∧ auto_off_device clock s (i, ty)
       = mk_db (rooms s)
               (sql_update (λ d, d_id d = i)
                           (switch false (clock (ticks s))) (devices s))
               (activity_logs s ++ [auto_off_log i])
               (system_alerts s) (S (ticks s))).
Proof.
  unfold auto_off_device, auto_controllable.
  destruct (decide (ty ∈ ["light"; "fan"; "projector"])); [right|left]; done.
Qed.

Lemma active_devices_elem room_id s i ty :
  (i, ty) ∈ active_devices room_id s →
  ∃ d, d ∈ devices s ∧ d_room_id d = room_id ∧ d_is_on d = true
       ∧ i = d_id d ∧ ty = d_device_type d.
Proof.
  intros (d & Heq & [[Hr Hon] Hd]%list_elem_of_filter)%list_elem_of_fmap.
  exists d. by simplify_eq.
Qed.

Section Frame.
Context (Q : device → Prop) `{!∀ d, Decision (Q d)}.
Context (Q_switch : ∀ on now d, Q (switch on now d) ↔ Q d).

Lemma auto_off_devices_frame L : ∀ s,
  (∀ i ty, (i, ty) ∈ L →
           ∀ d, key d ∈ key <$> devices s → d_id d = i → ¬ Q d) →
  let s' := foldl (auto_off_device clock) s L in
  filter Q (devices s') = filter Q (devices s)
  ∧ key <$> devices s' = key <$> devices s
  ∧ rooms s' = rooms s
  ∧ system_alerts s' = system_alerts s
  ∧ ∃ new, activity_logs s' = (activity_logs s ++ new)%list
           ∧ Forall (λ e, ∃ i ty, (i, ty) ∈ L ∧ e = auto_off_log i) new.
Proof.
  induction L as [|[i ty] L IH]; intros s HL.
  { cbn. repeat split. exists []. by rewrite app_nil_r. }
  change (foldl (auto_off_device clock) s ((i, ty) :: L))
    with (foldl (auto_off_device clock)
                (auto_off_device clock s (i, ty)) L).
  cbv zeta.
  assert (Hnew' : ∀ new,
             Forall (λ e, ∃ i0 ty0, (i0, ty0) ∈ L ∧ e = auto_off_log i0)
                    new →
             Forall (λ e, ∃ i0 ty0, (i0, ty0) ∈ (i, ty) :: L
                                    ∧ e = auto_off_log i0) new).
  { intros new Hf. eapply Forall_impl; [done|]. intros e (?&?&?&?).
    do 2 eexists. split; [by right|done]. }
  destruct (auto_off_device_cases s i ty) as [[_ ->]|[_ Hstep]].
  { destruct (IH s) as (?&?&?&?&new&?&?).
    { intros i' ty' Hin. eapply HL. by right. }
    repeat split; [done..|]. exists new. split; [done|by apply Hnew']. }
  set (s1 := auto_off_device clock s (i, ty)) in *.
  assert (HQ : filter Q (devices s1) = filter Q (devices s)).
  { rewrite Hstep. cbn. apply sql_update_frame; [done|].
    intros d Hd <-. eapply HL; [left|by apply key_elem|done]. }
  assert (HK : key <$> devices s1 = key <$> devices s).
  { rewrite Hstep. cbn. by apply sql_update_key. }
  destruct (IH s1) as (HQ' & HK' & Hr' & Ha' & new & Hl' & Hnew).
  { intros i' ty' Hin. rewrite HK. eapply HL. by right. }
  split; [by rewrite HQ', HQ|]. split; [by rewrite HK', HK|].
  split; [by rewrite Hr', Hstep|]. split; [by rewrite Ha', Hstep|].
  exists (auto_off_log i :: new). split.
  - rewrite Hl', Hstep. cbn. by rewrite <- app_assoc.
  - constructor; [|by apply Hnew']. do 2 eexists. split; [left|done].
Qed.

Lemma auto_off_rooms_frame RL : ∀ s,
  NoDup (d_id <$> devices s) →
  (∀ r d, r ∈ RL → key d ∈ key <$> devices s →
          d_room_id d = r_id r → ¬ Q d) →
  let s' := foldl (auto_off_room clock) s RL in
  filter Q (devices s') = filter Q (devices s)
  ∧ key <$> devices s' = key <$> devices s
  ∧ rooms s' = rooms s
  ∧ system_alerts s' = system_alerts s
  ∧ ∃ new, activity_logs s' = (activity_logs s ++ new)%list
           ∧ Forall (λ e, ∃ d r, key d ∈ key <$> devices s ∧ r ∈ RL
                                 ∧ d_room_id d = r_id r
                                 ∧ e = auto_off_log (d_id d)) new.
Proof.
  induction RL as [|r RL IH]; intros s Hnd HRL.
  { cbn. repeat split. exists []. by rewrite app_nil_r. }
  change (foldl (auto_off_room clock) s (r :: RL))
    with (foldl (auto_off_room clock) (auto_off_room clock s r) RL).
  cbv zeta.
  assert (Hnew' : ∀ (K : list (Z * (Z * string))) new,
             Forall (λ e, ∃ d r0, key d ∈ K ∧ r0 ∈ RL
                                  ∧ d_room_id d = r_id r0
                                  ∧ e = auto_off_log (d_id d)) new →
             Forall (λ e, ∃ d r0, key d ∈ K ∧ r0 ∈ r :: RL
                                  ∧ d_room_id d = r_id r0
                                  ∧ e = auto_off_log (d_id d)) new).
  { intros K new Hf. eapply Forall_impl; [done|].
    intros e (?&?&?&?&?&?).
    do 2 eexists. split; [done|]. split; [by right|done]. }
  destruct (auto_off_devices_frame (active_devices (r_id r) s) s)
    as (HQ & HK & Hr & Ha & new1 & Hl & Hnew1).
  { intros i ty (d0 & Hd0 & Hrd0 & _ & -> & _)%active_devices_elem
           d Hd Hid.
    eapply HRL; [left|done|].
    assert (key d = key d0) as Hk.
    { apply (key_unique (key <$> devices s));
        [by rewrite <- ids_of_keys|done|by apply key_elem|done]. }
    unfold key in Hk. congruence. }
  fold (auto_off_room clock s r) in HQ, HK, Hr, Ha, Hl.
  set (s1 := auto_off_room clock s r) in *.
  destruct (IH s1) as (HQ' & HK' & Hr' & Ha' & new & Hl' & Hnew).
  { by rewrite ids_of_keys, HK, <- ids_of_keys. }
  { intros r' d Hin. rewrite HK. eapply HRL. by right. }
  split; [by rewrite HQ', HQ|]. split; [by rewrite HK', HK|].
  split; [by rewrite Hr', Hr|]. split; [by rewrite Ha', Ha|].
  exists (new1 ++ new)%list. split.
  - by rewrite Hl', Hl, <- app_assoc.
  - apply Forall_app. split.
    + eapply Forall_impl; [done|]. cbn.
      intros e (i & ty & (d0 & Hd0 & Hrd0 & _ & -> & _)%active_devices_elem
                & ->).
      exists d0, r. split; [by apply key_elem|]. split; [left|done].
    + rewrite HK in Hnew. by apply Hnew'.
Qed.

End Frame.

Lemma auto_off_devices_spec L : ∀ s,
  let s' := foldl (auto_off_device clock) s L in
  Forall2 (switched clock (ticks s) (ticks s') (targets L))
          (devices s) (devices s')
  ∧ activity_logs s'
    = (activity_logs s ++ (auto_off_log <$> targets L))%list
  ∧ (ticks s ≤ ticks s')%nat.
Proof.
  induction L as [|[i ty] L IH]; intros s.
  { cbn. split; [|split; [by rewrite app_nil_r|done]].
    apply Forall_Forall2_diag, Forall_forall. intros d _. right.
    split; [|done]. apply not_elem_of_nil. }
  change (foldl (auto_off_device clock) s ((i, ty) :: L))
    with (foldl (auto_off_device clock)
                (auto_off_device clock s (i, ty)) L).
  cbv zeta.
  destruct (IH (auto_off_device clock s (i, ty))) as (Hd & Hl & Ht).
  destruct (auto_off_device_cases s i ty) as [[Hty Hstep]|[Hty Hstep]];
    rewrite Hstep in Hd, Hl, Ht; rewrite Hstep; clear Hstep.
  - unfold targets in *. by rewrite filter_cons_False.
  - unfold targets in *. rewrite filter_cons_True by done.
    rewrite !fmap_cons. cbn [devices activity_logs ticks fst] in *.
    set (s' := foldl _ _ L) in *.
    split; [|split].
    + unfold sql_update in *. rewrite Forall2_fmap_l in Hd.
      eapply Forall2_impl; [done|].
      intros d d' Hsw. cbn in Hsw.
      destruct (decide (d_id d = i)) as [Hid|Hid].
      * left. split; [rewrite Hid; left|].
        destruct Hsw as [[_ (k & Hk & ->)]|[_ ->]]; cbn.
        -- exists k. split; [lia|done].
        -- exists (ticks s). split; [lia|done].
      * destruct Hsw as [[Hin (k & Hk & ->)]|[Hnin ->]]; [left|right].
        -- split; [by right|]. exists k. split; [lia|done].
        -- split; [|done]. by intros [?|?]%elem_of_cons.
    + by rewrite Hl, <- app_assoc.
    + lia.
Qed.

Lemma auto_off_effect_mono lo hi lo' hi' d d' :
  (lo' ≤ lo)%nat → (hi ≤ hi')%nat →
  auto_off_effect clock lo hi d d' → auto_off_effect clock lo' hi' d d'.
Proof.
  intros Hlo Hhi. unfold auto_off_effect.
  destruct (decide _); [|done].
  intros (k & Hk & ->). exists k. split; [lia|done].
Qed.

Lemma Forall2_filter_rel {A} (T T' : A → A → Prop) (Q : A → Prop)
      `{!∀ x, Decision (Q x)} (l k : list A) :
  Forall2 T l k →
  (∀ x y, x ∈ l → T x y → (Q x ↔ Q y)) →
  (∀ x y, x ∈ l → Q x → T x y → T' x y) →
  Forall2 T' (filter Q l) (filter Q k).
Proof.
  intros HT. induction HT as [|x y l k Hxy _ IH]; intros HQ HT'.
  { constructor. }
  assert (Hrec : Forall2 T' (filter Q l) (filter Q k)).
  { apply IH; intros; [eapply HQ|eapply HT']; by try right. }
  rewrite !filter_cons.
  pose proof (HQ x y ltac:(left) Hxy) as Hiff.
  destruct (decide (Q x)) as [Hq|Hq], (decide (Q y)) as [Hq'|Hq'];
    try tauto.
  constructor; [|done]. apply HT'; [left|done..].
Qed.

Lemma active_devices_rows room_id s1 s :
  room_devices room_id s1 = room_devices room_id s →
  active_devices room_id s1 = active_devices room_id s.
Proof.
  intros Hrows. unfold active_devices. f_equal.
  transitivity (filter (λ d, d_is_on d = true) (room_devices room_id s1)).
  - unfold room_devices. rewrite list_filter_filter.
    apply list_filter_iff. intros d. unfold in_room. tauto.
  - rewrite Hrows. unfold room_devices. rewrite list_filter_filter.
    apply list_filter_iff. intros d. unfold in_room. tauto.
Qed.

(** One room of the loop, seen on the rows of that room. *)
Lemma auto_off_room_rows s r :
  NoDup (d_id <$> devices s) →
  let s' := auto_off_room clock s r in
  Forall2 (auto_off_effect clock (ticks s) (ticks s'))
          (room_devices (r_id r) s) (room_devices (r_id r) s')
  ∧ activity_logs s'
    = (activity_logs s
         ++ (auto_off_log <$> targets (active_devices (r_id r) s)))%list
  ∧ (ticks s ≤ ticks s')%nat.
Proof.
  intros Hnd s'. subst s'. unfold auto_off_room.
  destruct (auto_off_devices_spec (active_devices (r_id r) s) s)
    as (Hd & Hl & Ht).
  split; [|done].
  eapply Forall2_filter_rel; [done| |].
  - intros d d' _ [[_ (k & _ & ->)]|[_ ->]]; done.
  - intros d d' Hd0 Hr Hsw. unfold auto_off_effect.
    assert (d_id d ∈ targets (active_devices (r_id r) s)
            ↔ d_is_on d = true ∧ auto_controllable (d_device_type d))
      as Hiff.
    { unfold targets. rewrite list_elem_of_fmap. split.
      - intros ([i ty] & Heq & [Hc Hin]%list_elem_of_filter).
        cbn in Heq, Hc.
        apply active_devices_elem in Hin
          as (d0 & Hd0' & _ & Hon & Hid & Hty).
        assert (d0 = d) as ->.
        { apply (keyed_inj d_id (devices s)); [done..|congruence]. }
        by subst.
      - intros [Hon Hc]. exists (d_id d, d_device_type d).
        split; [done|]. apply list_elem_of_filter. split; [done|].
        unfold active_devices.
        apply (list_elem_of_fmap_2
                 (λ d, (d_id d, d_device_type d))).
        by apply list_elem_of_filter. }
    destruct (decide _) as [Hyes|Hno].
    + destruct Hsw as [[_ ?]|[Hnin _]]; [done|]. by apply Hiff in Hyes.
    + destruct Hsw as [[Hin _]|[_ ?]]; [|done]. by apply Hiff in Hin.
Qed.

Lemma auto_off_rooms_ticks RL : ∀ s,
  (ticks s ≤ ticks (foldl (auto_off_room clock) s RL))%nat.
Proof.
  induction RL as [|r RL IH]; intros s; [done|].
  change (foldl (auto_off_room clock) s (r :: RL))
    with (foldl (auto_off_room clock) (auto_off_room clock s r) RL).
  etransitivity; [|apply IH]. unfold auto_off_room.
  apply auto_off_devices_spec.
Qed.

Lemma auto_control_empty_rooms_active self s :
  auto_control_active self = true →
  auto_control_empty_rooms clock self s
  = foldl (auto_off_room clock) (tick s) (empty_rooms (tick s)).
Proof. intros Ha. unfold auto_control_empty_rooms. by rewrite Ha. Qed.

(** The empty-room rule never writes a device of a critical room. *)
Lemma auto_control_empty_rooms_critical self s r :
  primary_keys s → r ∈ rooms s → r_is_critical r = true →
  room_devices (r_id r) (auto_control_empty_rooms clock self s)
  = room_devices (r_id r) s.
Proof.
  intros [Hrk Hdk] Hr Hc. destruct (auto_control_active self) eqn:Ha; cycle 1.
  { unfold auto_control_empty_rooms. by rewrite Ha. }
  rewrite auto_control_empty_rooms_active by done.
  refine (proj1 (auto_off_rooms_frame (in_room (r_id r)) _ _ (tick s)
                   Hdk _)); [done|].
  intros r' d [[_ Hnc] Hr']%list_elem_of_filter _ Hrd Hin.
  assert (r' = r) as ->.
  { apply (keyed_inj r_id (rooms s)); [done..|].
    unfold in_room in Hin. congruence. }
  congruence.
Qed.

Lemma fan_controllable : auto_controllable "fan".
Proof. by apply (bool_decide_unpack _). Qed.

Lemma light_controllable : auto_controllable "light".
Proof. by apply (bool_decide_unpack _). Qed.

Lemma ac_not_controllable : ¬ auto_controllable "ac".
Proof. by apply (bool_decide_unpack _). Qed.

Lemma auto_off_log_other_room (ids : list Z) (new : list log_row)
      (P : device → room → Prop) :
  (∀ d r, P d r → d_id d ∉ ids) →
  Forall (λ e, ∃ d r, P d r ∧ e = auto_off_log (d_id d)) new →
  filter (λ e, is_auto_off_of ids e = true) new = [].
Proof.
  intros HP Hnew. induction Hnew as [|e new He _ IH]; [done|].
  destruct He as (d & r & Hdr & ->).
  rewrite filter_cons_False; [done|].
  unfold is_auto_off_of, auto_off_log. cbn [action log_details].
  rewrite (bool_decide_eq_false_2 (d_id d ∈ ids)) by (by eapply HP).
  by rewrite andb_false_r.
Qed.

Lemma auto_off_log_same_room (ids targets : list Z) :
  (∀ i, i ∈ targets → i ∈ ids) →
  filter (λ e, is_auto_off_of ids e = true) (auto_off_log <$> targets)
  = auto_off_log <$> targets.
Proof.
  intros Hsub. induction targets as [|i l IH]; [done|].
  rewrite fmap_cons, filter_cons_True.
  - rewrite IH; [done|]. intros. apply Hsub. by right.
  - unfold is_auto_off_of, auto_off_log. cbn [action log_details].
    rewrite !bool_decide_eq_true_2; [done| |done]. apply Hsub. left.
Qed.

(** C6: in an unoccupied, non-critical room whose devices that are on
    are exactly a fan, an AC and a light, after one pass of the
    empty-room rule the fan and the light have [is_on] false and
    [last_switched] at a reading of the clock taken during the pass, with
    every other column as before, the row of the AC is as it was (still
    on), and exactly two "Auto OFF" log rows for the devices of the room
    have been appended, one naming the fan and one naming the light. *)
Theorem C6_empty_room_auto_off self s r fan ac light :
  auto_control_active self = true →
  primary_keys s →
  r ∈ rooms s → r_occupancy r = 0 → r_is_critical r = false →
  filter (λ d, d_room_id d = r_id r ∧ d_is_on d = true) (devices s)
    ≡ₚ [fan; ac; light] →
  d_device_type fan = "fan" → d_device_type ac = "ac" →
  d_device_type light = "light" →
  let s' := auto_control_empty_rooms clock self s in
  (∃ k, (ticks s < k < ticks s')%nat
        ∧ mk_device (d_id fan) (d_room_id fan) (d_device_name fan)
                    (d_device_type fan) false (Some (clock k))
                    (d_status fan)
          ∈ devices s')
  ∧ (∃ k, (ticks s < k < ticks s')%nat
          ∧ mk_device (d_id light) (d_room_id light) (d_device_name light)
                      (d_device_type light) false (Some (clock k))
                      (d_status light)
            ∈ devices s')
  ∧ ac ∈ devices s' ∧ d_is_on ac = true
  ∧ (∀ d', d' ∈ devices s' →
           (d_id d' = d_id fan ∨ d_id d' = d_id light →
            d_is_on d' = false
            ∧ ∃ k, (ticks s < k < ticks s')%nat
                   ∧ d_last_switched d' = Some (clock k))
           ∧ (d_id d' = d_id ac → d' = ac))
  ∧ Forall2 (auto_off_effect clock (S (ticks s)) (ticks s'))
            (room_devices (r_id r) s) (room_devices (r_id r) s')
  ∧ ∃ new,
      activity_logs s' = (activity_logs s ++ new)%list
      ∧ filter (λ e, is_auto_off_of (d_id <$> room_devices (r_id r) s) e
                     = true) new
        ≡ₚ [auto_off_log (d_id fan); auto_off_log (d_id light)].
Proof.
  intros Hact [Hrk Hdk] Hr Hocc Hnc Hperm Hfan Hac Hlight s'.
  set (R := r_id r) in *.
  (* the selected rooms, split at [r] *)
  assert (Hinr : r ∈ empty_rooms (tick s))
    by (by apply list_elem_of_filter).
  apply list_elem_of_split in Hinr as (p1 & p2 & Hsplit).
  assert (Hndr : NoDup (empty_rooms (tick s))).
  { apply NoDup_filter. by eapply NoDup_fmap_1. }
  rewrite Hsplit in Hndr.
  apply NoDup_app in Hndr as (_ & Hp1 & [Hp2 _]%NoDup_cons).
  assert (Hother : ∀ r', r' ∈ p1 ∨ r' ∈ p2 → r_id r' ≠ R).
  { intros r' Hr' Hid.
    assert (r' ∈ empty_rooms (tick s)) as [_ Hin]%list_elem_of_filter.
    { rewrite Hsplit, elem_of_app, elem_of_cons. tauto. }
    assert (r' = r) as -> by (by apply (keyed_inj r_id (rooms s))).
    destruct Hr' as [Hr'|Hr']; [|done]. eapply Hp1; [done|left]. }
  assert (Hframe : ∀ RL s0,
             (∀ r', r' ∈ RL → r' ∈ p1 ∨ r' ∈ p2) →
             key <$> devices s0 = key <$> devices s →
             let s1 := foldl (auto_off_room clock) s0 RL in
             room_devices R s1 = room_devices R s0
             ∧ key <$> devices s1 = key <$> devices s
             ∧ ∃ new,
                 activity_logs s1 = (activity_logs s0 ++ new)%list
                 ∧ filter (λ e, is_auto_off_of
                                  (d_id <$> room_devices R s) e = true)
                          new = []).
  { intros RL s0 HRL HK0.
    destruct (auto_off_rooms_frame (in_room R) ltac:(done) RL s0)
      as (HQ & HK & _ & _ & new & Hl & Hnew).
    { by rewrite ids_of_keys, HK0, <- ids_of_keys. }
    { intros r' d Hr' _ Hrd Hin. unfold in_room in Hin.
      apply (Hother r'); [by apply HRL|congruence]. }
    cbv zeta. split; [done|]. split; [by rewrite HK|].
    exists new. split; [done|].
    eapply (auto_off_log_other_room _ _
              (λ d r', key d ∈ key <$> devices s0 ∧ r' ∈ RL
                       ∧ d_room_id d = r_id r')).
    2:{ eapply Forall_impl; [done|]. intros e (d & r' & ? & ? & ? & ->).
        by exists d, r'. }
    intros d r' (Hkd & Hr' & Hrd)
           (d2 & Hid & [Hin2 Hd2]%list_elem_of_filter)%list_elem_of_fmap.
    assert (key d = key d2) as Hk.
    { apply (key_unique (key <$> devices s));
        [by rewrite <- ids_of_keys|by rewrite <- HK0|by apply key_elem
        |done]. }
    apply (Hother r'); [by apply HRL|].
    unfold in_room, key in *. congruence. }
  subst s'. rewrite auto_control_empty_rooms_active by done.
  rewrite Hsplit, foldl_app.
  change (foldl ?f ?x (?t :: ?l)) with (foldl f (f x t) l).
  destruct (Hframe p1 (tick s)) as (Hrows1 & HK1 & new1 & Hl1 & Hnew1);
    [tauto|done|].
  set (s1 := foldl (auto_off_room clock) (tick s) p1) in *.
  change (room_devices R (tick s)) with (room_devices R s) in Hrows1.
  change (activity_logs (tick s)) with (activity_logs s) in Hl1.
  pose proof (auto_off_rooms_ticks p1 (tick s)) as Ht1.
  fold s1 in Ht1. change (ticks (tick s)) with (S (ticks s)) in Ht1.
  destruct (auto_off_room_rows s1 r) as (Heff & Hl2 & _).
  { by rewrite ids_of_keys, HK1, <- ids_of_keys. }
  fold R in Heff, Hl2.
  rewrite (active_devices_rows R s1 s) in Hl2 by done.
  set (s2 := auto_off_room clock s1 r) in *.
  destruct (Hframe p2 s2) as (Hrows3 & HK3 & new3 & Hl3 & Hnew3); [tauto| |].
  { assert (Hk2 : (key <$> room_devices R s2) = (key <$> room_devices R s1)).
    { clear -Heff. induction Heff as [|d d' l k Hd _ IH]; [done|].
      rewrite !fmap_cons, IH. f_equal. unfold auto_off_effect in Hd.
      destruct (decide _); [by destruct Hd as (? & ? & ->)|by subst]. }
    unfold s2, auto_off_room.
    destruct (auto_off_devices_frame (λ _, False) ltac:(done)
                (active_devices (r_id r) s1) s1) as (_ & HK & _);
      [|by rewrite HK]. tauto. }
  pose proof (auto_off_rooms_ticks p2 s2) as Ht3.
  set (s3 := foldl (auto_off_room clock) s2 p2) in *.
  rewrite Hrows1 in Heff. rewrite <- Hrows3 in Heff.
  apply (Forall2_impl _ (auto_off_effect clock (S (ticks s)) (ticks s3)))
    in Heff; [|intros d d'; by apply auto_off_effect_mono].
  (* the three devices *)
  assert (Hmem : ∀ d, d ∈ [fan; ac; light] →
                      d ∈ room_devices R s ∧ d_is_on d = true).
  { intros d Hd. rewrite <- Hperm in Hd.
    apply list_elem_of_filter in Hd as [[? ?] ?].
    split; [by apply list_elem_of_filter|done]. }
  assert (Hafter : ∀ d, d ∈ room_devices R s →
                        ∃ d', d' ∈ devices s3
                              ∧ auto_off_effect clock (S (ticks s))
                                                (ticks s3) d d').
  { intros d (i & Hi)%list_elem_of_lookup_1.
    destruct (Forall2_lookup_l _ _ _ _ _ Heff Hi) as (d' & Hi' & Hd').
    exists d'. split; [|done].
    apply list_elem_of_lookup_2 in Hi'.
    by apply list_elem_of_filter in Hi' as [_ ?]. }
  assert (Hnd3 : NoDup (d_id <$> devices s3)).
  { by rewrite ids_of_keys, HK3, <- ids_of_keys. }
  assert (Hfan3 : ∃ k, (ticks s < k < ticks s3)%nat
                       ∧ mk_device (d_id fan) (d_room_id fan)
                                   (d_device_name fan) (d_device_type fan)
                                   false (Some (clock k)) (d_status fan)
                         ∈ devices s3).
  { destruct (Hmem fan) as [Hin Hon]; [by repeat constructor|].
    destruct (Hafter fan Hin) as (d' & Hd' & Heff').
    unfold auto_off_effect in Heff'. rewrite decide_True in Heff'.
    + destruct Heff' as (k & Hk & ->). exists k. split; [lia|done].
    + rewrite Hfan. split; [done|apply fan_controllable]. }
  assert (Hlight3 : ∃ k, (ticks s < k < ticks s3)%nat
                         ∧ mk_device (d_id light) (d_room_id light)
                                     (d_device_name light)
                                     (d_device_type light) false
                                     (Some (clock k)) (d_status light)
                           ∈ devices s3).
  { destruct (Hmem light) as [Hin Hon]; [by repeat constructor|].
    destruct (Hafter light Hin) as (d' & Hd' & Heff').
    unfold auto_off_effect in Heff'. rewrite decide_True in Heff'.
    + destruct Heff' as (k & Hk & ->). exists k. split; [lia|done].
    + rewrite Hlight. split; [done|apply light_controllable]. }
  assert (Hac3 : ac ∈ devices s3).
  { destruct (Hmem ac) as [Hin Hon]; [by repeat constructor|].
    destruct (Hafter ac Hin) as (d' & Hd' & Heff').
    unfold auto_off_effect in Heff'. rewrite decide_False in Heff'.
    + by subst.
    + rewrite Hac. intros [_ ?]. by apply ac_not_controllable. }
  split; [done|]. split; [done|]. split; [done|].
  split; [apply Hmem; by repeat constructor|].
  split; [|split; [done|]].
  - intros d' Hd'. split.
    + intros [Hid|Hid].
      * destruct Hfan3 as (k & Hb & Hk).
        rewrite (keyed_inj d_id (devices s3) _ _ Hnd3 Hd' Hk Hid).
        split; [done|by exists k].
      * destruct Hlight3 as (k & Hb & Hk).
        rewrite (keyed_inj d_id (devices s3) _ _ Hnd3 Hd' Hk Hid).
        split; [done|by exists k].
    + intros Hid. by apply (keyed_inj d_id (devices s3)).
  - exists (new1 ++ (auto_off_log <$> targets (active_devices R s))
                 ++ new3)%list.
    split.
    + by rewrite Hl3, Hl2, Hl1, <- !app_assoc.
    + rewrite !filter_app, Hnew1, Hnew3, app_nil_r. cbn [app].
      rewrite auto_off_log_same_room.
      * unfold targets, active_devices. rewrite Hperm. cbn [fmap list_fmap].
        rewrite Hfan, Hac, Hlight. done.
      * intros i ([i' ty] & -> & [_ Hin]%list_elem_of_filter)%list_elem_of_fmap.
        apply active_devices_elem in Hin as (d & Hd & Hrd & _ & -> & _).
        cbn. apply list_elem_of_fmap_2. by apply list_elem_of_filter.
Qed.

End AutoOff.

(** ** Critical rooms *)

Section Critical.
Context (clock : nat → Z) (text_matches : Z → string → bool).

(** An emergency shutdown never writes a device of a critical room. *)
Lemma emergency_shutdown_critical b f s r :
  NoDup (r_id <$> rooms s) → r ∈ rooms s → r_is_critical r = true →
  room_devices (r_id r) (emergency_shutdown clock text_matches b f s)
  = room_devices (r_id r) s.
Proof.
  intros Hrk Hr Hc. unfold room_devices.
  rewrite emergency_shutdown_devices.
  apply sql_update_frame; [done|].
  intros d _ (r' & Hr' & Hid & Hs)%shutdown_rooms_elem Hin.
  assert (r' = r) as ->.
  { apply (keyed_inj r_id (rooms s)); [done..|].
    unfold in_room in Hin. congruence. }
  unfold shutdown_scope in Hs. by rewrite Hc in Hs.
Qed.

(** C1, as the code has it: no pass of the empty-room rule and no
    emergency shutdown (the command has no force option) changes any row
    of a device of a critical room; the rotation pass does not look at
    the critical flag, and what it leaves alone, in every room, are the
    devices that are not ACs. *)
Theorem C1_critical_room_protection self b f s r :
  primary_keys s → r ∈ rooms s → r_is_critical r = true →
  room_devices (r_id r) (auto_control_empty_rooms clock self s)
  = room_devices (r_id r) s
  ∧ room_devices (r_id r) (emergency_shutdown clock text_matches b f s)
    = room_devices (r_id r) s
  ∧ filter (λ d, d_device_type d ≠ "ac")
           (devices (ac_rotation_system clock self s))
    = filter (λ d, d_device_type d ≠ "ac") (devices s).
Proof.
  intros Hpk Hr Hc. split; [|split].
  - by apply auto_control_empty_rooms_critical.
  - apply emergency_shutdown_critical; [apply Hpk|done..].
  - apply ac_rotation_system_non_ac, Hpk.
Qed.

End Critical.

(** ** The rules on the example facility *)

Import Facility.

(** C1 fails as stated: the server room is critical, its AC is on and
    overdue, and one rotation pass switches that AC off and the spare of
    the same room on. *)
Lemma C1_rotation_swaps_in_critical_room :
  let s' := ac_rotation_system nine_hours_on DeviceController facility in
  r_is_critical server_room = true
  ∧ devices facility !! 4%nat = Some server_ac
  ∧ d_room_id server_ac = r_id server_room
  ∧ d_is_on server_ac = true
  ∧ (d_is_on <$> devices s' !! 4%nat) = Some false
  ∧ (d_is_on <$> devices facility !! 5%nat) = Some false
  ∧ (d_is_on <$> devices s' !! 5%nat) = Some true.
Proof. vm_compute. done. Qed.

Lemma C1_critical_room_protection_witness :
  room_devices 2 (auto_control_empty_rooms nine_hours_on DeviceController
                                           facility)
  = room_devices 2 facility
  ∧ room_devices 2 (emergency_shutdown nine_hours_on no_text_match
                                       PyNone PyNone facility)
    = room_devices 2 facility
  ∧ filter (λ d, d_device_type d ≠ "ac")
           (devices (ac_rotation_system nine_hours_on DeviceController
                                        facility))
    = filter (λ d, d_device_type d ≠ "ac") (devices facility).
Proof.
  apply (C1_critical_room_protection nine_hours_on no_text_match
           DeviceController PyNone PyNone facility server_room).
  - by_evaluation.
  - by_evaluation.
  - reflexivity.
Defined.

(** C2 fails as stated, twice.  An AC switched exactly eight hours ago,
    with a spare in its room, is not rotated: the pass changes no device
    and logs nothing.  And of two overdue ACs that share one spare, the
    first is switched off and then on again as the replacement of the
    second, so it ends the pass on, with two "AC Rotation" rows for the
    room. *)
Lemma C2_rotation_counterexample :
  let sharp := ac_rotation_system eight_hours_sharp DeviceController
                                  facility in
  let twice := ac_rotation_system nine_hours_on DeviceController
                                  two_overdue in
  (d_is_on lobby_ac = true
   ∧ d_last_switched lobby_ac = Some (eight_hours_sharp 0 - timedelta_hours 8)
   ∧ eligible (d_room_id lobby_ac) lobby_spare
   ∧ lobby_ac ∈ devices facility ∧ lobby_spare ∈ devices facility
   ∧ devices sharp = devices facility
   ∧ activity_logs sharp = [])
  ∧ (devices two_overdue !! 0%nat = Some hall_ac_a
     ∧ overdue (nine_hours_on 0 - timedelta_hours 8) hall_ac_a
     ∧ eligible (d_room_id hall_ac_a) hall_ac_c
     ∧ hall_ac_c ∈ devices two_overdue
     ∧ (d_is_on <$> devices twice !! 0%nat) = Some true
     ∧ activity_logs twice = [rotation_log 1 10 12; rotation_log 1 11 10]).
Proof.
  cbv zeta. repeat split; try by_evaluation; by vm_compute.
Qed.

Lemma C2_single_overdue_rotation_witness :
  let s' := ac_rotation_system nine_hours_on DeviceController facility in
  ∃ y now,
    first_by_last_switched (filter (eligible 1) (devices facility)) = Some y
    ∧ y ∈ devices facility ∧ eligible 1 y
    ∧ (∀ d, d ∈ devices facility → eligible 1 d →
            ts_le (d_last_switched y) (d_last_switched d) = true)
    ∧ (∃ k, (0 < k < ticks s')%nat ∧ now = nine_hours_on k)
    ∧ mk_device 2 1 "AC 1" "ac" false (Some now) "active" ∈ devices s'
    ∧ mk_device (d_id y) (d_room_id y) (d_device_name y) (d_device_type y)
                true (Some now) (d_status y) ∈ devices s'
    ∧ (∀ d', d' ∈ devices s' →
             (d_id d' = 2 →
              d_is_on d' = false ∧ d_last_switched d' = Some now)
             ∧ (d_id d' = d_id y →
                d_is_on d' = true ∧ d_last_switched d' = Some now))
    ∧ room_devices 1 s' = swapped 2 (d_id y) now <$> room_devices 1 facility
    ∧ (∀ i d d',
          room_devices 1 facility !! i = Some d →
          room_devices 1 s' !! i = Some d' →
          d_is_on d = false → d_is_on d' = true → d = y)
    ∧ ∃ new,
        activity_logs s' = (activity_logs facility ++ new)%list
        ∧ filter (λ e, is_rotation_for 1 e = true) new
          = [rotation_log 1 2 (d_id y)].
Proof.
  apply (C2_single_overdue_rotation nine_hours_on DeviceController facility
           lobby_ac).
  - reflexivity.
  - by_evaluation.
  - by_evaluation.
  - by_evaluation.
  - apply (proj1 (Forall_forall
                    (λ d, overdue (nine_hours_on 0 - timedelta_hours 8) d →
                          d_room_id d = 1 → d = lobby_ac)
                    (devices facility))).
    by_evaluation.
  - by vm_compute.
Defined.

(** C3 fails as stated: the AC of the office is on and overdue and the
    office has no replacement; after the rotation pass the AC is still on
    but no alert at all has been written. *)
Lemma C3_no_alert_without_spare :
  let s' := ac_rotation_system nine_hours_on DeviceController facility in
  office_ac ∈ devices facility
  ∧ overdue (nine_hours_on 0 - timedelta_hours 8) office_ac
  ∧ filter (eligible (d_room_id office_ac)) (devices facility) = []
  ∧ office_ac ∈ devices s'
  ∧ ¬ ∃ alert, alert ∈ system_alerts s' ∧ warns_about (d_id office_ac) alert.
Proof.
  cbv zeta. repeat split; try by_evaluation; try by vm_compute.
  intros (alert & Hin & _). vm_compute in Hin. by inversion Hin.
Qed.

Lemma C3_no_spare_keeps_ac_on_witness :
  let s' := ac_rotation_system nine_hours_on DeviceController facility in
  room_devices 3 s' = room_devices 3 facility
  ∧ office_ac ∈ devices s'
  ∧ d_is_on office_ac = true
  ∧ system_alerts s' = system_alerts facility.
Proof.
  apply (C3_no_spare_keeps_ac_on nine_hours_on DeviceController facility
           office_ac).
  - by_evaluation.
  - by_evaluation.
  - by_evaluation.
  - by vm_compute.
Defined.

Lemma C4_toggle_rejections_witness :
  toggle_device toggle_unavailable 99 1 false facility
  = (Returns (false, "Device not found"), facility)
  ∧ toggle_device toggle_unavailable 5 1 false facility
    = (Returns (false, "Critical room - Admin permission required"),
       facility).
Proof.
  split.
  - apply (C4_toggle_rejections toggle_unavailable 99 1 false facility).
    + by_evaluation.
    + apply (proj1 (Forall_forall (λ d, d_id d ≠ 99) (devices facility))).
      by_evaluation.
  - apply (proj2 (C4_toggle_rejections toggle_unavailable 5 1 false facility
                    ltac:(by_evaluation))
             server_ac server_room); try reflexivity; by_evaluation.
Defined.

(** Outside the range of the store the toggle does not answer: with the
    identifier 2^63, which names no device, it raises. *)
Lemma toggle_device_overflow :
  toggle_device toggle_unavailable (2 ^ 63) 1 false facility
  = (Raises OverflowError, facility).
Proof. reflexivity. Qed.

(** C5, on the code: the lobby is unoccupied and not critical, its fan is
    on, and one pass switches the fan off whatever the clock reads, hence
    however recently the room was vacated; the fifteen-minute threshold
    is computed and never compared with anything. *)
Lemma C5_auto_off_ignores_dwell_time (clock : nat → Z) :
  r_occupancy lobby = 0
  ∧ r_is_critical lobby = false
  ∧ devices facility !! 0%nat = Some lobby_fan
  ∧ d_room_id lobby_fan = r_id lobby
  ∧ d_is_on lobby_fan = true
  ∧ devices (auto_control_empty_rooms clock DeviceController facility)
      !! 0%nat
    = Some (switch false (clock 1%nat) lobby_fan).
Proof. repeat split. Qed.

Lemma C6_empty_room_auto_off_witness :
  let s' := auto_control_empty_rooms nine_hours_on DeviceController
                                     facility in
  (∃ k, (0 < k < 3)%nat
        ∧ mk_device 1 1 "Fan 1" "fan" false (Some (nine_hours_on k))
                    "active"
          ∈ devices s')
  ∧ (∃ k, (0 < k < 3)%nat
          ∧ mk_device 3 1 "Light 1" "light" false (Some (nine_hours_on k))
                      "active"
            ∈ devices s')
  ∧ lobby_ac ∈ devices s' ∧ d_is_on lobby_ac = true
  ∧ (∀ d', d' ∈ devices s' →
           (d_id d' = 1 ∨ d_id d' = 3 →
            d_is_on d' = false
            ∧ ∃ k, (0 < k < 3)%nat
                   ∧ d_last_switched d' = Some (nine_hours_on k))
           ∧ (d_id d' = 2 → d' = lobby_ac))
  ∧ Forall2 (auto_off_effect nine_hours_on 1 3) (room_devices 1 facility)
            (room_devices 1 s')
  ∧ ∃ new,
      activity_logs s' = (activity_logs facility ++ new)%list
      ∧ filter (λ e, is_auto_off_of (d_id <$> room_devices 1 facility) e
                     = true) new
        ≡ₚ [auto_off_log 1; auto_off_log 3].
Proof.
  apply (C6_empty_room_auto_off nine_hours_on DeviceController facility
           lobby lobby_fan lobby_ac lobby_light); try reflexivity.
  - by_evaluation.
  - by_evaluation.
Defined.

Lemma C7_building_shutdown_witness :
  let s' := emergency_shutdown nine_hours_on no_text_match (PyInt 1) PyNone
                               facility in
  emergency_shutdown_result (PyInt 1) PyNone = Returns ()
  ∧ devices s' !! 0%nat
    = Some (mk_device 1 1 "Fan 1" "fan" false (Some (nine_hours_on 0))
                      "active")
  ∧ devices s' !! 4%nat = Some server_ac
  ∧ devices s' !! 7%nat = Some office_fan
  ∧ activity_logs s'
    = [mk_log 1 "Emergency Shutdown" (ShutdownScope (PyInt 1) PyNone)].
Proof.
  destruct (C7_building_shutdown nine_hours_on no_text_match (PyInt 1)
              facility eq_refl eq_refl ltac:(by_evaluation))
    as (Hres & Hroom & _ & _ & Hlog & _).
  split; [exact Hres|].
  split; [|split; [|split; [|exact Hlog]]].
  - destruct (proj1 (Hroom 0%nat lobby_fan lobby eq_refl
                       ltac:(by_evaluation) eq_refl) eq_refl eq_refl)
      as (d' & Hd' & _ & _ & ->).
    exact Hd'.
  - exact (proj1 (proj2 (Hroom 4%nat server_ac server_room eq_refl
                           ltac:(by_evaluation) eq_refl)) eq_refl).
  - exact (proj2 (proj2 (Hroom 7%nat office_fan office eq_refl
                           ltac:(by_evaluation) eq_refl)) eq_refl).
Defined.

(** A building identifier outside the 64-bit range: the shutdown raises,
    no device is switched off and no log row is written. *)
Lemma emergency_shutdown_overflow :
  emergency_shutdown_result (PyInt (2 ^ 63)) PyNone = Raises OverflowError
  ∧ emergency_shutdown nine_hours_on no_text_match (PyInt (2 ^ 63)) PyNone
                       facility
    = tick facility.
Proof. split; reflexivity. Qed.

Lemma C10_falsy_scope_is_no_scope_witness :
  devices (emergency_shutdown nine_hours_on no_text_match PyNone (PyInt 0)
                              facility) !! 7%nat
  = Some (mk_device 8 3 "Fan 1" "fan" false (Some (nine_hours_on 0)) "active")
  ∧ r_floor office = 1.
Proof.
  split; [|reflexivity].
  exact (proj2 (proj2 (proj2 (proj2 (proj2
           (C10_falsy_scope_is_no_scope nine_hours_on no_text_match)))))
           facility 7%nat office_fan office eq_refl ltac:(by_evaluation)
           eq_refl eq_refl).
Defined.

(** * Further properties of control.py *)

(** ** Resolving a device, the toggle command *)

Lemma get_room_by_device_row device_id s rs :
  get_room_by_device device_id s = Returns (Some rs) →
  ∃ d, d ∈ devices s ∧ rs_room rs ∈ rooms s
       ∧ r_id (rs_room rs) = d_room_id d ∧ d_id d = device_id
       ∧ rs_device_name rs = d_device_name d
       ∧ rs_device_type rs = d_device_type d.
Proof.
  unfold get_room_by_device. destruct (decide (sqlite_int device_id)); [|done].
  intros [= Hh%head_Some_elem_of].
  apply list_elem_of_bind in Hh as (r & Hh & Hr).
  apply list_elem_of_bind in Hh as (d & Hh & Hd).
  destruct (decide _) as [[? ?]|]; [|by inversion Hh].
  apply list_elem_of_singleton in Hh as ->. by exists d.
Qed.

Lemma get_room_by_device_resolves s d r :
  primary_keys s →
  d ∈ devices s → r ∈ rooms s → r_id r = d_room_id d →
  get_room_by_device (d_id d) s
  = if decide (sqlite_int (d_id d))
    then Returns (Some (mk_room_status r (d_device_name d)
                                       (d_device_type d)))
    else Raises OverflowError.
Proof.
  intros [Hrk Hdk] Hd Hr Hrd.
  destruct (decide (sqlite_int (d_id d))) as [Hrange|Hout]; cycle 1.
  { unfold get_room_by_device. by rewrite decide_False. }
  destruct (get_room_by_device_found (d_id d) s d r) as [rs Hg]; [done..|].
  rewrite Hg. do 2 f_equal.
  apply get_room_by_device_row in Hg
    as (d' & Hd' & Hr' & Hrd' & Hid' & Hnm & Hty).
  assert (d' = d) as -> by (by apply (keyed_inj d_id (devices s))).
  assert (rs_room rs = r) as Hrs.
  { apply (keyed_inj r_id (rooms s)); [done..|congruence]. }
  destruct rs as [r0 nm ty]. cbn in *. by subst.
Qed.

(** X9: when [id] is the primary key of both tables, [get_room_by_device]
    returns, for a device whose room exists, exactly that room with the
    name and the kind of the device (the identifier of a stored device
    lies within the 64-bit range; for one outside it the query could not
    be bound). *)
Theorem get_room_by_device_finds s d r :
  primary_keys s →
  d ∈ devices s → r ∈ rooms s → r_id r = d_room_id d →
  get_room_by_device (d_id d) s
  = if decide (- 2 ^ 63 ≤ d_id d < 2 ^ 63)
    then Returns (Some (mk_room_status r (d_device_name d)
                                       (d_device_type d)))
    else Raises OverflowError.
Proof. apply get_room_by_device_resolves. Qed.

Section ToggleMore.
Context (db_toggle_device : Z → Z → db → outcome (option bool) * db).

(** X10: for an identifier within the signed 64-bit range, a device whose
    [room_id] names no room is reported as "Device not found" although its
    row exists, with or without [force], and nothing is written. *)
Theorem toggle_device_without_room device_id user force s :
  - 2 ^ 63 ≤ device_id < 2 ^ 63 →
  (∀ d r, d ∈ devices s → r ∈ rooms s → d_id d = device_id →
          r_id r ≠ d_room_id d) →
  get_room_by_device device_id s = Returns None
  ∧ toggle_device db_toggle_device device_id user force s
    = (Returns (false, "Device not found"), s).
Proof.
  intros Hrange Hno.
  assert (Hnone : get_room_by_device device_id s = Returns None).
  { destruct (get_room_by_device device_id s) as [[rs|]|e] eqn:Hg.
    - apply get_room_by_device_elem in Hg as (d & Hd & Hr & Hrd & Hid).
      by destruct (Hno d (rs_room rs)).
    - done.
    - unfold get_room_by_device in Hg. by rewrite decide_True in Hg. }
  split; [done|]. unfold toggle_device. by rewrite Hnone.
Qed.

(** X11: for a device whose room exists, when the room is not critical or
    [force] is given, [toggle_device] hands over to
    [SenseDB.toggle_device] and answers "Device ON", "Device OFF" or
    "Failed to toggle device" by what that returns, or raises what that
    raises.  In a VIP room exactly one "VIP Access" row with the caller's
    identity is written first, and it is written even when the toggle then
    fails; in any other room nothing is written before the hand-over.
    This is for identifiers within the signed 64-bit range: when the
    caller's identity lies outside it, the toggle in a VIP room raises
    before the hand-over, with nothing written. *)
Theorem toggle_device_proceeds user force s d r :
  primary_keys s →
  d ∈ devices s → r ∈ rooms s → r_id r = d_room_id d →
  r_is_critical r = false ∨ force = true →
  - 2 ^ 63 ≤ d_id d < 2 ^ 63 →
  let logged :=
    if r_is_vip r
    then insert_log
           (mk_log user "VIP Access" (VipRoomDeviceControl (d_id d))) s
    else s in
  let res := db_toggle_device (d_id d) user logged in
  (r_is_vip r = false ∨ - 2 ^ 63 ≤ user < 2 ^ 63 →
   toggle_device db_toggle_device (d_id d) user force s
   = (toggle_answer res.1, res.2))
  ∧ (r_is_vip r = true → ¬ (- 2 ^ 63 ≤ user < 2 ^ 63) →
     toggle_device db_toggle_device (d_id d) user force s
     = (Raises OverflowError, s))
  ∧ activity_logs logged
    = (activity_logs s
         ++ (if r_is_vip r
             then [mk_log user "VIP Access" (VipRoomDeviceControl (d_id d))]
             else []))%list
  ∧ devices logged = devices s.
Proof.
  intros Hpk Hd Hr Hrd Hgo Hrange. cbv zeta.
  assert (Hstart : ∀ rest,
             toggle_device db_toggle_device (d_id d) user force s
             = rest →
             (let '(logged, s1) :=
                if r_is_vip r then log_vip_access user (d_id d) s
                else (Returns (), s) in
              match logged with
              | Raises e => (Raises e, s1)
              | Returns _ =>
                  let '(new_state, s2) :=
                    db_toggle_device (d_id d) user s1 in
                  match new_state with
                  | Raises e => (Raises e, s2)
                  | Returns (Some b) =>
                      (Returns (true, "Device " +:+ (if b then "ON"
                                                     else "OFF")), s2)
                  | Returns None =>
                      (Returns (false, "Failed to toggle device"), s2)
                  end
              end) = rest).
  { intros rest <-. unfold toggle_device.
    rewrite (get_room_by_device_resolves s d r) by done.
    rewrite decide_True by done. cbn.
    assert (r_is_critical r && negb force = false) as ->.
    { destruct Hgo as [->| ->]; [done|by rewrite andb_false_r]. }
    done. }
  split; [|split; [|split]].
  - intros Hok. erewrite <- (Hstart _ eq_refl).
    unfold log_vip_access.
    destruct (r_is_vip r) eqn:Hvip.
    + rewrite decide_True by (by destruct Hok).
      destruct (db_toggle_device _ _ _) as [[[[|]|]|e] s2]; done.
    + destruct (db_toggle_device _ _ _) as [[[[|]|]|e] s2]; done.
  - intros Hvip Hout. erewrite <- (Hstart _ eq_refl).
    unfold log_vip_access. rewrite Hvip. by rewrite decide_False.
  - destruct (r_is_vip r); cbn; [done|by rewrite app_nil_r].
  - by destruct (r_is_vip r).
Qed.

End ToggleMore.

(** ** The empty-room pass as a whole *)

Section AutoOffMore.
Context (clock : nat → Z).

Lemma auto_off_room_elsewhere s r :
  NoDup (d_id <$> devices s) →
  let s1 := auto_off_room clock s r in
  (∀ R, R ≠ r_id r → room_devices R s1 = room_devices R s)
  ∧ key <$> devices s1 = key <$> devices s
  ∧ rooms s1 = rooms s
  ∧ system_alerts s1 = system_alerts s.
Proof.
  intros Hnd. cbv zeta. unfold auto_off_room. split.
  - intros R HR.
    refine (proj1 (auto_off_devices_frame clock (in_room R) _ _ s _));
      [done|].
    intros i ty (d0 & Hd0 & Hrd0 & _ & -> & _)%active_devices_elem d Hd Hid Hin.
    assert (key d = key d0) as Hk.
    { apply (key_unique (key <$> devices s));
        [by rewrite <- ids_of_keys|done|by apply key_elem|done]. }
    unfold key, in_room in *. congruence.
  - destruct (auto_off_devices_frame clock (λ _, False) ltac:(done)
                (active_devices (r_id r) s) s) as (_ & HK & Hr & Ha & _);
      [tauto|done].
Qed.

Lemma auto_off_rooms_spec RL : ∀ s,
  NoDup (d_id <$> devices s) →
  NoDup (r_id <$> RL) →
  let s' := foldl (auto_off_room clock) s RL in
  (∀ r, r ∈ RL →
        Forall2 (auto_off_effect clock (ticks s) (ticks s'))
                (room_devices (r_id r) s) (room_devices (r_id r) s'))
  ∧ (∀ R, R ∉ r_id <$> RL → room_devices R s' = room_devices R s)
  ∧ activity_logs s'
    = (activity_logs s
         ++ (RL ≫= λ r, auto_off_log
                          <$> targets (active_devices (r_id r) s)))%list
  ∧ key <$> devices s' = key <$> devices s
  ∧ rooms s' = rooms s
  ∧ system_alerts s' = system_alerts s.
Proof.
  induction RL as [|r RL IH]; intros s Hnd Hrk.
  { cbn. repeat split; [by intros r ?%elem_of_nil|by rewrite app_nil_r]. }
  change (foldl (auto_off_room clock) s (r :: RL))
    with (foldl (auto_off_room clock) (auto_off_room clock s r) RL).
  cbv zeta. rewrite fmap_cons in Hrk. apply NoDup_cons in Hrk as [Hr Hrk].
  destruct (auto_off_room_rows clock s r Hnd) as (Heff1 & Hl1 & Ht1).
  destruct (auto_off_room_elsewhere s r Hnd) as (Hoth & HK1 & Hr1 & Ha1).
  set (s1 := auto_off_room clock s r) in *.
  pose proof (auto_off_rooms_ticks clock RL s1) as Ht.
  destruct (IH s1) as (Heff & Hfr & Hl & HK & Hrooms & Hal); [|done|].
  { by rewrite ids_of_keys, HK1, <- ids_of_keys. }
  assert (Hne : ∀ r0, r0 ∈ RL → r_id r0 ≠ r_id r).
  { intros r0 Hr0 Heq. apply Hr. rewrite <- Heq.
    by apply list_elem_of_fmap_2. }
  split; [|split; [|split; [|split; [|split]]]].
  - intros r0 [->|Hr0]%elem_of_cons.
    + rewrite Hfr by done. eapply Forall2_impl; [exact Heff1|].
      intros d d'. by apply auto_off_effect_mono.
    + rewrite <- (Hoth (r_id r0)) by (by apply Hne).
      eapply Forall2_impl; [by apply Heff|].
      intros d d'. by apply auto_off_effect_mono.
  - intros R HR. apply not_elem_of_cons in HR as [HR1 HR2].
    by rewrite Hfr, Hoth.
  - rewrite Hl, Hl1, bind_cons, <- app_assoc. do 2 f_equal.
    apply Forall_bind_ext, Forall_forall. intros r0 Hr0.
    rewrite (active_devices_rows (r_id r0) s1 s); [done|].
    apply Hoth. by apply Hne.
  - by rewrite HK.
  - by rewrite Hrooms.
  - by rewrite Hal.
Qed.

Lemma targets_active_devices R s :
  targets (active_devices R s)
  = d_id <$> filter (auto_off_target R) (devices s).
Proof.
  unfold targets, active_devices. generalize (devices s). intros l.
  induction l as [|d l IH]; [done|].
  rewrite !filter_cons.
  destruct (decide (d_room_id d = R ∧ d_is_on d = true)) as [Hin|Hout];
    destruct (decide (auto_off_target R d)) as [Ht|Ht].
  - rewrite fmap_cons, filter_cons. cbn [snd].
    rewrite decide_True by apply Ht. rewrite !fmap_cons. cbn. by rewrite IH.
  - rewrite fmap_cons, filter_cons. cbn [snd].
    rewrite decide_False; [done|]. intros Hc. apply Ht.
    destruct Hin. by repeat split.
  - destruct Hout. destruct Ht as (? & ? & ?). by split.
  - done.
Qed.

Lemma auto_off_pass_rows self s :
  auto_control_active self = true →
  primary_keys s →
  let s' := auto_control_empty_rooms clock self s in
  (∀ r, r ∈ rooms s → r_occupancy r = 0 → r_is_critical r = false →
        Forall2 (auto_off_effect clock (S (ticks s)) (ticks s'))
                (room_devices (r_id r) s) (room_devices (r_id r) s'))
  ∧ (∀ R, (∀ r, r ∈ rooms s → r_id r = R →
                r_occupancy r ≠ 0 ∨ r_is_critical r = true) →
          room_devices R s' = room_devices R s)
  ∧ rooms s' = rooms s
  ∧ system_alerts s' = system_alerts s.
Proof.
  intros Hact [Hrk Hdk]. cbv zeta.
  rewrite auto_control_empty_rooms_active by done.
  destruct (auto_off_rooms_spec (empty_rooms (tick s)) (tick s))
    as (Heff & Hfr & _ & _ & Hrooms & Hal); [done| |].
  { apply (sublist_NoDup _ (r_id <$> rooms s)); [done|].
    apply fmap_sublist. unfold empty_rooms. apply sublist_filter. }
  split; [|split; [|by split]].
  - intros r Hr Hocc Hc. apply Heff. by apply list_elem_of_filter.
  - intros R HR. apply Hfr.
    intros (r & Heq & [[Hocc Hc] Hr]%list_elem_of_filter)%list_elem_of_fmap.
    destruct (HR r Hr (eq_sym Heq)); congruence.
Qed.

(** X12: one pass of the empty-room rule, room by room.  In every room
    that is unoccupied and not critical each device that is on and is a
    light, fan or projector has [is_on] false afterwards and
    [last_switched] at a reading of the clock taken during the pass, with
    its other columns as before, and every other device of the room keeps
    its row; the
    devices of every other room identifier (occupied rooms, critical
    rooms, identifiers of no room) keep their rows; the rooms and the
    alerts are not written. *)
Theorem auto_off_pass_effect self s :
  auto_control_active self = true →
  primary_keys s →
  let s' := auto_control_empty_rooms clock self s in
  (∀ r, r ∈ rooms s → r_occupancy r = 0 → r_is_critical r = false →
        Forall2 (auto_off_effect clock (S (ticks s)) (ticks s'))
                (room_devices (r_id r) s) (room_devices (r_id r) s'))
  ∧ (∀ r i d,
        r ∈ rooms s → r_occupancy r = 0 → r_is_critical r = false →
        room_devices (r_id r) s !! i = Some d →
        ∃ d', room_devices (r_id r) s' !! i = Some d'
              ∧ d_id d' = d_id d ∧ d_room_id d' = d_room_id d
              ∧ d_device_name d' = d_device_name d
              ∧ d_device_type d' = d_device_type d
              ∧ d_status d' = d_status d
              ∧ (d_is_on d = true →
                 d_device_type d ∈ ["light"; "fan"; "projector"] →
                 d_is_on d' = false
                 ∧ ∃ k, (ticks s < k < ticks s')%nat
                        ∧ d_last_switched d' = Some (clock k))
              ∧ (d_is_on d = false
                 ∨ d_device_type d ∉ ["light"; "fan"; "projector"] →
                 d' = d))
  ∧ (∀ R, (∀ r, r ∈ rooms s → r_id r = R →
                r_occupancy r ≠ 0 ∨ r_is_critical r = true) →
          room_devices R s' = room_devices R s)
  ∧ rooms s' = rooms s
  ∧ system_alerts s' = system_alerts s.
Proof.
  intros Hact Hpk.
  destruct (auto_off_pass_rows self s Hact Hpk) as (Heff & Hrest).
  cbv zeta. split; [done|]. split; [|done].
  intros r i d Hr Hocc Hc Hi.
  destruct (Forall2_lookup_l _ _ _ _ _ (Heff r Hr Hocc Hc) Hi)
    as (d' & Hi' & Hd').
  exists d'. split; [done|]. unfold auto_off_effect in Hd'.
  destruct (decide _) as [[Hon Hctl]|Hno].
  - destruct Hd' as (k & Hk & ->). cbn. do 5 (split; [done|]). split.
    + intros _ _. split; [done|]. exists k. split; [lia|done].
    + intros [Hoff|Hty]; [congruence|by destruct Hty].
  - subst d'. do 5 (split; [done|]). split; [|done].
    intros Hon' Hctl. by destruct Hno.
Qed.

(** X13: the pass appends one "Auto OFF" row, by user 1, for each device
    it switches off and nothing else: the rows name, room after room in
    table order and device after device in table order, the devices of
    the selected rooms that were on and auto-controllable. *)
Theorem auto_off_pass_log self s :
  auto_control_active self = true →
  primary_keys s →
  activity_logs (auto_control_empty_rooms clock self s)
  = (activity_logs s
       ++ (empty_rooms s ≫= λ r,
             auto_off_log ∘ d_id
               <$> filter (auto_off_target (r_id r)) (devices s)))%list.
Proof.
  intros Hact [Hrk Hdk].
  rewrite auto_control_empty_rooms_active by done.
  destruct (auto_off_rooms_spec (empty_rooms (tick s)) (tick s))
    as (_ & _ & Hl & _); [done| |].
  { apply (sublist_NoDup _ (r_id <$> rooms s)); [done|].
    apply fmap_sublist. unfold empty_rooms. apply sublist_filter. }
  rewrite Hl. change (activity_logs (tick s)) with (activity_logs s).
  f_equal. apply Forall_bind_ext, Forall_forall. intros r _.
  rewrite targets_active_devices. change (devices (tick s)) with (devices s).
  by rewrite <- list_fmap_compose.
Qed.

Lemma auto_off_devices_nothing L : ∀ s,
  (∀ i ty, (i, ty) ∈ L → ¬ auto_controllable ty) →
  foldl (auto_off_device clock) s L = s.
Proof.
  induction L as [|[i ty] L IH]; intros s HL; [done|].
  change (foldl (auto_off_device clock) s ((i, ty) :: L))
    with (foldl (auto_off_device clock) (auto_off_device clock s (i, ty)) L).
  destruct (auto_off_device_cases clock s i ty) as [[_ ->]|[Hc _]].
  - apply IH. intros i' ty' Hin. eapply HL. by right.
  - exfalso. eapply HL; [left|done].
Qed.

(** When no selected room holds a device to switch off, the pass only
    reads the clock. *)
Lemma auto_off_nothing_to_do self s :
  auto_control_active self = true →
  (∀ r d, r ∈ empty_rooms s → d ∈ devices s → ¬ auto_off_target (r_id r) d) →
  auto_control_empty_rooms clock self s = tick s.
Proof.
  intros Hact Hnone. rewrite auto_control_empty_rooms_active by done.
  change (empty_rooms (tick s)) with (empty_rooms s).
  assert (Hrooms : ∀ RL, (∀ r, r ∈ RL → r ∈ empty_rooms s) →
                         foldl (auto_off_room clock) (tick s) RL = tick s).
  { induction RL as [|r RL IH]; intros HRL; [done|].
    change (foldl (auto_off_room clock) (tick s) (r :: RL))
      with (foldl (auto_off_room clock) (auto_off_room clock (tick s) r) RL).
    assert (auto_off_room clock (tick s) r = tick s) as ->.
    { unfold auto_off_room. apply auto_off_devices_nothing.
      intros i ty (d & Hd & Hrd & Hon & -> & ->)%active_devices_elem Hc.
      apply (Hnone r d); [apply HRL; left|done|done]. }
    apply IH. intros r' Hr'. apply HRL. by right. }
  by apply Hrooms.
Qed.

(** X14: the empty-room pass is idempotent: a second pass right after the
    first finds nothing to switch off; it changes no device, appends no
    log row and only reads the clock once. *)
Theorem auto_off_pass_idempotent self s :
  auto_control_active self = true →
  primary_keys s →
  let s1 := auto_control_empty_rooms clock self s in
  auto_control_empty_rooms clock self s1 = tick s1.
Proof.
  intros Hact Hpk. cbv zeta.
  destruct (auto_off_pass_rows self s Hact Hpk) as (Heff & _ & Hrooms & _).
  apply auto_off_nothing_to_do; [done|].
  intros r d' [[Hocc Hc] Hr]%list_elem_of_filter Hd' (Hrd & Hon & Hctl).
  rewrite Hrooms in Hr.
  assert (d' ∈ room_devices (r_id r)
                 (auto_control_empty_rooms clock self s)) as Hin
    by (by apply list_elem_of_filter).
  apply list_elem_of_lookup_1 in Hin as [i Hi].
  destruct (Forall2_lookup_r _ _ _ _ _ (Heff r Hr Hocc Hc) Hi)
    as (d & _ & Hd).
  unfold auto_off_effect in Hd. destruct (decide _) as [Hyes|Hno].
  - destruct Hd as (k & _ & ->). done.
  - subst d'. tauto.
Qed.

End AutoOffMore.

(** ** Emergency shutdown, further *)

Section ShutdownMore.
Context (clock : nat → Z) (text_matches : Z → string → bool).

(** X15: an emergency shutdown scoped to a building and a floor switches
    off exactly the devices of the non-critical rooms that match both, and
    it stamps [last_switched] of every such device with the instant of the
    shutdown, also of a device that was already off; every other device
    keeps its row. *)
Theorem emergency_shutdown_building_and_floor b f s :
  truthy b = true → truthy f = true →
  NoDup (r_id <$> rooms s) →
  let s' := emergency_shutdown clock text_matches b f s in
  let now := clock (ticks s) in
  ∀ i d r,
    devices s !! i = Some d → r ∈ rooms s → r_id r = d_room_id d →
    devices s' !! i
    = Some (if negb (r_is_critical r)
               && sql_eq text_matches (r_building_id r) b
               && sql_eq text_matches (r_floor r) f
            then mk_device (d_id d) (d_room_id d) (d_device_name d)
                           (d_device_type d) false (Some now) (d_status d)
            else d).
Proof.
  intros Hb Hf Hnd. cbv zeta. intros i d r Hi Hr Hrd.
  rewrite emergency_shutdown_devices, sql_update_lookup, Hi. cbn.
  assert (Hscope : d_room_id d ∈ shutdown_rooms text_matches b f s
                   ↔ shutdown_scope text_matches b f r = true).
  { rewrite shutdown_rooms_elem. split.
    - intros (r' & Hr' & Hid & Hs).
      by rewrite <- (keyed_inj r_id (rooms s) r' r) by (done || congruence).
    - intros Hs. by exists r. }
  unfold shutdown_scope in Hscope. rewrite Hb, Hf in Hscope.
  destruct (decide _) as [Hin|Hout].
  - apply Hscope in Hin. by rewrite Hin.
  - destruct (negb (r_is_critical r) && _ && _); [|done].
    by destruct Hout; apply Hscope.
Qed.

(** X16: right after a facility-wide emergency shutdown the empty-room
    rule finds nothing to switch off: its pass changes no device, logs
    nothing and only reads the clock. *)
Theorem auto_off_after_full_shutdown self s :
  auto_control_active self = true →
  let s1 := emergency_shutdown clock text_matches PyNone PyNone s in
  auto_control_empty_rooms clock self s1 = tick s1.
Proof.
  intros Hact. cbv zeta. apply auto_off_nothing_to_do; [done|].
  intros r d' [[Hocc Hc] Hr]%list_elem_of_filter Hd' (Hrd & Hon & _).
  rewrite emergency_shutdown_devices in Hd'.
  apply list_elem_of_fmap in Hd' as (d & -> & Hd).
  change (rooms (emergency_shutdown clock text_matches PyNone PyNone s))
    with (rooms s) in Hr.
  destruct (decide _) as [Hin|Hout]; [done|].
  apply Hout, shutdown_rooms_elem. exists r. repeat split; [done..|].
  unfold shutdown_scope. by rewrite Hc.
Qed.

End ShutdownMore.

(** ** The rotation pass as a whole *)

Lemma Forall2_impl_elem {A B} (P Q : A → B → Prop) (l : list A)
      (k : list B) :
  Forall2 P l k →
  (∀ x y, x ∈ l → y ∈ k → P x y → Q x y) →
  Forall2 Q l k.
Proof.
  intros HP. induction HP as [|x y l k Hxy _ IH]; intros HQ; [constructor|].
  constructor; [apply HQ; by try left|].
  apply IH. intros x' y' Hx' Hy'. apply HQ; by right.
Qed.

Lemma rotation_touch_refl cutoff (l : list device) :
  Forall2 (rotation_touch cutoff) l l.
Proof.
  apply Forall_Forall2_diag, Forall_forall. intros d _.
  repeat split. by left.
Qed.

Lemma rotation_touch_keys cutoff (l0 l : list device) :
  Forall2 (rotation_touch cutoff) l0 l → key <$> l = key <$> l0.
Proof.
  induction 1 as [|d c l0 l (Hk & _) _ IH]; [done|].
  by rewrite !fmap_cons, IH, Hk.
Qed.

Lemma on_count_Permutation R (l k : list device) :
  l ≡ₚ k → on_count R l = on_count R k.
Proof. intros Hp. unfold on_count. by rewrite Hp. Qed.

Lemma swapped_id i j now d : d_id (swapped i j now d) = d_id d.
Proof. unfold swapped. by repeat destruct (decide _). Qed.

Lemma on_count_cons R d (l : list device) :
  on_count R (d :: l)
  = ((if Z.eqb (d_room_id d) R && d_is_on d then 1 else 0) + on_count R l)%nat.
Proof.
  unfold on_count. rewrite filter_cons.
  destruct (decide _) as [[HR Hon]|Hn]; cbn [length].
  - by rewrite (proj2 (Z.eqb_eq _ _) HR), Hon.
  - destruct (Z.eqb_spec (d_room_id d) R); [|done].
    destruct (d_is_on d) eqn:Hon; [|done]. by destruct Hn.
Qed.

(** A swap of a unit that is on for a unit of the same room that is off
    keeps the number of devices that are on, in every room. *)
Lemma on_count_swapped R (l : list device) a y now :
  NoDup (d_id <$> l) → a ∈ l → y ∈ l →
  d_is_on a = true → d_is_on y = false → d_room_id a = d_room_id y →
  on_count R (swapped (d_id a) (d_id y) now <$> l) = on_count R l.
Proof.
  intros Hnd Ha Hy Hon Hoff Hroom.
  assert (Hay : a ≠ y) by congruence.
  apply elem_of_Permutation in Ha as [l1 Hp1].
  assert (y ∈ l1) as Hy1.
  { rewrite Hp1 in Hy. apply elem_of_cons in Hy as [?|?]; [congruence|done]. }
  apply elem_of_Permutation in Hy1 as [l2 Hp2].
  assert (Hp : l ≡ₚ a :: y :: l2) by (by rewrite Hp1, Hp2).
  rewrite Hp in Hnd. rewrite !fmap_cons in Hnd.
  apply NoDup_cons in Hnd as [Hna [Hny Hnd]%NoDup_cons].
  apply not_elem_of_cons in Hna as [Hne Hna].
  rewrite (on_count_Permutation R _ _ (fmap_Permutation _ _ _ Hp)).
  rewrite (on_count_Permutation R _ _ Hp).
  assert (Hl2 : swapped (d_id a) (d_id y) now <$> l2 = l2).
  { rewrite <- (list_fmap_id l2) at 2. apply list_fmap_ext.
    intros _ d Hd%list_elem_of_lookup_2. cbn. unfold swapped.
    rewrite !decide_False; [done| |].
    - intros Heq. apply Hny. rewrite <- Heq. by apply list_elem_of_fmap_2.
    - intros Heq. apply Hna. rewrite <- Heq. by apply list_elem_of_fmap_2. }
  rewrite !fmap_cons, Hl2. unfold swapped at 1 2.
  rewrite (decide_True _ _ eq_refl).
  rewrite (decide_False (P := d_id y = d_id a)) by done.
  rewrite (decide_True _ _ eq_refl).
  rewrite !on_count_cons. cbn [switch d_room_id d_is_on].
  rewrite Hon, Hoff, Hroom, !andb_false_r, !andb_true_r. lia.
Qed.

Section RotationMore.
Context (clock : nat → Z).

Lemma rotate_fold_touched cutoff (l0 : list device) L : ∀ s,
  NoDup (d_id <$> l0) →
  Forall2 (rotation_touch cutoff) l0 (devices s) →
  (∀ i r nm ls, (i, r, nm, ls) ∈ L →
                ∃ d0, d0 ∈ l0 ∧ overdue cutoff d0 ∧ d_id d0 = i) →
  Forall2 (rotation_touch cutoff) l0
          (devices (foldl (rotate_one clock) s L)).
Proof.
  induction L as [|[[[i r] nm] ls] L IH]; intros s Hnd HT HL; [done|].
  change (foldl (rotate_one clock) s ((i, r, nm, ls) :: L))
    with (foldl (rotate_one clock) (rotate_one clock s (i, r, nm, ls)) L).
  apply IH; [done| |intros; eapply HL; by right].
  destruct (rotate_one_cases clock s i r nm ls)
    as [[_ ->]|(y & Hy & ->)]; [done|].
  apply first_by_last_switched_elem, list_elem_of_filter in Hy as [Hel Hy].
  destruct (HL i r nm ls) as (d0 & Hd0 & Hov & Hid0); [left|].
  assert (Hnds : NoDup (d_id <$> devices s)).
  { by rewrite ids_of_keys, (rotation_touch_keys cutoff l0),
      <- ids_of_keys. }
  cbn [devices]. unfold sql_update. rewrite !Forall2_fmap_r.
  eapply Forall2_impl_elem; [done|].
  intros d c Hd Hc (Hk & Hst & Hcase). cbn.
  assert (Hidc : d_id c = d_id d) by (unfold key in Hk; congruence).
  assert (Hwritten :
            d_id c = i ∨ d_id c = d_id y →
            overdue cutoff d ∨ eligible (d_room_id d) d).
  { intros [Hi|Hyid].
    - left. assert (d = d0) as ->; [|done].
      apply (keyed_inj d_id l0); [done..|congruence].
    - assert (c = y) as -> by (by apply (keyed_inj d_id (devices s))).
      destruct Hcase as [->|Hcase]; [|done].
      right. destruct Hel as (<- & ?). by split. }
  destruct (decide (d_id c = i)) as [Hi|Hi];
    (destruct (decide (d_id _ = d_id y)) as [Hyid|Hyid]);
    cbn in Hyid; repeat split; try done; try (right; apply Hwritten; tauto).
Qed.

(** X17: what a rotation pass may write.  Every device keeps its
    identifier, room, kind and status, and a row is written only if the
    device was an overdue AC or an eligible replacement (an AC that is off
    and active) when the pass began.  So a device that was off and is on
    afterwards was an eligible replacement (never an inactive unit, never
    a device that is not an AC), and an AC that was on and not overdue is
    left exactly as it was. *)
Theorem rotation_touches_only self s :
  NoDup (d_id <$> devices s) →
  let cutoff := clock (ticks s) - timedelta_hours 8 in
  let s' := ac_rotation_system clock self s in
  Forall2 (rotation_touch cutoff) (devices s) (devices s')
  ∧ (∀ i d d', devices s !! i = Some d → devices s' !! i = Some d' →
               d_is_on d = false → d_is_on d' = true →
               eligible (d_room_id d) d)
  ∧ (∀ i d d', devices s !! i = Some d → devices s' !! i = Some d' →
               d_is_on d = true → ¬ overdue cutoff d → d' = d).
Proof.
  intros Hnd cutoff s'.
  assert (HT : Forall2 (rotation_touch cutoff) (devices s) (devices s')).
  { subst s'. destruct (ac_rotation_active self) eqn:Hact; cycle 1.
    { unfold ac_rotation_system. rewrite Hact. apply rotation_touch_refl. }
    rewrite ac_rotation_system_active by done. fold cutoff.
    apply rotate_fold_touched; [done|apply rotation_touch_refl|].
    intros i r nm ls (d & Hd & Hov & -> & _)%overdue_acs_elem.
    by exists d. }
  split; [done|]. split.
  - intros i d d' Hi Hi' Hoff Hon.
    destruct (Forall2_lookup_lr _ _ _ _ _ _ HT Hi Hi') as (_ & _ & Hcase).
    destruct Hcase as [->|[(_ & Hon' & _)|?]]; [congruence|congruence|done].
  - intros i d d' Hi Hi' Hon Hnov.
    destruct (Forall2_lookup_lr _ _ _ _ _ _ HT Hi Hi') as (_ & _ & Hcase).
    destruct Hcase as [->|[?|(_ & _ & Hoff & _)]]; [done|done|congruence].
Qed.

Lemma rotate_fold_on_count R L : ∀ s,
  NoDup (d_id <$> devices s) →
  NoDup ((λ t, fst (fst (fst t))) <$> L) →
  (∀ i r nm ls, (i, r, nm, ls) ∈ L →
                ∃ a, a ∈ devices s ∧ d_id a = i ∧ d_is_on a = true
                     ∧ d_room_id a = r) →
  on_count R (devices (foldl (rotate_one clock) s L))
  = on_count R (devices s).
Proof.
  induction L as [|[[[i r] nm] ls] L IH]; intros s Hnd HndL HL; [done|].
  change (foldl (rotate_one clock) s ((i, r, nm, ls) :: L))
    with (foldl (rotate_one clock) (rotate_one clock s (i, r, nm, ls)) L).
  rewrite fmap_cons in HndL. cbn [fst] in HndL.
  apply NoDup_cons in HndL as [Hi HndL].
  destruct (rotate_one_cases clock s i r nm ls)
    as [[_ ->]|(y & Hy & ->)].
  { apply IH; [done..|]. intros; eapply HL; by right. }
  apply first_by_last_switched_elem, list_elem_of_filter in Hy
    as [(Hry & _ & Hoff & _) Hy].
  destruct (HL i r nm ls) as (a & Ha & <- & Hon & Hra); [left|].
  assert (Hay : d_id a ≠ d_id y).
  { intros Heq. assert (a = y) as ->
      by (by apply (keyed_inj d_id (devices s))). congruence. }
  set (s1 := mk_db _ _ _ _ _).
  assert (Hdev : devices s1
                 = swapped (d_id a) (d_id y) (clock (ticks s)) <$> devices s).
  { unfold s1. cbn. by apply swap_fused. }
  rewrite IH; [| |done|].
  - rewrite Hdev. apply on_count_swapped; [done..|congruence].
  - rewrite Hdev, <- list_fmap_compose.
    erewrite list_fmap_ext; [exact Hnd|].
    intros _ d _. cbn. apply swapped_id.
  - intros i' r' nm' ls' Hin.
    destruct (HL i' r' nm' ls') as (a' & Ha' & <- & Hon' & Hra'); [by right|].
    exists a'. split; [|done]. rewrite Hdev.
    assert (swapped (d_id a) (d_id y) (clock (ticks s)) a' = a') as <-.
    { unfold swapped. rewrite !decide_False; [done| |].
      - intros Heq. assert (a' = y) as ->
          by (by apply (keyed_inj d_id (devices s))). congruence.
      - intros Heq. apply Hi. rewrite <- Heq.
        by apply (list_elem_of_fmap_2' _ _ (d_id a', r', nm', ls')). }
    by apply list_elem_of_fmap_2.
Qed.

(** X18: a rotation pass never changes how many devices are on in a room:
    each swap switches one unit off and one unit of the same room on, so
    no room loses a running AC to the rotation. *)
Theorem rotation_keeps_on_count self s R :
  NoDup (d_id <$> devices s) →
  on_count R (devices (ac_rotation_system clock self s))
  = on_count R (devices s).
Proof.
  intros Hnd. destruct (ac_rotation_active self) eqn:Hact; cycle 1.
  { unfold ac_rotation_system. by rewrite Hact. }
  rewrite ac_rotation_system_active by done.
  rewrite rotate_fold_on_count; [done|done| |].
  - unfold overdue_acs. rewrite <- list_fmap_compose.
    apply (sublist_NoDup _ (d_id <$> devices s)); [done|].
    apply (fmap_sublist d_id). apply sublist_filter.
  - intros i r nm ls (d & Hd & (_ & Hon & _) & -> & ->)%overdue_acs_elem.
    by exists d.
Qed.

End RotationMore.

(** ** The further properties on the example facility *)

Lemma get_room_by_device_finds_witness :
  get_room_by_device 1 facility
  = Returns (Some (mk_room_status lobby "Fan 1" "fan")).
Proof.
  apply (get_room_by_device_finds facility lobby_fan lobby).
  - by_evaluation.
  - by_evaluation.
  - by_evaluation.
  - reflexivity.
Defined.

Lemma toggle_device_without_room_witness :
  stray_fan ∈ devices with_stray
  ∧ get_room_by_device 9 with_stray = Returns None
  ∧ toggle_device toggle_reports_on 9 1 true with_stray
    = (Returns (false, "Device not found"), with_stray).
Proof.
  split; [by_evaluation|].
  apply (toggle_device_without_room toggle_reports_on 9 1 true with_stray);
    [by_evaluation|].
  assert (Hall : Forall (λ d, Forall (λ r, d_id d = 9 → r_id r ≠ d_room_id d)
                                     (rooms with_stray))
                        (devices with_stray)) by by_evaluation.
  intros d r Hd Hr.
  exact (proj1 (Forall_forall _ _) (proj1 (Forall_forall _ _) Hall d Hd) r Hr).
Defined.

Lemma toggle_device_proceeds_witness :
  let logged :=
    insert_log (mk_log 7 "VIP Access" (VipRoomDeviceControl 8)) facility in
  toggle_device toggle_unavailable 8 7 false facility
  = (Returns (false, "Failed to toggle device"), logged)
  ∧ toggle_device toggle_unavailable 8 (2 ^ 63) false facility
    = (Raises OverflowError, facility)
  ∧ activity_logs logged = [mk_log 7 "VIP Access" (VipRoomDeviceControl 8)]
  ∧ devices logged = devices facility.
Proof.
  destruct (toggle_device_proceeds toggle_unavailable 7 false facility
              office_fan office ltac:(by_evaluation) ltac:(by_evaluation)
              ltac:(by_evaluation) eq_refl ltac:(by left)
              ltac:(by_evaluation)) as (Hgo & _ & Hlog & Hdev).
  destruct (toggle_device_proceeds toggle_unavailable (2 ^ 63) false facility
              office_fan office ltac:(by_evaluation) ltac:(by_evaluation)
              ltac:(by_evaluation) eq_refl ltac:(by left)
              ltac:(by_evaluation)) as (_ & Hraise & _).
  split; [apply Hgo; right; by_evaluation|].
  split; [apply Hraise; [reflexivity|by_evaluation]|].
  split; [exact Hlog|exact Hdev].
Defined.

Lemma auto_off_pass_effect_witness :
  Forall2 (auto_off_effect nine_hours_on 1 3) (room_devices 1 facility)
          (room_devices 1
             (auto_control_empty_rooms nine_hours_on DeviceController
                                       facility))
  ∧ (∃ d', room_devices 1
             (auto_control_empty_rooms nine_hours_on DeviceController
                                       facility) !! 0%nat = Some d'
           ∧ d_id d' = 1 ∧ d_is_on d' = false
           ∧ ∃ k, (0 < k < 3)%nat
                  ∧ d_last_switched d' = Some (nine_hours_on k))
  ∧ room_devices 3 (auto_control_empty_rooms nine_hours_on DeviceController
                                             facility)
    = room_devices 3 facility.
Proof.
  destruct (auto_off_pass_effect nine_hours_on DeviceController facility
              eq_refl ltac:(by_evaluation)) as (Heff & Hrow & Hfr & _).
  split; [|split].
  - apply (Heff lobby); [by_evaluation|reflexivity..].
  - destruct (Hrow lobby 0%nat lobby_fan ltac:(by_evaluation) eq_refl
                eq_refl eq_refl)
      as (d' & Hd' & Hid & _ & _ & _ & _ & Hoff & _).
    exists d'. split; [exact Hd'|]. split; [exact Hid|].
    apply Hoff; [reflexivity|by_evaluation].
  - apply Hfr.
    apply (proj1 (Forall_forall
                    (λ r, r_id r = 3 →
                          r_occupancy r ≠ 0 ∨ r_is_critical r = true)
                    (rooms facility))).
    by_evaluation.
Defined.

Lemma auto_off_pass_log_witness :
  activity_logs (auto_control_empty_rooms nine_hours_on DeviceController
                                          facility)
  = [auto_off_log 1; auto_off_log 3].
Proof.
  exact (auto_off_pass_log nine_hours_on DeviceController facility eq_refl
           ltac:(by_evaluation)).
Defined.

Lemma auto_off_pass_idempotent_witness :
  let s1 := auto_control_empty_rooms nine_hours_on DeviceController
                                     facility in
  auto_control_empty_rooms nine_hours_on DeviceController s1 = tick s1.
Proof.
  exact (auto_off_pass_idempotent nine_hours_on DeviceController facility
           eq_refl ltac:(by_evaluation)).
Defined.

Lemma emergency_shutdown_building_and_floor_witness :
  let s' := emergency_shutdown nine_hours_on no_text_match (PyInt 2)
                               (PyInt 1) facility in
  devices s' !! 7%nat
  = Some (mk_device 8 3 "Fan 1" "fan" false (Some (nine_hours_on 0)) "active")
  ∧ devices s' !! 0%nat = Some lobby_fan.
Proof.
  split.
  - exact (emergency_shutdown_building_and_floor nine_hours_on no_text_match
             (PyInt 2) (PyInt 1) facility eq_refl eq_refl
             ltac:(by_evaluation) 7%nat office_fan office eq_refl
             ltac:(by_evaluation) eq_refl).
  - exact (emergency_shutdown_building_and_floor nine_hours_on no_text_match
             (PyInt 2) (PyInt 1) facility eq_refl eq_refl
             ltac:(by_evaluation) 0%nat lobby_fan lobby eq_refl
             ltac:(by_evaluation) eq_refl).
Defined.

Lemma auto_off_after_full_shutdown_witness :
  let s1 := emergency_shutdown nine_hours_on no_text_match PyNone PyNone
                               facility in
  auto_control_empty_rooms nine_hours_on DeviceController s1 = tick s1.
Proof.
  exact (auto_off_after_full_shutdown nine_hours_on no_text_match
           DeviceController facility eq_refl).
Defined.

Lemma rotation_touches_only_witness :
  Forall2 (rotation_touch (nine_hours_on 0 - timedelta_hours 8))
          (devices two_overdue)
          (devices (ac_rotation_system nine_hours_on DeviceController
                                       two_overdue)).
Proof.
  exact (proj1 (rotation_touches_only nine_hours_on DeviceController
                  two_overdue ltac:(by_evaluation))).
Defined.

Lemma rotation_keeps_on_count_witness :
  on_count 1 (devices (ac_rotation_system nine_hours_on DeviceController
                                          two_overdue)) = 2%nat
  ∧ on_count 1 (devices two_overdue) = 2%nat.
Proof.
  split; [|reflexivity].
  exact (rotation_keeps_on_count nine_hours_on DeviceController two_overdue 1
           ltac:(by_evaluation)).
Defined.

End ControlProofs.

(** * Properties of the bulk buttons (app.py) *)

Module AppProofs.
Import Store App.

Section WithClock.
Variable clock : nat -> Z.
Context `{!Conversions} `{!Page}.

Lemma get_devices_by_room_elem room_number s dev :
  dev ∈ get_devices_by_room room_number s
  ↔ sqlite_int room_number
    ∧ devices s !! fst dev = Some (snd dev)
    ∧ room_id (snd dev) = VInt room_number.
Proof.
  unfold get_devices_by_room.
  destruct (decide (sqlite_int room_number)) as [Hin|Hout].
  - rewrite merge_sort_Permutation, list_elem_of_filter.
    destruct dev as [id r]. rewrite elem_of_map_to_list. cbn. tauto.
  - split; [by intros ?%elem_of_nil|tauto].
Qed.

Lemma get_devices_by_room_NoDup room_number s :
  NoDup (get_devices_by_room room_number s).*1.
Proof.
  unfold get_devices_by_room.
  destruct (decide (sqlite_int room_number)); [|constructor].
  rewrite merge_sort_Permutation.
  apply (sublist_NoDup _ (map_to_list (devices s)).*1).
  - apply NoDup_fst_map_to_list.
  - apply fmap_sublist, sublist_filter.
Qed.

Lemma set_each_cons want dev L s :
  set_each clock want (dev :: L) s
  = set_each clock want L (snd (toggle_device clock (fst dev) (want dev) s)).
Proof. done. Qed.

Lemma set_each_spec want L : ∀ s,
  NoDup L.*1 →
  let s' := set_each clock want L s in
  (∀ dev, dev ∈ L →
          (is_on <$> device_status s' !! fst dev) = Some (want dev))
  ∧ (∀ id, id ∉ L.*1 → device_status s' !! id = device_status s !! id)
  ∧ devices s' = devices s
  ∧ device_logs s' = device_logs s
  ∧ system_alerts s' = system_alerts s.
Proof.
  induction L as [|dev L IH]; intros s Hnd.
  { cbn. repeat split. by intros dev ?%elem_of_nil. }
  rewrite fmap_cons in Hnd. apply NoDup_cons in Hnd as [Hdev Hnd].
  rewrite set_each_cons. cbv zeta.
  set (s1 := snd (toggle_device clock (fst dev) (want dev) s)).
  destruct (IH s1 Hnd) as (Hin & Hout & Hdv & Hlg & Hal).
  destruct (StoreProofs.update_device_status_frame clock (fst dev)
              (want dev) ∅ s) as (Hdv1 & Hlg1 & Hal1 & Hfr1).
  fold (toggle_device clock (fst dev) (want dev) s) in Hdv1, Hlg1, Hal1, Hfr1.
  fold s1 in Hdv1, Hlg1, Hal1, Hfr1.
  split; [|split; [|split; [|split]]].
  - intros dev' [->|Hdev']%elem_of_cons; [|by apply Hin].
    rewrite Hout by done. unfold s1, toggle_device, update_device_status.
    rewrite StoreProofs.kwargs_bind_empty.
    cbn. destruct (device_status s !! fst dev); cbn;
      by rewrite lookup_insert_eq.
  - intros id [Hne Hid]%not_elem_of_cons. rewrite Hout by done.
    by apply Hfr1.
  - by rewrite Hdv.
  - by rewrite Hlg.
  - by rewrite Hal.
Qed.

Lemma turn_all_off_set_each room_number s :
  turn_all_off clock room_number s
  = if bulk_operations_reached room_number s
    then set_each clock (λ _, false) (get_devices_by_room room_number s) s
    else s.
Proof. done. Qed.

Lemma fans_only_set_each room_number s :
  fans_only clock room_number s
  = if bulk_operations_reached room_number s
    then set_each clock (λ dev, bool_decide (device_type (snd dev) = "fan"))
                  (get_devices_by_room room_number s) s
    else s.
Proof.
  unfold fans_only, set_each.
  destruct (bulk_operations_reached room_number s); [|done].
  generalize (get_devices_by_room room_number s).
  intros L. revert s. induction L as [|dev L IH]; intros s; [done|].
  cbn [foldl]. rewrite <- IH.
  by destruct (decide (device_type (snd dev) = "fan"));
    [rewrite bool_decide_eq_true_2|rewrite bool_decide_eq_false_2].
Qed.

Lemma acs_only_set_each room_number s :
  acs_only clock room_number s
  = if bulk_operations_reached room_number s
    then set_each clock (λ dev, bool_decide (device_type (snd dev) = "ac"))
                  (get_devices_by_room room_number s) s
    else s.
Proof.
  unfold acs_only, set_each.
  destruct (bulk_operations_reached room_number s); [|done].
  generalize (get_devices_by_room room_number s).
  intros L. revert s. induction L as [|dev L IH]; intros s; [done|].
  cbn [foldl]. rewrite <- IH.
  by destruct (decide (device_type (snd dev) = "ac"));
    [rewrite bool_decide_eq_true_2|rewrite bool_decide_eq_false_2].
Qed.

Lemma cards_render room_number s (Q : string * device_row → Prop)
      `{!∀ d, Decision (Q d)} :
  (∀ id r, devices s !! id = Some r → room_id r = VInt room_number →
           Q (id, r) → is_Some (device_status s !! id)) →
  forallb (λ device, renders (display_device_card device s))
          (filter Q (get_devices_by_room room_number s)) = true.
Proof.
  intros Hrows. apply forallb_forall.
  intros [id r] [HQ Hin]%list_elem_of_In%list_elem_of_filter.
  apply get_devices_by_room_elem in Hin as (_ & Hid & Hroom). cbn in *.
  destruct (Hrows id r Hid Hroom HQ) as [row Hrow].
  unfold display_device_card, get_device_status. cbn. by rewrite Hrow.
Qed.

(** The bulk buttons are reached when the header renders and every fan and
    every AC of a room that has devices has a status row. *)
Lemma bulk_operations_reached_intro room_number s id r :
  header_renders room_number = true →
  sqlite_int room_number →
  devices s !! id = Some r → room_id r = VInt room_number →
  (∀ id' r', devices s !! id' = Some r' → room_id r' = VInt room_number →
             device_type r' = "fan" ∨ device_type r' = "ac" →
             is_Some (device_status s !! id')) →
  bulk_operations_reached room_number s = true.
Proof.
  intros Hhead Hrange Hid Hroom Hrows. unfold bulk_operations_reached.
  rewrite Hhead. cbn [andb]. cbv zeta.
  rewrite !cards_render by (intros; eapply Hrows; eauto).
  rewrite !andb_true_r. apply negb_true_iff, bool_decide_eq_false_2.
  intros Hnil.
  assert (Hin : (id, r) ∈ get_devices_by_room room_number s)
    by (by apply get_devices_by_room_elem).
  rewrite Hnil in Hin. by apply elem_of_nil in Hin.
Qed.

(** A fan or an AC of the room without a status row: its card raises, and
    the run ends before the bulk buttons. *)
Lemma bulk_operations_unreached room_number s id r :
  devices s !! id = Some r → room_id r = VInt room_number →
  device_type r = "fan" ∨ device_type r = "ac" →
  device_status s !! id = None →
  bulk_operations_reached room_number s = false.
Proof.
  intros Hid Hroom Hty Hnone. unfold bulk_operations_reached. cbv zeta.
  destruct (header_renders room_number); [cbn [andb]|done].
  destruct (decide (sqlite_int room_number)) as [Hrange|Hout]; cycle 1.
  { unfold get_devices_by_room. by rewrite decide_False. }
  assert (Hin : (id, r) ∈ get_devices_by_room room_number s)
    by (by apply get_devices_by_room_elem).
  assert (Hcard : renders (display_device_card (id, r) s) = false).
  { unfold display_device_card, get_device_status. cbn. by rewrite Hnone. }
  assert (Hfail : ∀ (Q : string * device_row → Prop)
                    `{!∀ d, Decision (Q d)},
             Q (id, r) →
             forallb (λ device, renders (display_device_card device s))
                     (filter Q (get_devices_by_room room_number s))
             = false).
  { intros Q ? HQ. apply not_true_is_false. intros Hall.
    rewrite forallb_forall in Hall.
    rewrite (Hall (id, r)) in Hcard; [done|].
    apply list_elem_of_In, list_elem_of_filter. by split. }
  destruct Hty as [Hty|Hty].
  - rewrite (Hfail (λ d, device_type (snd d) = "fan")) by done.
    by rewrite andb_false_r.
  - rewrite (Hfail (λ d, device_type (snd d) = "ac")) by done.
    by rewrite andb_false_r.
Qed.

(** X19: the bulk buttons of a room.  In a run of the page that reaches
    them (the header renders, and every fan and every AC of the room has
    a status row, so that its card renders), after "Turn All OFF" every
    device of the room has a status row that is off, after "Fans Only" a
    status row that is on exactly for the fans, and after "ACs Only" one
    that is on exactly for the ACs.  When a fan or an AC of the room has
    no status row its card raises before the buttons exist: no run of the
    page presses them, and the store is as before. *)
Theorem bulk_buttons_set_room room_number s id r :
  devices s !! id = Some r →
  room_id r = VInt room_number →
  (header_renders room_number = true →
   - 2 ^ 63 ≤ room_number < 2 ^ 63 →
   (∀ id' r', devices s !! id' = Some r' → room_id r' = VInt room_number →
              device_type r' = "fan" ∨ device_type r' = "ac" →
              is_Some (device_status s !! id')) →
   bulk_operations_reached room_number s = true
   ∧ (is_on <$> device_status (turn_all_off clock room_number s) !! id)
     = Some false
   ∧ (is_on <$> device_status (fans_only clock room_number s) !! id)
     = Some (bool_decide (device_type r = "fan"))
   ∧ (is_on <$> device_status (acs_only clock room_number s) !! id)
     = Some (bool_decide (device_type r = "ac")))
  ∧ (device_type r = "fan" ∨ device_type r = "ac" →
     device_status s !! id = None →
     bulk_operations_reached room_number s = false
     ∧ turn_all_off clock room_number s = s
     ∧ fans_only clock room_number s = s
     ∧ acs_only clock room_number s = s).
Proof.
  intros Hid Hroom. split.
  - intros Hhead Hrange Hrows.
    assert (Hreach : bulk_operations_reached room_number s = true)
      by (by eapply bulk_operations_reached_intro).
    split; [done|].
    assert (Hin : (id, r) ∈ get_devices_by_room room_number s)
      by (by apply get_devices_by_room_elem).
    rewrite turn_all_off_set_each, fans_only_set_each, acs_only_set_each.
    rewrite Hreach.
    pose proof (get_devices_by_room_NoDup room_number s) as Hnd.
    destruct (set_each_spec (λ _, false) _ s Hnd) as (Hoff & _).
    destruct (set_each_spec
                (λ dev, bool_decide (device_type (snd dev) = "fan")) _ s Hnd)
      as (Hfan & _).
    destruct (set_each_spec
                (λ dev, bool_decide (device_type (snd dev) = "ac")) _ s Hnd)
      as (Hac & _).
    split; [exact (Hoff (id, r) Hin)|].
    split; [exact (Hfan (id, r) Hin)|exact (Hac (id, r) Hin)].
  - intros Hty Hnone.
    assert (Hreach : bulk_operations_reached room_number s = false)
      by (by eapply bulk_operations_unreached).
    unfold turn_all_off, fans_only, acs_only. by rewrite Hreach.
Qed.

(** X20: the bulk buttons of a room write nothing outside it: the status
    of every identifier that is not a device of the room (a device of
    another room, or no device at all) reads as before, and the device
    table, the device log and the alerts are not written. *)
Theorem bulk_buttons_frame room_number s id :
  (∀ r, devices s !! id = Some r → room_id r ≠ VInt room_number) →
  ∀ s', s' = turn_all_off clock room_number s
        ∨ s' = fans_only clock room_number s
        ∨ s' = acs_only clock room_number s →
        device_status s' !! id = device_status s !! id
        ∧ devices s' = devices s
        ∧ device_logs s' = device_logs s
        ∧ system_alerts s' = system_alerts s.
Proof.
  intros Hout s' Hs'.
  assert (Hnin : id ∉ (get_devices_by_room room_number s).*1).
  { intros ([id' r] & -> & (_ & Hd & Hr)%get_devices_by_room_elem)
             %list_elem_of_fmap.
    cbn in *. by eapply Hout. }
  rewrite turn_all_off_set_each, fans_only_set_each, acs_only_set_each in Hs'.
  destruct (bulk_operations_reached room_number s);
    [|by destruct Hs' as [->|[->| ->]]].
  pose proof (get_devices_by_room_NoDup room_number s) as Hnd.
  destruct Hs' as [->|[->| ->]].
  - destruct (set_each_spec (λ _, false) _ s Hnd) as (_ & Hfr & Hrest).
    by rewrite Hfr.
  - destruct (set_each_spec
                (λ dev, bool_decide (device_type (snd dev) = "fan")) _ s Hnd)
      as (_ & Hfr & Hrest).
    by rewrite Hfr.
  - destruct (set_each_spec
                (λ dev, bool_decide (device_type (snd dev) = "ac")) _ s Hnd)
      as (_ & Hfr & Hrest).
    by rewrite Hfr.
Qed.

End WithClock.

#[local] Existing Instance Facility.kept_as_given.
#[local] Existing Instance Facility.header_shown.

Lemma bulk_buttons_set_room_witness :
  (is_on <$> Store.device_status Facility.stocked_store !! "AC-001-01")
  = Some false
  ∧ (is_on <$> Store.device_status
                 (turn_all_off Facility.store_clock 1 Facility.stocked_store)
               !! "AC-001-01") = Some false
  ∧ (is_on <$> Store.device_status
                 (fans_only Facility.store_clock 1 Facility.stocked_store)
               !! "AC-001-01") = Some false
  ∧ (is_on <$> Store.device_status
                 (acs_only Facility.store_clock 1 Facility.stocked_store)
               !! "AC-001-01") = Some true
  ∧ Store.device_status Facility.unstocked_store !! "AC-001-01" = None
  ∧ acs_only Facility.store_clock 1 Facility.unstocked_store
    = Facility.unstocked_store.
Proof.
  split; [reflexivity|].
  destruct (bulk_buttons_set_room Facility.store_clock 1
              Facility.stocked_store "AC-001-01" _ eq_refl eq_refl)
    as [Hpress _].
  destruct Hpress as (_ & Hoff & Hfan & Hac).
  { reflexivity. }
  { apply (bool_decide_unpack _). vm_compute. exact I. }
  { assert (Hall : map_Forall
                     (λ id' r', is_Some (Store.device_status
                                           Facility.stocked_store !! id')
                                ∨ Store.room_id r' ≠ VInt 1)
                     Facility.inventory).
    { apply (bool_decide_unpack _). vm_compute. exact I. }
    intros id' r' Hid' Hroom' _.
    destruct (Hall id' r' Hid') as [Hrow|Hother]; [exact Hrow|].
    destruct (Hother Hroom'). }
  destruct (bulk_buttons_set_room Facility.store_clock 1
              Facility.unstocked_store "AC-001-01" _ eq_refl eq_refl)
    as [_ Hraise].
  destruct (Hraise ltac:(by right) eq_refl) as (_ & _ & _ & Hsame).
  split; [exact Hoff|]. split; [exact Hfan|]. split; [exact Hac|].
  split; [reflexivity|exact Hsame].
Defined.

Lemma bulk_buttons_frame_witness :
  Store.device_status
    (fans_only Facility.store_clock 1 Facility.stocked_store) !! "FAN-002-01"
  = None
  ∧ Store.devices (fans_only Facility.store_clock 1 Facility.stocked_store)
    = Facility.inventory.
Proof.
  destruct (bulk_buttons_frame Facility.store_clock 1 Facility.stocked_store
              "FAN-002-01") with
    (s' := fans_only Facility.store_clock 1 Facility.stocked_store)
    as (Hst & Hdv & _); [|by right; left|by split].
  intros r Hr. vm_compute in Hr. by simplify_eq.
Defined.

End AppProofs.
